(** * AirFi: session funding and settlement orchestration

    A shallow embedding of the Go sources of the AirFi backend:
    - [cmd/backend] server: [NewServer], [createSessionFromWallet],
      [openChannelForSession], [processMicropayments],
      [handleExtendSession], [handleEndSession];
    - [internal/perun/cell_splitter.go]: [CountCells], [GetCells],
      [SplitCell], [EnsureMinimumCells];
    - [internal/perun/withdraw.go]: [WithdrawAll].

    Go's [int64] and [uint64] are integers of [Z] with the wrap-around
    written out; [big.Int] is [Z]; [time.Time] and [time.Duration] are
    nanosecond counts in [Z]; the session map is a [gmap]; everything
    the code does to the outside world (goroutines started, database
    writes, channel payments, transactions sent) is recorded in a trace
    in program order.  Logging is left out, except for the slices of
    strings taken for a log field, which can panic. *)

From stdpp Require Import gmap strings list fin_maps.
From Stdlib Require Import ZArith Lia.

Local Open Scope Z_scope.

(** ** Machine integers *)

Module Int64.
Definition min_int : Z := - 2 ^ 63.
Definition max_int : Z := 2 ^ 63 - 1.

Definition in_range (z : Z) : Prop := min_int <= z <= max_int.

(** Two's complement wrap-around of a mathematical result. *)
Definition wrap (z : Z) : Z := (z + 2 ^ 63) mod 2 ^ 64 - 2 ^ 63.

Definition add (a b : Z) : Z := wrap (a + b).
Definition sub (a b : Z) : Z := wrap (a - b).
Definition mul (a b : Z) : Z := wrap (a * b).

(** Go's [/] on integers truncates toward zero and panics on a zero
    divisor; [None] is the panic. *)
Definition quo (a b : Z) : option Z :=
  if decide (b = 0) then None else Some (wrap (a ÷ b)).
End Int64.

Module Uint64.
Definition max_uint : Z := 2 ^ 64 - 1.
Definition in_range (z : Z) : Prop := 0 <= z <= max_uint.
Definition wrap (z : Z) : Z := z mod 2 ^ 64.
Definition add (a b : Z) : Z := wrap (a + b).
Definition sub (a b : Z) : Z := wrap (a - b).
Definition mul (a b : Z) : Z := wrap (a * b).
End Uint64.

(** [Int64] of [big.Int]: the low 64 bits, read as a signed integer. *)
Definition BigInt64 (x : Z) : Z := Int64.wrap x.

(** [Div] of [big.Int]: Euclidean division, panicking on a zero divisor. *)
Definition BigDiv (x y : Z) : option Z :=
  if decide (y = 0) then None else Some (Z.sgn y * (x `div` Z.abs y)).

(** ** Time *)

Definition Time := Z.
Definition Duration := Z.
Definition Minute : Duration := 60 * 1000000000.

(** [t.After(u)] *)
Definition After (t u : Time) : bool := bool_decide (u < t).

(** [time.Duration(n) * time.Minute], an [int64] product. *)
Definition Minutes (n : Z) : Duration := Int64.mul n Minute.

(** [t.Add(d)] *)
Definition TimeAdd (t : Time) (d : Duration) : Time := t + d.

(** ** The server *)

Definition ShannonsPerCKB : Z := 100000000.

Record GuestSession := mkGuestSession {
  ID : string;
  GuestAddress : string;
  FundingAmount : Z;
  TotalPaid : Z;
  CreatedAt : Time;
  ExpiresAt : Time
}.

(** The fields of [Server] that the modelled functions read or write.
    The channel client and channel of a session are opaque handles of
    the payment-channel library; the oracles below take the session. *)
Record Server := mkServer {
  sessions : gmap string GuestSession;
  ratePerMin : Z;
  channelSetupCKB : Z;
  hostAddress : string
}.

Record ServerConfig := mkServerConfig {
  RatePerHour : Z;
  ChannelSetupCKB : Z;
  HostAddress : string
}.

(** [(ratePerHour * 100000000) / 60] in [int64]. *)
Definition ratePerMinShannons (ratePerHour : Z) : Z :=
  Int64.mul ratePerHour ShannonsPerCKB ÷ 60.

Definition NewServer (cfg : ServerConfig) : Server :=
  let channelSetupCKB :=
    if decide (ChannelSetupCKB cfg <= 0) then 1000 else ChannelSetupCKB cfg in
  {| sessions := ∅;
     ratePerMin := ratePerMinShannons (RatePerHour cfg);
     channelSetupCKB := channelSetupCKB;
     hostAddress := HostAddress cfg |}.

Definition updateRatePerMin (s : Server) (ratePerHour : Z) : Server :=
  {| sessions := sessions s;
     ratePerMin := ratePerMinShannons ratePerHour;
     channelSetupCKB := channelSetupCKB s;
     hostAddress := hostAddress s |}.

(** ** Session rows of the persistent store *)

Record GuestWallet := mkGuestWallet {
  WalletID : string;
  WalletAddress : string;
  WalletMAC : string;
  WalletIP : string;
  WalletPrivateKeyHex : string
}.

Record DbSession := mkDbSession {
  dbID : string;
  dbWalletID : string;
  dbGuestAddress : string;
  dbHostAddress : string;
  dbFundingCKB : Z;
  dbBalanceCKB : Z;
  dbSpentCKB : Z;
  dbCreatedAt : Time;
  dbExpiresAt : Time;
  dbStatus : string;
  dbMACAddress : string;
  dbIPAddress : string
}.

(** What [createSessionFromWallet] gets from outside: the random id, the
    clock, the rate stored in the database ([None] when the read fails),
    and whether [db.CreateSession] succeeds. *)
Record CreateEnv := mkCreateEnv {
  newSessionID : string;
  createNow : Time;
  dbRatePerHour : option Z;
  dbCreateOk : bool
}.

(** [ratePerHour, err := s.db.GetRatePerHour();
     if err != nil || ratePerHour <= 0 { ratePerHour = 500 }] *)
Definition effectiveRatePerHour (r : option Z) : Z :=
  match r with
  | Some r => if decide (r <= 0) then 500 else r
  | None => 500
  end.

(** [usableCKB := balanceCKB - reservedCKB; if usableCKB < 0 { usableCKB = 0 }] *)
Definition usableCKB (reservedCKB balanceCKB : Z) : Z :=
  let u := Int64.sub balanceCKB reservedCKB in
  if decide (u < 0) then 0 else u.

(** [usableShannons / ratePerMinShannons], with
    [usableShannons := usableCKB * 100000000]. *)
Definition sessionMinutes (usable ratePerHour : Z) : option Z :=
  Int64.quo (Int64.mul usable ShannonsPerCKB) (ratePerMinShannons ratePerHour).

(** The row handed to [db.CreateSession] and the returned session id
    (empty when the insert fails); [None] when the division panics. *)
Definition createSessionFromWallet (s : Server) (env : CreateEnv)
    (wallet : GuestWallet) (balanceCKB : Z) : option (DbSession * string) :=
  let usable := usableCKB (channelSetupCKB s) balanceCKB in
  let ratePerHour := effectiveRatePerHour (dbRatePerHour env) in
  mins ← sessionMinutes usable ratePerHour;
  let now := createNow env in
  let session :=
    {| dbID := newSessionID env;
       dbWalletID := WalletID wallet;
       dbGuestAddress := WalletAddress wallet;
       dbHostAddress := hostAddress s;
       dbFundingCKB := balanceCKB;
       dbBalanceCKB := usable;
       dbSpentCKB := 0;
       dbCreatedAt := now;
       dbExpiresAt := TimeAdd now (Minutes mins);
       dbStatus := "active";
       dbMACAddress := WalletMAC wallet;
       dbIPAddress := WalletIP wallet |} in
  Some (session, if dbCreateOk env then newSessionID env else EmptyString).

(** ** Effects

    What the server does to the outside world, in program order.  The
    two registry events mirror the map statements, so that their place
    among the other effects can be read off the trace. *)

Inductive Task :=
| settleExpiredSession (session : GuestSession)
| settleSessionInBackground (session : GuestSession).

Inductive Event :=
| EvGo (t : Task)
| EvDelete (sessionID : string)
| EvStore (sessionID : string)
| EvSendPayment (sessionID : string) (amount : Z) (ok : bool)
| EvUpdateSessionBalance (sessionID : string) (balanceCKB spentCKB : Z)
| EvUpdateSessionStatus (sessionID : string) (status : string)
| EvUpdateSessionChannel (sessionID : string) (status : string)
| EvUpdateWalletStatus (walletID : string) (status : string)
| EvExtendSession (sessionID : string) (additionalMins amountCKB : Z)
| EvDeauthorizeMAC (mac : string).

#[global] Instance GuestSession_eq_dec : EqDecision GuestSession.
Proof. solve_decision. Defined.
#[global] Instance Task_eq_dec : EqDecision Task.
Proof. solve_decision. Defined.
#[global] Instance Event_eq_dec : EqDecision Event.
Proof. solve_decision. Defined.

Inductive Response := StatusOK | StatusBadRequest | StatusNotFound.

Definition setSessions (s : Server) (m : gmap string GuestSession) : Server :=
  {| sessions := m;
     ratePerMin := ratePerMin s;
     channelSetupCKB := channelSetupCKB s;
     hostAddress := hostAddress s |}.

Definition setTotalPaid (g : GuestSession) (paid : Z) : GuestSession :=
  {| ID := ID g; GuestAddress := GuestAddress g;
     FundingAmount := FundingAmount g; TotalPaid := paid;
     CreatedAt := CreatedAt g; ExpiresAt := ExpiresAt g |}.

Definition setExpiresAt (g : GuestSession) (t : Time) : GuestSession :=
  {| ID := ID g; GuestAddress := GuestAddress g;
     FundingAmount := FundingAmount g; TotalPaid := TotalPaid g;
     CreatedAt := CreatedAt g; ExpiresAt := t |}.

(** ** The micropayment scheduler *)

Section Scheduler.
(** [clock id] is what [time.Now()] returns in the iteration that
    visits session [id]; [SendPayment] is the channel client's pay
    operation, [true] for a nil error. *)
Variable clock : string -> Time.
Variable SendPayment : GuestSession -> Z -> bool.

(** One iteration of the loop body of [processMicropayments]: what
    becomes of the visited entry ([None]: deleted) and the effects. *)
Definition tickSession (rate : Z) (sessionID : string)
    (session : GuestSession) : option GuestSession * list Event :=
  if After (clock sessionID) (ExpiresAt session) then
    (None, [EvGo (settleExpiredSession session); EvDelete sessionID])
  else
    let remaining := FundingAmount session - TotalPaid session in
    if decide (remaining < rate) then
      (None, [EvGo (settleExpiredSession session); EvDelete sessionID])
    else if SendPayment session rate then
      let session' := setTotalPaid session (TotalPaid session + rate) in
      let spentCKB := BigInt64 (TotalPaid session') ÷ ShannonsPerCKB in
      let balanceCKB :=
        Int64.sub (BigInt64 (FundingAmount session'))
                  (BigInt64 (TotalPaid session')) ÷ ShannonsPerCKB in
      (Some session',
       [EvSendPayment sessionID rate true;
        EvUpdateSessionBalance sessionID balanceCKB spentCKB])
    else
      (Some session, [EvSendPayment sessionID rate false]).

Definition tickStep (st : Server * list Event)
    (entry : string * GuestSession) : Server * list Event :=
  let r := tickSession (ratePerMin st.1) entry.1 entry.2 in
  (setSessions st.1
     (match r.1 with
      | None => delete entry.1 (sessions st.1)
      | Some session' => <[entry.1 := session']> (sessions st.1)
      end),
   st.2 ++ r.2).

(** [for sessionID, session := range s.sessions { ... }] visiting the
    entries in the order [order]; Go leaves the order unspecified. *)
Definition processMicropaymentsIn (order : list (string * GuestSession))
    (s : Server) : Server * list Event :=
  fold_left tickStep order (s, []).

Definition processMicropayments (s : Server) : Server * list Event :=
  processMicropaymentsIn (map_to_list (sessions s)) s.
End Scheduler.

(** An iteration order the Go runtime may pick for the session map. *)
Definition iteration_order (s : Server)
    (order : list (string * GuestSession)) : Prop :=
  order ≡ₚ map_to_list (sessions s).

(** ** Request handlers *)

(** [handleExtendSession].  [amount] is the parsed request amount,
    [None] when the body does not bind or the number does not parse.
    The result is [None] when [Div] panics on a zero rate. *)
Definition handleExtendSession (SendPayment : GuestSession -> Z -> bool)
    (s : Server) (sessionID : string) (amount : option Z)
    : option (Server * list Event * Response) :=
  match amount with
  | None => Some (s, [], StatusBadRequest)
  | Some amountCKB =>
    if decide (amountCKB <= 0) then Some (s, [], StatusBadRequest)
    else
      match sessions s !! sessionID with
      | None => Some (s, [], StatusNotFound)
      | Some session =>
        let amountShannons := amountCKB * ShannonsPerCKB in
        if SendPayment session amountShannons then
          let paid := setTotalPaid session (TotalPaid session + amountShannons) in
          q ← BigDiv amountShannons (ratePerMin s);
          let additionalMins := BigInt64 q in
          let session' :=
            setExpiresAt paid (TimeAdd (ExpiresAt paid) (Minutes additionalMins)) in
          Some (setSessions s (<[sessionID := session']> (sessions s)),
                [EvSendPayment sessionID amountShannons true;
                 EvExtendSession sessionID additionalMins (BigInt64 amountCKB)],
                StatusOK)
        else
          Some (s, [EvSendPayment sessionID amountShannons false],
                StatusBadRequest)
      end
  end.

(** [handleEndSession].  [GetSessionMAC id] is the MAC address of the
    row that [db.GetSession] returns, [None] when the read fails. *)
Definition handleEndSession (GetSessionMAC : string -> option string)
    (s : Server) (sessionID : string) : Server * list Event * Response :=
  match sessions s !! sessionID with
  | None => (s, [], StatusNotFound)
  | Some session =>
    (setSessions s (delete sessionID (sessions s)),
     [EvDelete sessionID; EvUpdateSessionStatus sessionID "settling"]
       ++ match GetSessionMAC sessionID with
          | Some mac =>
            if decide (mac = EmptyString) then [] else [EvDeauthorizeMAC mac]
          | None => []
          end
       ++ [EvGo (settleSessionInBackground session)],
     StatusOK)
  end.

(** ** Opening the channel of a funded session *)

(** What [openChannelForSession] gets from outside, in the order it asks:
    whether the key and the address decode, whether
    [EnsureMinimumCells(.., 4)] and [NewChannelClient] succeed, whether
    [ProposeChannel] opens the channel, the times of the stored row
    ([None] when [db.GetSession] fails), the whole minutes elapsed since
    creation, and whether the catch-up payment goes through. *)
Record OpenEnv := mkOpenEnv {
  keyDecodes : bool;
  addressDecodes : bool;
  cellsPrepared : bool;
  clientCreated : bool;
  channelOpened : bool;
  storedTimes : option (Time * Time);
  elapsedWholeMinutes : Z;
  catchUpSent : bool
}.

(** [openChannelForSession]: the server and the effects, or [None] when
    the function panics.  It panics in two slices taken for the log:
    [wallet.PrivateKeyHex[:16]], once the key has decoded, for a key of
    fewer than sixteen characters, and [sessionID[:8]], in the
    configuration of the guest client, for a session id of fewer than
    eight. *)
Definition openChannelForSession (env : OpenEnv) (s : Server)
    (wallet : GuestWallet) (sessionID : string) (balanceCKB : Z)
    : option (Server * list Event) :=
  if negb (keyDecodes env) then Some (s, [])
  else if decide (String.length (WalletPrivateKeyHex wallet) < 16)%nat then None
  else if negb (addressDecodes env) then
    Some (s, [EvUpdateSessionStatus sessionID "channel_failed"])
  else if negb (cellsPrepared env) then
    Some (s, [EvUpdateSessionStatus sessionID "cell_preparation_failed"])
  else if decide (String.length sessionID < 8)%nat then None
  else if negb (clientCreated env) then
    Some (s, [EvUpdateSessionStatus sessionID "channel_failed"])
  else if decide (balanceCKB < channelSetupCKB s) then
    Some (s, [EvUpdateSessionStatus sessionID "insufficient_funds"])
  else
    let fundingCKB := Int64.sub balanceCKB (channelSetupCKB s) in
    let guestFunding := Int64.mul fundingCKB ShannonsPerCKB in
    if negb (channelOpened env) then
      Some (s, [EvUpdateSessionStatus sessionID "channel_opening";
                EvUpdateSessionStatus sessionID "channel_failed"]
               ++ (if decide (WalletMAC wallet = EmptyString) then []
                   else [EvDeauthorizeMAC (WalletMAC wallet)]))
    else
      let opened :=
        [EvUpdateSessionStatus sessionID "channel_opening";
         EvUpdateSessionChannel sessionID "active";
         EvUpdateWalletStatus (WalletID wallet) "channel_open"] in
      match storedTimes env with
      | None => Some (s, opened)
      | Some (createdAt, expiresAt) =>
        let elapsedMinutes :=
          if decide (elapsedWholeMinutes env < 1) then 1
          else elapsedWholeMinutes env in
        let catchUpShannons := elapsedMinutes * ratePerMin s in
        let catchUpCKB := BigInt64 catchUpShannons ÷ ShannonsPerCKB in
        let payment :=
          if decide (0 < catchUpShannons)
          then [EvSendPayment sessionID catchUpShannons (catchUpSent env)]
          else [] in
        let guestSession :=
          {| ID := sessionID;
             GuestAddress := WalletAddress wallet;
             FundingAmount := guestFunding;
             TotalPaid := catchUpShannons;
             CreatedAt := createdAt;
             ExpiresAt := expiresAt |} in
        let newBalance := Int64.sub fundingCKB catchUpCKB in
        Some (setSessions s (<[sessionID := guestSession]> (sessions s)),
              opened ++ payment
                ++ [EvStore sessionID;
                    EvUpdateSessionBalance sessionID newBalance catchUpCKB])
      end.

(** ** Package perun: cells, splitting and withdrawal *)

Module Perun.

Definition SplitFee : Z := 100000.
Definition CellMinCapacity : Z := 6100000000.
Definition WithdrawFee : Z := 100000.

(** Modelled from the spec: the constant [MinCellCapacity] of package
    perun, which [WithdrawAll] reads, is declared in a file that is not
    among the sources; the spec calls it MIN_CELL_CAPACITY, the floor
    of a cell's capacity, and the tests mirror it as 6100000000
    shannons (61 CKB). *)
Definition MinCellCapacity : Z := 6100000000.

Record Script := mkScript {
  CodeHash : string;
  HashType : string;
  Args : string
}.

Record OutPoint := mkOutPoint {
  TxHash : string;
  Index : Z
}.

Record CellOutput := mkCellOutput {
  Capacity : Z;
  Lock : Script;
  Type_ : option Script
}.

Record LiveCell := mkLiveCell {
  CellOutPoint : OutPoint;
  Output : CellOutput
}.

Record CellInput := mkCellInput {
  Since : Z;
  PreviousOutput : OutPoint
}.

(** [Version] is 0 and [CellDeps] is the secp256k1 dep group in every
    transaction built here; both are left out. *)
Record Transaction := mkTransaction {
  Inputs : list CellInput;
  Outputs : list CellOutput;
  OutputsData : list (list Z);
  Witnesses : list (list Z)
}.

#[global] Instance Script_eq_dec : EqDecision Script.
Proof. solve_decision. Defined.
#[global] Instance OutPoint_eq_dec : EqDecision OutPoint.
Proof. solve_decision. Defined.
#[global] Instance CellOutput_eq_dec : EqDecision CellOutput.
Proof. solve_decision. Defined.
#[global] Instance LiveCell_eq_dec : EqDecision LiveCell.
Proof. solve_decision. Defined.

Inductive Error :=
| RpcError
| NoCellsFound
| NoSplittableCell (minSplitCapacity : Z)
| ConfirmationTimeout
| TransactionRejected
| ContextDone
| NoCellsInWallet
| DecodeError
| NoWithdrawableCells
| InsufficientBalance (totalCapacity : Z)
| Wrapped (msg : string) (cause : Error).

Inductive Confirmation := Committed | Rejected | TimedOut | Cancelled.

(** The ledger node behind [rpc.Client], as transitions of a world [W].
    [awaitStatus] is what the polling loop of [waitForConfirmation]
    ends with. *)
Record RpcClient (W : Type) := mkRpcClient {
  rpcGetCells : Script -> W -> option (list LiveCell) * W;
  rpcSendTransaction : Transaction -> W -> option string * W;
  awaitStatus : string -> W -> Confirmation * W
}.
Arguments rpcGetCells {W}.
Arguments rpcSendTransaction {W}.
Arguments awaitStatus {W}.

(** State of a run: the world and the transactions handed to
    [SendTransaction] so far, oldest first. *)
Definition St (W : Type) : Type := W * list Transaction.

(** Computations that read and change the world, may fail with an
    [Error], and may run out of fuel ([None]). *)
Definition M (W A : Type) : Type := St W -> option ((Error + A) * St W).

Definition ok {W A} (a : A) : M W A := fun st => Some (inr a, st).
Definition fail {W A} (e : Error) : M W A := fun st => Some (inl e, st).
Definition outOfFuel {W A} : M W A := fun _ => None.

Definition bind {W A B} (m : M W A) (k : A -> M W B) : M W B :=
  fun st =>
    match m st with
    | None => None
    | Some (inl e, st') => Some (inl e, st')
    | Some (inr a, st') => k a st'
    end.

(** [fmt.Errorf(msg + ": %w", err)] on the error path. *)
Definition wrapErr {W A} (msg : string) (m : M W A) : M W A :=
  fun st =>
    match m st with
    | Some (inl e, st') => Some (inl (Wrapped msg e), st')
    | r => r
    end.

#[global] Instance M_ret {W} : MRet (M W) := fun _ a => ok a.
#[global] Instance M_bind {W} : MBind (M W) := fun _ _ k m => bind m k.

Definition PrivateKey := string.

Definition bare (cell : LiveCell) : Prop := Type_ (Output cell) = None.

#[global] Instance bare_dec cell : Decision (bare cell).
Proof. unfold bare. apply _. Defined.

Section Client.
Context {W : Type}.
Variable rpc : RpcClient W.
(** The witness that [signTransaction] computes for a transaction:
    placeholder, transaction hash, message, blake2b, recoverable
    signature, serialisation. *)
Variable signedWitness : PrivateKey -> Transaction -> list Z.
Variable decodeAddress : string -> option Script.

Definition getCellsRPC (lockScript : Script) : M W (list LiveCell) :=
  fun st =>
    let r := rpcGetCells rpc lockScript st.1 in
    Some (match r.1 with Some cells => inr cells | None => inl RpcError end,
          (r.2, st.2)).

Definition sendTransactionRPC (tx : Transaction) : M W string :=
  fun st =>
    let r := rpcSendTransaction rpc tx st.1 in
    Some (match r.1 with Some h => inr h | None => inl RpcError end,
          (r.2, st.2 ++ [tx])).

Definition waitForConfirmation (txHash : string) : M W unit :=
  fun st =>
    let r := awaitStatus rpc txHash st.1 in
    Some (match r.1 with
          | Committed => inr tt
          | Rejected => inl TransactionRejected
          | TimedOut => inl ConfirmationTimeout
          | Cancelled => inl ContextDone
          end, (r.2, st.2)).

Definition signTransaction (tx : Transaction) (privateKey : PrivateKey)
    : Transaction :=
  {| Inputs := Inputs tx; Outputs := Outputs tx;
     OutputsData := OutputsData tx;
     Witnesses := <[0%nat := signedWitness privateKey tx]> (Witnesses tx) |}.

Definition CountCells (lockScript : Script) : M W Z :=
  cells ← wrapErr "failed to get cells" (getCellsRPC lockScript);
  ok (Z.of_nat (length (filter bare cells))).

Definition GetCells (lockScript : Script) : M W (list LiveCell) :=
  cells ← wrapErr "failed to get cells" (getCellsRPC lockScript);
  ok (filter bare cells).

Definition minSplitCapacity : Z :=
  Uint64.add (Uint64.mul 2 CellMinCapacity) SplitFee.

(** The selection loop of [SplitCell]: the largest cell of at least
    [minSplitCapacity], the earliest among equals. *)
Definition pickStep (cellToSplit : option LiveCell) (cell : LiveCell)
    : option LiveCell :=
  if decide (minSplitCapacity <= Capacity (Output cell)) then
    match cellToSplit with
    | None => Some cell
    | Some best =>
      if decide (Capacity (Output best) < Capacity (Output cell))
      then Some cell else cellToSplit
    end
  else cellToSplit.

Definition pickCell (cells : list LiveCell) : option LiveCell :=
  fold_left pickStep cells None.

(** The two output capacities computed for a cell of capacity
    [totalCapacity]. *)
Definition splitCapacities (totalCapacity : Z) : Z * Z :=
  let availableCapacity := Uint64.sub totalCapacity SplitFee in
  let cell1Capacity := availableCapacity `div` 2 in
  let cell2Capacity := Uint64.sub availableCapacity cell1Capacity in
  if decide (cell1Capacity < CellMinCapacity) then
    (CellMinCapacity, Uint64.sub availableCapacity CellMinCapacity)
  else (cell1Capacity, cell2Capacity).

Definition splitTransaction (cellToSplit : LiveCell) (lockScript : Script)
    : Transaction :=
  let caps := splitCapacities (Capacity (Output cellToSplit)) in
  {| Inputs := [ {| Since := 0; PreviousOutput := CellOutPoint cellToSplit |} ];
     Outputs := [ {| Capacity := caps.1; Lock := lockScript; Type_ := None |};
                  {| Capacity := caps.2; Lock := lockScript; Type_ := None |} ];
     OutputsData := [ []; [] ];
     Witnesses := [ replicate 85 0 ] |}.

Definition SplitCell (privateKey : PrivateKey) (lockScript : Script)
    : M W string :=
  cells ← GetCells lockScript;
  match cells with
  | [] => fail NoCellsFound
  | _ =>
    match pickCell cells with
    | None => fail (NoSplittableCell minSplitCapacity)
    | Some cellToSplit =>
      let tx := splitTransaction cellToSplit lockScript in
      let signedTx := signTransaction tx privateKey in
      txHash ← wrapErr "failed to send transaction"
                  (sendTransactionRPC signedTx);
      _ ← wrapErr "transaction not confirmed"
             (waitForConfirmation txHash);
      ok txHash
    end
  end.

(** [for count < minCells { ... }], one unit of fuel per iteration. *)
Fixpoint splitUntil (fuel : nat) (privateKey : PrivateKey)
    (lockScript : Script) (minCells count : Z) : M W unit :=
  if decide (count < minCells) then
    match fuel with
    | O => outOfFuel
    | S fuel' =>
      _ ← wrapErr "failed to split cell" (SplitCell privateKey lockScript);
      countAfter ← wrapErr "failed to count cells after split"
                  (CountCells lockScript);
      splitUntil fuel' privateKey lockScript minCells countAfter
    end
  else ok tt.

Definition EnsureMinimumCells (fuel : nat) (privateKey : PrivateKey)
    (lockScript : Script) (minCells : Z) : M W unit :=
  count ← wrapErr "failed to count cells" (CountCells lockScript);
  if decide (minCells <= count) then ok tt
  else if decide (count = 0) then fail NoCellsInWallet
  else splitUntil fuel privateKey lockScript minCells count.

Definition EnsureMultipleCells (fuel : nat) (privateKey : PrivateKey)
    (lockScript : Script) : M W unit :=
  EnsureMinimumCells fuel privateKey lockScript 2.

(** The accumulation loop of [WithdrawAll]. *)
Definition withdrawStep (expected : Script) (acc : Z * list CellInput)
    (cell : LiveCell) : Z * list CellInput :=
  if decide (Type_ (Output cell) = None) then
    if decide (Lock (Output cell) = expected) then
      (Uint64.add acc.1 (Capacity (Output cell)),
       acc.2 ++ [ {| Since := 0; PreviousOutput := CellOutPoint cell |} ])
    else acc
  else acc.

Definition withdrawTransaction (inputs : list CellInput)
    (outputCapacity : Z) (toLockScript : Script) : Transaction :=
  {| Inputs := inputs;
     Outputs := [ {| Capacity := outputCapacity; Lock := toLockScript;
                     Type_ := None |} ];
     OutputsData := [ [] ];
     Witnesses := <[0%nat := replicate 85 0]> (replicate (length inputs) []) |}.

Definition WithdrawAll (privateKey : PrivateKey) (fromLockScript : Script)
    (toAddress : string) : M W string :=
  match decodeAddress toAddress with
  | None => fail (Wrapped "failed to decode destination address" DecodeError)
  | Some toLockScript =>
    cells ← wrapErr "failed to get cells" (getCellsRPC fromLockScript);
    match cells with
    | [] => fail NoCellsInWallet
    | _ =>
      let acc := fold_left (withdrawStep fromLockScript) cells (0, []) in
      let totalCapacity := acc.1 in
      let inputs := acc.2 in
      match inputs with
      | [] => fail NoWithdrawableCells
      | _ =>
        if decide (totalCapacity <= Uint64.add WithdrawFee MinCellCapacity)
        then fail (InsufficientBalance totalCapacity)
        else
          let outputCapacity := Uint64.sub totalCapacity WithdrawFee in
          let tx := withdrawTransaction inputs outputCapacity toLockScript in
          let signedTx := signTransaction tx privateKey in
          wrapErr "failed to send transaction" (sendTransactionRPC signedTx)
      end
    end
  end.
End Client.

(** *** A ledger that commits what it is sent

    The cells of the ledger are the world; [GetCells] answers with the
    first hundred live cells of a lock script, [SendTransaction]
    accepts a transaction whose inputs are all live, consumes them and
    appends the outputs as cells of the new transaction, and every
    accepted transaction is committed when [waitForConfirmation]
    looks. *)
Section Ledger.
Variable txid : Transaction -> string.

Definition live (w : list LiveCell) (i : CellInput) : Prop :=
  PreviousOutput i ∈ CellOutPoint <$> w.

#[global] Instance live_dec w i : Decision (live w i).
Proof. unfold live. apply _. Defined.

Definition created (tx : Transaction) : list LiveCell :=
  imap (fun i out =>
          {| CellOutPoint := {| TxHash := txid tx; Index := Z.of_nat i |};
             Output := out |}) (Outputs tx).

Definition spent (tx : Transaction) (cell : LiveCell) : Prop :=
  CellOutPoint cell ∈ PreviousOutput <$> Inputs tx.

#[global] Instance spent_dec tx cell : Decision (spent tx cell).
Proof. unfold spent. apply _. Defined.

Definition ledger : RpcClient (list LiveCell) :=
  {| rpcGetCells lockScript w :=
       (Some (take 100 (filter (fun c => Lock (Output c) = lockScript) w)), w);
     rpcSendTransaction tx w :=
       if decide (Forall (live w) (Inputs tx)) then
         (Some (txid tx),
          filter (fun c => ¬ spent tx c) w ++ created tx)
       else (None, w);
     awaitStatus _ w := (Committed, w) |}.
End Ledger.

End Perun.

(** ** Reading wallets *)

(** The cells of a wallet that [WithdrawAll] sweeps: those without a type
    script whose lock is the wallet's. *)
Definition withdrawable (lockScript : Perun.Script)
    (cells : list Perun.LiveCell) : list Perun.LiveCell :=
  filter (fun c => Perun.Type_ (Perun.Output c) = None
                   /\ Perun.Lock (Perun.Output c) = lockScript) cells.

(** The sum of the capacities of some cells, as an integer. *)
Definition capacitySum (cells : list Perun.LiveCell) : Z :=
  foldr Z.add 0 ((fun c => Perun.Capacity (Perun.Output c)) <$> cells).

Definition inputsOf (cells : list Perun.LiveCell) : list Perun.CellInput :=
  (fun c => Perun.mkCellInput 0 (Perun.CellOutPoint c)) <$> cells.

(** The cells of a lock script in a ledger. *)
Definition cellsOf (lockScript : Perun.Script)
    (w : list Perun.LiveCell) : list Perun.LiveCell :=
  filter (fun c => Perun.Lock (Perun.Output c) = lockScript) w.

(** ** Reading traces *)

(** The session an effect is about: the key for the registry and store
    effects, the id of the session handed to a settlement task. *)
Definition eventSession (ev : Event) : option string :=
  match ev with
  | EvGo (settleExpiredSession g) | EvGo (settleSessionInBackground g) =>
    Some (ID g)
  | EvDelete k | EvStore k | EvSendPayment k _ _
  | EvUpdateSessionBalance k _ _ | EvUpdateSessionStatus k _
  | EvUpdateSessionChannel k _ | EvExtendSession k _ _ => Some k
  | EvUpdateWalletStatus _ _ | EvDeauthorizeMAC _ => None
  end.

Definition eventsOf (sessionID : string) (tr : list Event) : list Event :=
  filter (fun ev => eventSession ev = Some sessionID) tr.

Definition isSettlement (ev : Event) : bool :=
  match ev with EvGo _ => true | _ => false end.

Definition isPayment (ev : Event) : bool :=
  match ev with EvSendPayment _ _ _ => true | _ => false end.

Definition isStoreWrite (ev : Event) : bool :=
  match ev with
  | EvUpdateSessionBalance _ _ _ | EvUpdateSessionStatus _ _
  | EvUpdateSessionChannel _ _ | EvUpdateWalletStatus _ _
  | EvExtendSession _ _ _ => true
  | _ => false
  end.

(** Settlement tasks started for a session in a trace. *)
Definition settlements (sessionID : string) (tr : list Event) : nat :=
  length (filter (fun ev => isSettlement ev) (eventsOf sessionID tr)).

(** The first effect about a session in a trace is its removal from the
    registry. *)
Definition removesFirst (sessionID : string) (tr : list Event) : Prop :=
  head (eventsOf sessionID tr) = Some (EvDelete sessionID).

(** Every session is registered under its own id, as
    [openChannelForSession] stores it. *)
Definition registered (s : Server) : Prop :=
  forall k g, sessions s !! k = Some g -> ID g = k.

(** The bound on the amount paid. *)
Definition withinFunding (g : GuestSession) : Prop :=
  TotalPaid g <= FundingAmount g.

(** ** Reading transactions *)

(** A transaction that spends [cell] into two bare cells under
    [lockScript], each of at least [CellMinCapacity], that together hold
    the capacity of [cell] less [SplitFee]. *)
Definition splitsCell (lockScript : Perun.Script) (cell : Perun.LiveCell)
    (tx : Perun.Transaction) : Prop :=
  Perun.Inputs tx = [Perun.mkCellInput 0 (Perun.CellOutPoint cell)]
  /\ exists c1 c2,
       Perun.Outputs tx = [Perun.mkCellOutput c1 lockScript None;
                           Perun.mkCellOutput c2 lockScript None]
       /\ c1 + c2 = Perun.Capacity (Perun.Output cell) - Perun.SplitFee
       /\ Perun.CellMinCapacity <= c1
       /\ Perun.CellMinCapacity <= c2.

(** A node whose cell queries answer with capacities that fit [uint64]. *)
Definition answersUint64 {W : Type} (rpc : Perun.RpcClient W) : Prop :=
  forall lockScript w cells w1,
    Perun.rpcGetCells rpc lockScript w = (Some cells, w1) ->
    Forall (fun c => Uint64.in_range (Perun.Capacity (Perun.Output c))) cells.

(** ** Running the scheduler *)

(** [startMicropaymentProcessor]: one call of [processMicropayments] for
    every tick delivered before the context is done; each tick comes
    with the clock readings and the payment outcomes of its run. *)
Definition startMicropaymentProcessor
    (ticks : list ((string -> Time) * (GuestSession -> Z -> bool)))
    (s : Server) : Server * list Event :=
  fold_left
    (fun st tick =>
       let r := processMicropayments tick.1 tick.2 st.1 in
       (r.1, st.2 ++ r.2))
    ticks (s, []).

(** ** Finding the sender and refunding *)

(** The transaction queries of the node, as transitions of a world [W]:
    the hashes of the transactions of a lock script, newest first, and a
    transaction by its hash ([Some None] when the answer carries no
    transaction). *)
Record TxQueries (W : Type) := mkTxQueries {
  rpcGetTransactions : Perun.Script -> W -> option (list string) * W;
  rpcGetTransaction : string -> W -> option (option Perun.Transaction) * W
}.
Arguments rpcGetTransactions {W}.
Arguments rpcGetTransaction {W}.

Inductive SenderError :=
| WalletAddressUndecodable
| GetTransactionsFailed
| NoTransactionsFound
| SenderUndetermined.

Section Sender.
Context {W : Type}.
Variable queries : TxQueries W.
(** [decodeAddressToScript] and [scriptToAddress] of package perun. *)
Variable decodeAddress : string -> option Perun.Script.
Variable scriptToAddress : Perun.Script -> option string.

(** One iteration of the loop of [GetSenderAddress]: the address to
    return, or [None] to go on with the next transaction. *)
Definition senderOfTransaction (lockScript : Perun.Script) (txHash : string)
    (w : W) : option string * W :=
  let r := rpcGetTransaction queries txHash w in
  match r.1 with
  | Some (Some tx) =>
    match Perun.Inputs tx with
    | [] => (None, r.2)
    | firstInput :: _ =>
      let r2 := rpcGetTransaction queries
                  (Perun.TxHash (Perun.PreviousOutput firstInput)) r.2 in
      match r2.1 with
      | Some (Some inputTx) =>
        let outputIdx := Perun.Index (Perun.PreviousOutput firstInput) in
        match Perun.Outputs inputTx !! Z.to_nat outputIdx with
        | None => (None, r2.2)
        | Some spentOutput =>
          let senderLockScript := Perun.Lock spentOutput in
          if decide (senderLockScript = lockScript) then (None, r2.2)
          else (scriptToAddress senderLockScript, r2.2)
        end
      | _ => (None, r2.2)
      end
    end
  | _ => (None, r.2)
  end.

Fixpoint scanTransactions (lockScript : Perun.Script) (txs : list string)
    (w : W) : (SenderError + string) * W :=
  match txs with
  | [] => (inl SenderUndetermined, w)
  | txHash :: rest =>
    let r := senderOfTransaction lockScript txHash w in
    match r.1 with
    | Some senderAddr => (inr senderAddr, r.2)
    | None => scanTransactions lockScript rest r.2
    end
  end.

Definition GetSenderAddress (walletAddress : string) (w : W)
    : (SenderError + string) * W :=
  match decodeAddress walletAddress with
  | None => (inl WalletAddressUndecodable, w)
  | Some lockScript =>
    let r := rpcGetTransactions queries lockScript w in
    match r.1 with
    | None => (inl GetTransactionsFailed, r.2)
    | Some [] => (inl NoTransactionsFound, r.2)
    | Some txs => scanTransactions lockScript txs r.2
    end
  end.
End Sender.

(** The fields of a guest-wallet row that the refund paths read. *)
Record WalletRow := mkWalletRow {
  rowID : string;
  rowAddress : string;
  rowSenderAddress : string;
  rowPrivateKeyHex : string;
  rowStatus : string
}.

(** What the refund paths do besides talking to the node. *)
Inductive RefundEffect :=
| Sleep (d : Duration)
| UpdateWalletSenderAddress (walletID senderAddr : string)
| UpdateWalletStatus (walletID status : string).

#[global] Instance RefundEffect_eq_dec : EqDecision RefundEffect.
Proof. solve_decision. Defined.

Inductive RefundError :=
| GetWalletFailed
| NoSenderAddress (e : SenderError)
| PrivateKeyUndecodable
| GuestAddressUndecodable
| WithdrawFailed (attempts : nat) (lastErr : option Perun.Error).

Definition Second : Duration := 1000000000.

Definition isSleep (e : RefundEffect) : option Duration :=
  match e with Sleep d => Some d | _ => None end.

(** The waits of a run, in order. *)
Definition sleeps (effects : list RefundEffect) : list Duration :=
  omap isSleep effects.

Section Refund.
Context {W : Type}.
Variable rpc : Perun.RpcClient W.
Variable queries : TxQueries W.
Variable signedWitness : Perun.PrivateKey -> Perun.Transaction -> list Z.
Variable decodeAddress : string -> option Perun.Script.
Variable scriptToAddress : Perun.Script -> option string.
(** [hex.DecodeString] into a key, [guest.DecodeAddress], and the wallet
    that the store has for a session id. *)
Variable decodeKey : string -> option Perun.PrivateKey.
Variable guestDecodeAddress : string -> option Perun.Script.
Variable GetWalletBySessionID : string -> option WalletRow.

(** [for i, waitTime := range waitTimes { ... }] of [withdrawToSender]. *)
Fixpoint withdrawAttempts (waitTimes : list Duration) (walletID : string)
    (privateKey : Perun.PrivateKey) (lockScript : Perun.Script)
    (senderAddress : string) (lastErr : option Perun.Error)
    (st : Perun.St W) (effects : list RefundEffect)
    : option ((option Perun.Error + string) * Perun.St W * list RefundEffect) :=
  match waitTimes with
  | [] => Some (inl lastErr, st, effects)
  | waitTime :: rest =>
    match Perun.WithdrawAll rpc signedWitness decodeAddress privateKey
            lockScript senderAddress st with
    | None => None
    | Some (inl err, st') =>
      withdrawAttempts rest walletID privateKey lockScript senderAddress
        (Some err) st' (effects ++ [Sleep waitTime])
    | Some (inr txHash, st') =>
      Some (inr txHash, st',
            effects ++ [Sleep waitTime; UpdateWalletStatus walletID "withdrawn"])
    end
  end.

Definition waitTimes : list Duration := [30 * Second; 60 * Second; 120 * Second].

Definition withdrawToSender (sessionID : string) (st : Perun.St W)
    : option ((RefundError + string) * Perun.St W * list RefundEffect) :=
  match GetWalletBySessionID sessionID with
  | None => Some (inl GetWalletFailed, st, [])
  | Some wallet =>
    let detected :=
      if decide (rowSenderAddress wallet = EmptyString) then
        let r := GetSenderAddress queries decodeAddress scriptToAddress
                   (rowAddress wallet) st.1 in
        match r.1 with
        | inl e => (inl e, (r.2, st.2), [])
        | inr senderAddr =>
          (inr senderAddr, (r.2, st.2),
           [UpdateWalletSenderAddress (rowID wallet) senderAddr])
        end
      else (inr (rowSenderAddress wallet), st, []) in
    match detected with
    | (inl e, st1, effects) => Some (inl (NoSenderAddress e), st1, effects)
    | (inr senderAddress, st1, effects) =>
      match decodeKey (rowPrivateKeyHex wallet) with
      | None => Some (inl PrivateKeyUndecodable, st1, effects)
      | Some guestPrivKey =>
        match guestDecodeAddress (rowAddress wallet) with
        | None => Some (inl GuestAddressUndecodable, st1, effects)
        | Some guestLockScript =>
          match withdrawAttempts waitTimes (rowID wallet) guestPrivKey
                  guestLockScript senderAddress None st1 effects with
          | None => None
          | Some (inl lastErr, st2, effects2) =>
            Some (inl (WithdrawFailed (length waitTimes) lastErr), st2, effects2)
          | Some (inr txHash, st2, effects2) => Some (inr txHash, st2, effects2)
          end
        end
      end
    end
  end.

(** [handleManualRefund]: the response code, the effects and the state
    of the node; [toAddress] is [None] when the body does not bind. *)
Definition handleManualRefund (sessionID : string) (toAddress : option string)
    (st : Perun.St W) : option (Z * Perun.St W * list RefundEffect) :=
  match toAddress with
  | None => Some (400, st, [])
  | Some toAddress =>
    match GetWalletBySessionID sessionID with
    | None => Some (404, st, [])
    | Some wallet =>
      if decide (rowStatus wallet = "withdrawn"%string) then Some (400, st, [])
      else
        match decodeKey (rowPrivateKeyHex wallet) with
        | None => Some (500, st, [])
        | Some guestPrivKey =>
          match guestDecodeAddress (rowAddress wallet) with
          | None => Some (500, st, [])
          | Some guestLockScript =>
            match Perun.WithdrawAll rpc signedWitness decodeAddress
                    guestPrivKey guestLockScript toAddress st with
            | None => None
            | Some (inl _, st') => Some (500, st', [])
            | Some (inr _, st') =>
              Some (200, st', [UpdateWalletStatus (rowID wallet) "withdrawn"])
            end
          end
        end
    end
  end.
End Refund.

(** ** Showing sessions *)

(** The remaining time of a response: ["-"], or [formatDuration] of a
    duration. *)
Inductive RemainingTime := Dash | Formatted (d : Duration).

(** [time.Until(t)] at the moment [now]: the difference, saturated to
    the range of a duration. *)
Definition Until (now t : Time) : Duration :=
  Z.max Int64.min_int (Z.min Int64.max_int (t - now)).

(** The fields that the session responses have in common. *)
Record SessionInfo := mkSessionInfo {
  infoSessionID : string;
  infoGuestAddress : string;
  infoBalanceCKB : Z;
  infoFundingCKB : Z;
  infoSpentCKB : Z;
  infoRemainingTime : RemainingTime;
  infoStatus : string
}.

(** The response for a row of the store. *)
Definition rowInfo (now : Time) (row : DbSession) : SessionInfo :=
  let status := dbStatus row in
  if decide (status = "channel_opening"%string) then
    mkSessionInfo (dbID row) (dbGuestAddress row) (dbBalanceCKB row)
      (dbFundingCKB row) (dbSpentCKB row) Dash status
  else
    let remaining := Until now (dbExpiresAt row) in
    let remaining := if decide (remaining < 0) then 0 else remaining in
    let status :=
      if decide (remaining <= 0 /\ status = "active"%string)
      then "expired"%string else status in
    mkSessionInfo (dbID row) (dbGuestAddress row) (dbBalanceCKB row)
      (dbFundingCKB row) (dbSpentCKB row) (Formatted remaining) status.

(** The response for a session of the registry. *)
Definition memoryInfo (now : Time) (session : GuestSession) : SessionInfo :=
  let remaining := Until now (ExpiresAt session) in
  let remaining := if decide (remaining < 0) then 0 else remaining in
  let status :=
    if decide (remaining <= 0) then "expired"%string else "active"%string in
  let fundingCKB := BigInt64 (FundingAmount session) ÷ ShannonsPerCKB in
  let spentCKB := BigInt64 (TotalPaid session) ÷ ShannonsPerCKB in
  let balanceCKB := Int64.sub fundingCKB spentCKB in
  mkSessionInfo (ID session) (GuestAddress session) balanceCKB fundingCKB
    spentCKB (Formatted remaining) status.

(** [handleGetSession]: the store first, then the registry; [None] is
    the 404 answer. *)
Definition handleGetSession (GetSession : string -> option DbSession)
    (now : Time) (s : Server) (sessionID : string) : option SessionInfo :=
  match GetSession sessionID with
  | Some dbSession => Some (rowInfo now dbSession)
  | None => memoryInfo now <$> sessions s !! sessionID
  end.

(** [handleListSessions], the registry visited in the order [order];
    [rowClock i] is the clock reading at the i-th row of the store,
    [clock id] the reading at the registry entry [id]. *)
Definition handleListSessionsIn (order : list (string * GuestSession))
    (ListSessions : option (list DbSession))
    (rowClock : nat -> Time) (clock : string -> Time) : list SessionInfo :=
  let listed :=
    match ListSessions with
    | Some dbSessions => imap (fun i row => rowInfo (rowClock i) row) dbSessions
    | None => []
    end in
  let sessionIDSet : gset string := list_to_set (infoSessionID <$> listed) in
  listed
    ++ ((fun entry => memoryInfo (clock entry.1) entry.2)
          <$> filter (fun entry => ID entry.2 ∉ sessionIDSet) order).

Definition handleListSessions (s : Server)
    (ListSessions : option (list DbSession))
    (rowClock : nat -> Time) (clock : string -> Time) : list SessionInfo :=
  handleListSessionsIn (map_to_list (sessions s)) ListSessions rowClock clock.

(** ** Settings and the demo endpoint *)

(** [handleUpdateRate]: the server, the rates handed to
    [db.SetRatePerHour], and the response code.  [authCookie] is [None]
    without the cookie, [body] is [None] when the body does not bind. *)
Definition handleUpdateRate (dashboardPassword : string)
    (SetRatePerHour : Z -> bool) (s : Server)
    (authCookie : option string) (body : option Z)
    : Server * list Z * Z :=
  match authCookie with
  | None => (s, [], 401)
  | Some cookie =>
    if decide (cookie <> dashboardPassword) then (s, [], 401)
    else
      match body with
      | None => (s, [], 400)
      | Some rate =>
        if decide (rate < 1) then (s, [], 400)
        else if SetRatePerHour rate
             then (updateRatePerMin s rate, [rate], 200)
             else (s, [rate], 500)
      end
  end.

(** What [handleOpenChannel] gets from outside: whether the guest client
    is created, the hexadecimal id of the channel that
    [ProposeChannel] opens ([None] when it fails), and the two clock
    readings taken for the session. *)
Record DemoEnv := mkDemoEnv {
  demoClientCreated : bool;
  demoChannelID : option string;
  demoCreatedAt : Time;
  demoExpiresFrom : Time
}.

(** [handleOpenChannel].  The body is [None] when it does not bind, and
    carries [None] for an amount that does not parse.  The result is
    [None] when the handler panics, in the division or in cutting the
    channel id to sixteen characters. *)
Definition handleOpenChannel (env : DemoEnv) (s : Server)
    (body : option (string * option Z)) : option (Server * Z) :=
  match body with
  | None => Some (s, 400)
  | Some (guestAddress, None) => Some (s, 400)
  | Some (guestAddress, Some fundingCKB) =>
    if decide (fundingCKB <= 0) then Some (s, 400)
    else
      let fundingShannons := fundingCKB * ShannonsPerCKB in
      if negb (demoClientCreated env) then Some (s, 500)
      else
        match demoChannelID env with
        | None => Some (s, 500)
        | Some channelID =>
          q ← BigDiv fundingShannons (ratePerMin s);
          let minutes := BigInt64 q in
          if decide (String.length channelID < 16)%nat then None
          else
            let sessionID := String.substring 0 16 channelID in
            let session :=
              {| ID := sessionID;
                 GuestAddress := guestAddress;
                 FundingAmount := fundingShannons;
                 TotalPaid := 0;
                 CreatedAt := demoCreatedAt env;
                 ExpiresAt := TimeAdd (demoExpiresFrom env) (Minutes minutes) |} in
            Some (setSessions s (<[sessionID := session]> (sessions s)), 200)
        end
  end.

(** ** Shortening strings for the terminal *)

(** Go strings are byte sequences; [s[:n]] and [s[n:]] are [take] and
    [drop], and panic outside [0 .. len(s)]. *)
Definition ellipsis : list Ascii.ascii := String.list_ascii_of_string "...".

(** [truncateAddress]; [None] is the panic of a slice out of range. *)
Definition truncateAddress (addr : list Ascii.ascii) (maxLen : Z)
    : option (list Ascii.ascii) :=
  if decide (Z.of_nat (length addr) <= maxLen) then Some addr
  else if decide (maxLen < 10) then
    if decide (maxLen < 0) then None
    else Some (take (Z.to_nat maxLen) addr)
  else
    let half := (maxLen - 3) ÷ 2 in
    Some (take (Z.to_nat half) addr ++ ellipsis
            ++ drop (length addr - Z.to_nat half) addr).

(** [truncate]; [None] is the panic of a slice out of range. *)
Definition truncate (s : list Ascii.ascii) (maxLen : Z) : option (list Ascii.ascii) :=
  if decide (Z.of_nat (length s) <= maxLen) then Some s
  else if decide (maxLen - 3 < 0) then None
  else Some (take (Z.to_nat (maxLen - 3)) s ++ ellipsis).

(** ** The message that is signed *)

(** [binary.LittleEndian.PutUint64]. *)
Definition putUint64 (v : Z) : list Z :=
  (fun i => (v `div` 256 ^ i) `mod` 256) <$> seqZ 0 8.

(** [binary.LittleEndian.Uint64], the reading that goes with it. *)
Definition getUint64 (bytes : list Z) : Z :=
  foldr (fun b acc => b + 256 * acc) 0 (take 8 bytes).

(** [copy(message[:32], txHash[:])] into a zeroed buffer. *)
Definition hashPrefix (txHash : list Z) : list Z :=
  take 32 (txHash ++ replicate 32 0).

(** The message of [signTransaction] of the cell splitter: the
    transaction hash, the length of the one witness, the witness. *)
Definition splitterMessage (txHash witnessBytes : list Z) : list Z :=
  hashPrefix txHash
    ++ putUint64 (Uint64.wrap (Z.of_nat (length witnessBytes)))
    ++ witnessBytes.

(** The message of [signTransaction] of the withdrawer: the transaction
    hash, then every witness behind its length. *)
Definition withdrawerMessage (txHash : list Z) (witnesses : list (list Z))
    : list Z :=
  fold_left
    (fun message witness =>
       (message ++ putUint64 (Uint64.wrap (Z.of_nat (length witness))))
         ++ witness)
    witnesses (hashPrefix txHash).

(** ** Sample data *)

Definition sampleLock : Perun.Script :=
  Perun.mkScript "0x9bd7e06f" "type" "0x36c329ed".

Definition sampleCell (txHash : string) (index capacity : Z) : Perun.LiveCell :=
  Perun.mkLiveCell (Perun.mkOutPoint txHash index)
    (Perun.mkCellOutput capacity sampleLock None).

(** A stand-in for the transaction hash that tells apart transactions
    spending different cells: the out-point of the first input. *)
Definition sampleTxid (tx : Perun.Transaction) : string :=
  match Perun.Inputs tx with
  | i :: _ =>
    Perun.TxHash (Perun.PreviousOutput i)
      +:+ (if decide (Perun.Index (Perun.PreviousOutput i) = 0) then ".0" else ".1")
  | [] => "0x00"
  end.

Definition sampleWitness (key : Perun.PrivateKey) (tx : Perun.Transaction)
    : list Z := replicate 85 1.

Definition senderLock : Perun.Script :=
  Perun.mkScript "0x9bd7e06f" "type" "0x71a0b2c4".

Definition sampleDecode (addr : string) : option Perun.Script :=
  if decide (addr = "ckt1sender"%string) then Some senderLock else None.

Definition sampleServer : Server :=
  NewServer (mkServerConfig 500 1000 "ckt1host").

Definition sampleSession (id : string) (funding paid expires : Z)
    : GuestSession :=
  mkGuestSession id "ckt1guest" funding paid 0 expires.

(** A registry with one session, funded with 10 CKB, of which
    [paid] shannons are spent, expiring at time [expires]. *)
Definition sampleRegistry (paid expires : Z) : Server :=
  setSessions sampleServer
    {[ "5f3a9c0e1b2d4c6a"%string :=
         sampleSession "5f3a9c0e1b2d4c6a" 1000000000 paid expires ]}.

Definition sampleOpenEnv (elapsed : Z) : OpenEnv :=
  mkOpenEnv true true true true true (Some (0, 0)) elapsed false.

Definition sampleWallet : GuestWallet :=
  mkGuestWallet "w1" "ckt1guest" "aa:bb:cc:dd:ee:ff" "10.0.0.2"
    "3c9f1e7a5b2d4c6f8e0a1b3d5f7c9e2a4b6d8f0c1e3a5b7d9f2c4e6a8b0d1f3e".

(** A node that answers its i-th cell query with the i-th list of a
    script and fails once the script is over; it accepts every
    transaction and reports it committed. *)
Definition scriptedNode (answers : list (list Perun.LiveCell))
    : Perun.RpcClient nat :=
  {| Perun.rpcGetCells _ n := (answers !! n, S n);
     Perun.rpcSendTransaction tx n := (Some (sampleTxid tx), n);
     Perun.awaitStatus _ n := (Perun.Committed, n) |}.

(** The answers of a node while a wallet of one 500 CKB cell is split. *)
Definition splitScript : list (list Perun.LiveCell) :=
  [ [sampleCell "0xbb" 1 50000000000];
    [sampleCell "0xbb" 1 50000000000];
    [sampleCell "0xbb.1" 0 24999950000; sampleCell "0xbb.1" 1 24999950000] ].

Definition guestDecode (addr : string) : option Perun.Script :=
  if decide (addr = "ckt1guest"%string) then Some sampleLock
  else sampleDecode addr.

Definition sampleEncode (lockScript : Perun.Script) : option string :=
  if decide (lockScript = senderLock) then Some "ckt1sender"%string
  else if decide (lockScript = sampleLock) then Some "ckt1guest"%string
  else None.

(** The history of the guest wallet: its own split, newest, and before
    it the funding transaction, whose first input spends the second
    output of a transaction of the sender. *)
Definition sampleQueries {W : Type} : TxQueries W :=
  {| rpcGetTransactions lockScript w :=
       (if decide (lockScript = sampleLock)
        then Some ["0xsplit"; "0xfund"]%string else Some [], w);
     rpcGetTransaction txHash w :=
       (if decide (txHash = "0xsplit"%string) then
          Some (Some (Perun.mkTransaction
                        [Perun.mkCellInput 0 (Perun.mkOutPoint "0xfund" 0)]
                        [] [] []))
        else if decide (txHash = "0xfund"%string) then
          Some (Some (Perun.mkTransaction
                        [Perun.mkCellInput 0 (Perun.mkOutPoint "0xpay" 1)]
                        [Perun.mkCellOutput 50000000000 sampleLock None]
                        [[]] []))
        else if decide (txHash = "0xpay"%string) then
          Some (Some (Perun.mkTransaction []
                        [Perun.mkCellOutput 7000000000 senderLock None;
                         Perun.mkCellOutput 90000000000 senderLock None]
                        [[]; []] []))
        else None, w) |}.

Definition sampleRow (sender status : string) : WalletRow :=
  mkWalletRow "w1" "ckt1guest" sender "a1b2" status.

(** A row of the store for the session [id]. *)
Definition sampleDbRow (id status : string) (expires : Z) : DbSession :=
  mkDbSession id "w1" "ckt1guest" "ckt1host" 10 10 0 0 expires status
    "aa:bb:cc:dd:ee:ff" "10.0.0.2".

(** The demo endpoint with a guest client and an open channel. *)
Definition sampleDemoEnv : DemoEnv :=
  mkDemoEnv true
    (Some "9d1c3b5a7f2e4d6c8b0a1f3e5d7c9b2a4f6e8d0c1b3a5f7e9d2c4b6a8f0e1d3c"%string)
    100 101.

(** * Properties *)

(** ** Machine integers *)

Lemma int64_wrap_in_range z : Int64.in_range (Int64.wrap z).
Proof.
  unfold Int64.in_range, Int64.wrap, Int64.min_int, Int64.max_int.
  pose proof (Z.mod_pos_bound (z + 2 ^ 63) (2 ^ 64)). lia.
Qed.

Lemma int64_wrap_id z : Int64.in_range z -> Int64.wrap z = z.
Proof.
  unfold Int64.in_range, Int64.wrap, Int64.min_int, Int64.max_int.
  intros H. rewrite Z.mod_small; lia.
Qed.

Lemma uint64_wrap_in_range z : Uint64.in_range (Uint64.wrap z).
Proof.
  unfold Uint64.in_range, Uint64.wrap, Uint64.max_uint.
  pose proof (Z.mod_pos_bound z (2 ^ 64)). lia.
Qed.

Lemma uint64_wrap_id z : Uint64.in_range z -> Uint64.wrap z = z.
Proof.
  unfold Uint64.in_range, Uint64.wrap, Uint64.max_uint.
  intros H. rewrite Z.mod_small; lia.
Qed.

Lemma int64_quo_some a b :
  b <> 0 -> Int64.in_range (a ÷ b) -> Int64.quo a b = Some (a ÷ b).
Proof.
  intros Hb Hr. unfold Int64.quo. destruct (decide (b = 0)); [done|].
  by rewrite int64_wrap_id.
Qed.

(** ** The rate per minute *)

Lemma ratePerMinShannons_exact h :
  Int64.in_range (h * 100000000) ->
  ratePerMinShannons h = (h * 100000000) ÷ 60.
Proof.
  intros H. unfold ratePerMinShannons, Int64.mul, ShannonsPerCKB.
  by rewrite int64_wrap_id.
Qed.

(** Beyond 92233720368 CKB per hour the [int64] product wraps. *)
Example ratePerMinShannons_wraps :
  ratePerMinShannons 92233720369 = -153722867280159193.
Proof. reflexivity. Qed.

(** A zero rate per minute arises from an hourly rate of 2^56. *)
Example ratePerMinShannons_zero : ratePerMinShannons (2 ^ 56) = 0.
Proof. reflexivity. Qed.

Lemma ratePerMinShannons_pos h :
  1 <= h <= 92233720368 -> 1666666 <= ratePerMinShannons h.
Proof.
  intros H. rewrite ratePerMinShannons_exact.
  - apply Z.quot_le_lower_bound; lia.
  - unfold Int64.in_range, Int64.min_int, Int64.max_int. lia.
Qed.

Lemma usableCKB_nonneg reserved balance : 0 <= usableCKB reserved balance.
Proof. unfold usableCKB. case_decide; lia. Qed.

Lemma usableCKB_exact reserved balance :
  Int64.in_range (balance - reserved) ->
  usableCKB reserved balance = Z.max 0 (balance - reserved).
Proof.
  intros H. unfold usableCKB, Int64.sub. rewrite int64_wrap_id by done.
  case_decide; lia.
Qed.

Lemma sessionMinutes_zero rate :
  ratePerMinShannons rate <> 0 -> sessionMinutes 0 rate = Some 0.
Proof.
  intros H. unfold sessionMinutes, Int64.quo.
  destruct (decide _) as [|_]; [done|]. reflexivity.
Qed.

(** The session created for a usable amount of [funding] CKB lasts
    [mins] minutes when that is what [sessionMinutes] computes. *)
Lemma createSessionFromWallet_duration s env wallet funding mins :
  0 <= funding ->
  Int64.in_range (channelSetupCKB s + funding) ->
  0 <= channelSetupCKB s ->
  sessionMinutes funding (effectiveRatePerHour (dbRatePerHour env)) = Some mins ->
  exists row sid,
    createSessionFromWallet s env wallet (channelSetupCKB s + funding)
      = Some (row, sid)
    /\ dbBalanceCKB row = funding
    /\ dbExpiresAt row = dbCreatedAt row + Minutes mins.
Proof.
  intros Hf Hr Hs Hm. unfold createSessionFromWallet.
  assert (usableCKB (channelSetupCKB s) (channelSetupCKB s + funding) = funding)
    as ->.
  { rewrite usableCKB_exact.
    - lia.
    - replace (channelSetupCKB s + funding - channelSetupCKB s) with funding by lia.
      unfold Int64.in_range, Int64.min_int, Int64.max_int in *. lia. }
  rewrite Hm. simpl. eauto.
Qed.

(** C4. The debit rate per tick is the hourly price times 100000000
    divided by 60, truncated toward zero (for a price whose product with
    100000000 fits the 64-bit integer it is computed in), both when the
    server is created and when the rate is updated; and at the rate of
    500 CKB per hour, that is 833333333 per minute, funding of 500, 250,
    1000 and 85 CKB gives sessions of 60, 30, 120 and 10 minutes. *)
Theorem rate_per_tick_and_durations :
  (forall cfg,
     Int64.in_range (RatePerHour cfg * 100000000) ->
     ratePerMin (NewServer cfg) = (RatePerHour cfg * 100000000) ÷ 60)
  /\ (forall s hourlyPrice,
        Int64.in_range (hourlyPrice * 100000000) ->
        ratePerMin (updateRatePerMin s hourlyPrice)
          = (hourlyPrice * 100000000) ÷ 60)
  /\ ratePerMinShannons 500 = 833333333
  /\ sessionMinutes 500 500 = Some 60
  /\ sessionMinutes 250 500 = Some 30
  /\ sessionMinutes 1000 500 = Some 120
  /\ sessionMinutes 85 500 = Some 10
  /\ (forall s env wallet funding mins,
        (funding, mins) ∈ [(500, 60); (250, 30); (1000, 120); (85, 10)] ->
        effectiveRatePerHour (dbRatePerHour env) = 500 ->
        1 <= channelSetupCKB s <= 1000000000000 ->
        exists row sid,
          createSessionFromWallet s env wallet (channelSetupCKB s + funding)
            = Some (row, sid)
          /\ dbExpiresAt row = dbCreatedAt row + mins * Minute).
Proof.
  split; [|split].
  - intros cfg H. simpl. by apply ratePerMinShannons_exact.
  - intros s h H. simpl. by apply ratePerMinShannons_exact.
  - repeat split; try reflexivity.
    intros s env wallet funding mins Hin Hrate Hs.
    assert (0 <= funding <= 1000 /\ sessionMinutes funding 500 = Some mins
            /\ Minutes mins = mins * Minute) as (Hf & Hm & Hd).
    { repeat (apply elem_of_cons in Hin as [Hin|Hin];
              [inversion Hin; subst; repeat split; (lia || reflexivity)|]).
      by apply elem_of_nil in Hin. }
    destruct (createSessionFromWallet_duration s env wallet funding mins)
      as (row & sid & Hc & _ & He).
    + lia.
    + unfold Int64.in_range, Int64.min_int, Int64.max_int. lia.
    + lia.
    + by rewrite Hrate.
    + exists row, sid. split; [done|]. by rewrite He, Hd.
Qed.

Lemma rate_per_tick_and_durations_witness :
  ratePerMin (NewServer (mkServerConfig 500 1000 "ckt1host")) = 833333333
  /\ exists row sid,
       createSessionFromWallet (NewServer (mkServerConfig 500 1000 "ckt1host"))
         (mkCreateEnv "a1b2c3d4e5f60708" 0 (Some 500) true)
         (mkGuestWallet "w1" "ckt1guest" "aa:bb" "10.0.0.2"
            "3c9f1e7a5b2d4c6f8e0a1b3d5f7c9e2a4b6d8f0c1e3a5b7d9f2c4e6a8b0d1f3e") (1000 + 85)
         = Some (row, sid)
       /\ dbExpiresAt row = dbCreatedAt row + 10 * Minute.
Proof.
  destruct rate_per_tick_and_durations as (Hnew & _ & _ & _ & _ & _ & _ & Hdur).
  split.
  - rewrite (Hnew (mkServerConfig 500 1000 "ckt1host")).
    + reflexivity.
    + unfold Int64.in_range, Int64.min_int, Int64.max_int. simpl. lia.
  - apply (Hdur (NewServer (mkServerConfig 500 1000 "ckt1host"))
             (mkCreateEnv "a1b2c3d4e5f60708" 0 (Some 500) true)
             (mkGuestWallet "w1" "ckt1guest" "aa:bb" "10.0.0.2"
            "3c9f1e7a5b2d4c6f8e0a1b3d5f7c9e2a4b6d8f0c1e3a5b7d9f2c4e6a8b0d1f3e") 85 10).
    + set_solver.
    + reflexivity.
    + simpl. lia.
Defined.

(** ** Sessions created from an underfunded wallet *)

Lemma sessionMinutes_is_Some usable rate :
  is_Some (sessionMinutes usable rate) <-> ratePerMinShannons rate <> 0.
Proof.
  unfold sessionMinutes, Int64.quo.
  destruct (decide (ratePerMinShannons rate = 0)) as [Hz|Hz].
  - split; [by intros [? ?]|done].
  - split; [done|eauto].
Qed.

(** C10. [createSessionFromWallet] clamps the usable balance at zero:
    the balance of the row it hands to the store is the funded balance
    less the amount reserved for channel setup when that is not
    negative, and zero otherwise (the difference taken in the range of
    an [int64]), so it is never negative.  A wallet funded with less
    than the reserved amount gets a row with usable balance 0 that
    expires at the moment it is created; a wallet funded with at least
    the reserved amount gets a row whose usable balance is exactly the
    difference.  The row is built whenever the rate per minute in force
    is not zero, and only then: at a zero rate the division panics. *)
Theorem createSessionFromWallet_clamps :
  (forall s env wallet balanceCKB,
     balanceCKB < channelSetupCKB s ->
     Int64.in_range (balanceCKB - channelSetupCKB s) ->
     ratePerMinShannons (effectiveRatePerHour (dbRatePerHour env)) <> 0 ->
     exists row sid,
       createSessionFromWallet s env wallet balanceCKB = Some (row, sid)
       /\ dbFundingCKB row = balanceCKB
       /\ dbBalanceCKB row = 0
       /\ dbCreatedAt row = createNow env
       /\ dbExpiresAt row = dbCreatedAt row)
  /\ (forall s env wallet balanceCKB,
        channelSetupCKB s <= balanceCKB ->
        Int64.in_range (balanceCKB - channelSetupCKB s) ->
        ratePerMinShannons (effectiveRatePerHour (dbRatePerHour env)) <> 0 ->
        exists row sid,
          createSessionFromWallet s env wallet balanceCKB = Some (row, sid)
          /\ dbFundingCKB row = balanceCKB
          /\ dbBalanceCKB row = balanceCKB - channelSetupCKB s)
  /\ (forall s env wallet balanceCKB row sid,
        createSessionFromWallet s env wallet balanceCKB = Some (row, sid) ->
        0 <= dbBalanceCKB row
        /\ dbBalanceCKB row
           = Z.max 0 (Int64.sub balanceCKB (channelSetupCKB s))
        /\ (Int64.in_range (balanceCKB - channelSetupCKB s) ->
            dbBalanceCKB row = Z.max 0 (balanceCKB - channelSetupCKB s)))
  /\ (forall s env wallet balanceCKB,
        createSessionFromWallet s env wallet balanceCKB = None <->
        ratePerMinShannons (effectiveRatePerHour (dbRatePerHour env)) = 0).
Proof.
  split; [|split; [|split]].
  - intros s env wallet balanceCKB Hb Hs Hrate. unfold createSessionFromWallet.
    assert (usableCKB (channelSetupCKB s) balanceCKB = 0) as ->.
    { rewrite usableCKB_exact; [lia|done]. }
    rewrite sessionMinutes_zero by done. simpl.
    eexists _, _. split; [done|]. simpl. unfold TimeAdd.
    repeat split. change (Minutes 0) with 0. lia.
  - intros s env wallet balanceCKB Hb Hs Hrate. unfold createSessionFromWallet.
    rewrite (usableCKB_exact _ _ Hs).
    destruct (proj2 (sessionMinutes_is_Some
                       (Z.max 0 (balanceCKB - channelSetupCKB s))
                       (effectiveRatePerHour (dbRatePerHour env))) Hrate)
      as [mins ->].
    simpl. eexists _, _. split; [done|]. simpl. split; [done|lia].
  - intros s env wallet balanceCKB row sid H. unfold createSessionFromWallet in H.
    destruct (sessionMinutes _ _); simpl in H; [|done].
    inversion H; subst. simpl. split; [apply usableCKB_nonneg|].
    split.
    + unfold usableCKB. case_decide; lia.
    + intros Hr. by apply usableCKB_exact.
  - intros s env wallet balanceCKB. unfold createSessionFromWallet.
    pose proof (sessionMinutes_is_Some
                  (usableCKB (channelSetupCKB s) balanceCKB)
                  (effectiveRatePerHour (dbRatePerHour env))) as Hsome.
    destruct (sessionMinutes _ _) as [mins|]; simpl.
    + split; [done|]. intros Hz. exfalso. by apply (proj1 Hsome); [eauto|].
    + split; [|done]. intros _.
      destruct (decide (ratePerMinShannons
                          (effectiveRatePerHour (dbRatePerHour env)) = 0))
        as [Hz|Hz]; [done|].
      apply Hsome in Hz as [? ?]. discriminate.
Qed.

Lemma createSessionFromWallet_clamps_witness :
  (exists row sid,
     createSessionFromWallet (NewServer (mkServerConfig 500 1000 "ckt1host"))
       (mkCreateEnv "a1b2c3d4e5f60708" 1700000000000000000 None true)
       (mkGuestWallet "w1" "ckt1guest" "aa:bb" "10.0.0.2"
            "3c9f1e7a5b2d4c6f8e0a1b3d5f7c9e2a4b6d8f0c1e3a5b7d9f2c4e6a8b0d1f3e") 400
       = Some (row, sid)
     /\ dbFundingCKB row = 400
     /\ dbBalanceCKB row = 0
     /\ dbCreatedAt row = 1700000000000000000
     /\ dbExpiresAt row = dbCreatedAt row)
  /\ (exists row sid,
        createSessionFromWallet (NewServer (mkServerConfig 500 1000 "ckt1host"))
          (mkCreateEnv "a1b2c3d4e5f60708" 1700000000000000000 None true)
          (mkGuestWallet "w1" "ckt1guest" "aa:bb" "10.0.0.2"
            "3c9f1e7a5b2d4c6f8e0a1b3d5f7c9e2a4b6d8f0c1e3a5b7d9f2c4e6a8b0d1f3e") 1085
          = Some (row, sid)
        /\ dbFundingCKB row = 1085
        /\ dbBalanceCKB row = 1085 - 1000).
Proof.
  split.
  - apply (proj1 createSessionFromWallet_clamps
             (NewServer (mkServerConfig 500 1000 "ckt1host"))
             (mkCreateEnv "a1b2c3d4e5f60708" 1700000000000000000 None true)
             (mkGuestWallet "w1" "ckt1guest" "aa:bb" "10.0.0.2"
            "3c9f1e7a5b2d4c6f8e0a1b3d5f7c9e2a4b6d8f0c1e3a5b7d9f2c4e6a8b0d1f3e") 400).
    + simpl. lia.
    + vm_compute. split; discriminate.
    + vm_compute. discriminate.
  - apply (proj1 (proj2 createSessionFromWallet_clamps)
             (NewServer (mkServerConfig 500 1000 "ckt1host"))
             (mkCreateEnv "a1b2c3d4e5f60708" 1700000000000000000 None true)
             (mkGuestWallet "w1" "ckt1guest" "aa:bb" "10.0.0.2"
            "3c9f1e7a5b2d4c6f8e0a1b3d5f7c9e2a4b6d8f0c1e3a5b7d9f2c4e6a8b0d1f3e") 1085).
    + simpl. lia.
    + vm_compute. split; discriminate.
    + vm_compute. discriminate.
Defined.

(** ** Splitting a cell *)

Lemma minSplitCapacity_value : Perun.minSplitCapacity = 12200100000.
Proof. reflexivity. Qed.

Lemma pickStep_keeps best cell c :
  Perun.pickStep best cell = Some c ->
  (c = cell /\ Perun.minSplitCapacity <= Perun.Capacity (Perun.Output cell))
  \/ best = Some c.
Proof.
  unfold Perun.pickStep. intros H.
  destruct (decide _) as [Hc|]; [|by right].
  destruct best as [b|]; [destruct (decide _)|]; simplify_eq; auto.
Qed.

Lemma pickCell_from best cells c :
  fold_left Perun.pickStep cells best = Some c ->
  (c ∈ cells /\ Perun.minSplitCapacity <= Perun.Capacity (Perun.Output c))
  \/ best = Some c.
Proof.
  revert best. induction cells as [|cell cells IH]; intros best H; simpl in H.
  - by right.
  - apply IH in H as [[Hin Hc]|H].
    + left. split; [apply elem_of_cons; by right | done].
    + apply pickStep_keeps in H as [[-> Hc]|H]; [left|by right].
      split; [apply elem_of_cons; by left | done].
Qed.

Lemma pickCell_splittable cells c :
  Perun.pickCell cells = Some c ->
  c ∈ cells /\ Perun.minSplitCapacity <= Perun.Capacity (Perun.Output c).
Proof.
  intros H. by apply pickCell_from in H as [?|?].
Qed.

Lemma splitCapacities_even C :
  Uint64.in_range C -> Perun.minSplitCapacity <= C ->
  Perun.splitCapacities C
    = ((C - Perun.SplitFee) `div` 2,
       (C - Perun.SplitFee) - (C - Perun.SplitFee) `div` 2)
  /\ Perun.CellMinCapacity <= (C - Perun.SplitFee) `div` 2
  /\ Perun.CellMinCapacity
       <= (C - Perun.SplitFee) - (C - Perun.SplitFee) `div` 2.
Proof.
  rewrite minSplitCapacity_value.
  unfold Uint64.in_range, Uint64.max_uint, Perun.SplitFee, Perun.CellMinCapacity.
  intros Hr Hc.
  assert (6100000000 <= (C - 100000) `div` 2) as Hhalf
    by (apply Z.div_le_lower_bound; lia).
  assert ((C - 100000) `div` 2 <= C - 100000) as Hle
    by (apply Z.div_le_upper_bound; lia).
  unfold Perun.splitCapacities, Uint64.sub, Perun.SplitFee, Perun.CellMinCapacity.
  rewrite (uint64_wrap_id (C - 100000))
    by (unfold Uint64.in_range, Uint64.max_uint; lia).
  rewrite (uint64_wrap_id (C - 100000 - (C - 100000) `div` 2))
    by (unfold Uint64.in_range, Uint64.max_uint; lia).
  case_decide; [lia|].
  pose proof (Z.mul_div_le (C - 100000) 2). repeat split; lia.
Qed.

(** C9. A cell that [SplitCell] selects has a capacity of at least
    [2 * CellMinCapacity + SplitFee]; for it the even half of the
    capacity less the fee is already at least [CellMinCapacity], the
    branch raising the first output to the minimum is not taken, and
    both output capacities are at least the minimum. *)
Theorem split_raise_branch_unreachable cells c :
  Perun.pickCell cells = Some c ->
  Uint64.in_range (Perun.Capacity (Perun.Output c)) ->
  let available := Perun.Capacity (Perun.Output c) - Perun.SplitFee in
  2 * Perun.CellMinCapacity + Perun.SplitFee <= Perun.Capacity (Perun.Output c)
  /\ ¬ (available `div` 2 < Perun.CellMinCapacity)
  /\ Perun.splitCapacities (Perun.Capacity (Perun.Output c))
       = (available `div` 2, available - available `div` 2)
  /\ Perun.CellMinCapacity <= (Perun.splitCapacities (Perun.Capacity (Perun.Output c))).1
  /\ Perun.CellMinCapacity <= (Perun.splitCapacities (Perun.Capacity (Perun.Output c))).2.
Proof.
  intros Hpick Hr available.
  apply pickCell_splittable in Hpick as [_ Hmin].
  destruct (splitCapacities_even _ Hr Hmin) as (Heq & H1 & H2).
  rewrite Heq. simpl. fold available in H1, H2 |- *.
  rewrite minSplitCapacity_value in Hmin.
  unfold Perun.CellMinCapacity, Perun.SplitFee in *. repeat split; lia.
Qed.

Lemma split_raise_branch_unreachable_witness :
  Perun.CellMinCapacity
    <= (Perun.splitCapacities
          (Perun.Capacity (Perun.Output (sampleCell "0xbb" 1 50000000000)))).1.
Proof.
  apply (split_raise_branch_unreachable
           [sampleCell "0xaa" 0 7000000000; sampleCell "0xbb" 1 50000000000]
           (sampleCell "0xbb" 1 50000000000)).
  - reflexivity.
  - unfold Uint64.in_range, Uint64.max_uint. simpl. lia.
Defined.

(** ** The scheduler loop *)

Section SchedulerFacts.
Variable clock : string -> Time.
Variable SendPayment : GuestSession -> Z -> bool.

Local Abbreviation step := (tickStep clock SendPayment).
Local Abbreviation visit := (tickSession clock SendPayment).

Lemma tickStep_rate st e : ratePerMin (step st e).1 = ratePerMin st.1.
Proof. reflexivity. Qed.

Lemma tick_fold_rate order st :
  ratePerMin (fold_left step order st).1 = ratePerMin st.1.
Proof.
  revert st. induction order as [|e order IH]; intros st; simpl; [done|].
  by rewrite IH.
Qed.

Lemma tick_fold_trace order st :
  (fold_left step order st).2
  = st.2 ++ concat (map (fun e => (visit (ratePerMin st.1) e.1 e.2).2) order).
Proof.
  revert st. induction order as [|e order IH]; intros st; simpl.
  - by rewrite app_nil_r.
  - rewrite IH. simpl. by rewrite <- app_assoc.
Qed.

Lemma tick_fold_lookup_other order st k :
  k ∉ order.*1 ->
  sessions (fold_left step order st).1 !! k = sessions st.1 !! k.
Proof.
  revert st. induction order as [|e order IH]; intros st Hk; simpl; [done|].
  rewrite fmap_cons in Hk. apply not_elem_of_cons in Hk as [Hne Hk].
  rewrite IH by done. simpl.
  destruct (visit _ _ _).1; simpl.
  - by rewrite lookup_insert_ne.
  - by rewrite lookup_delete_ne.
Qed.

Lemma tick_fold_lookup order st k g :
  NoDup order.*1 -> (k, g) ∈ order ->
  sessions (fold_left step order st).1 !! k
  = (visit (ratePerMin st.1) k g).1.
Proof.
  revert st. induction order as [|e order IH]; intros st Hnd Hin; simpl.
  - by apply elem_of_nil in Hin.
  - rewrite fmap_cons in Hnd. apply NoDup_cons in Hnd as [Hfresh Hnd].
    apply elem_of_cons in Hin as [<-|Hin].
    + rewrite tick_fold_lookup_other by done. simpl.
      destruct (visit _ _ _).1; simpl.
      * by rewrite lookup_insert_eq.
      * by rewrite lookup_delete_eq.
    + by rewrite IH.
Qed.

Lemma order_NoDup s order : iteration_order s order -> NoDup order.*1.
Proof.
  intros H. unfold iteration_order in H. rewrite H.
  apply NoDup_fst_map_to_list.
Qed.

Lemma order_elem s order k g :
  iteration_order s order -> (k, g) ∈ order <-> sessions s !! k = Some g.
Proof.
  intros H. unfold iteration_order in H. rewrite H.
  apply elem_of_map_to_list.
Qed.

Lemma order_keys s order k :
  iteration_order s order -> k ∈ order.*1 <-> is_Some (sessions s !! k).
Proof.
  intros H. rewrite list_elem_of_fmap. split.
  - intros ([k' g] & -> & Hin). apply (order_elem _ _ _ _ H) in Hin. eauto.
  - intros [g Hg]. exists (k, g). split; [done|]. by apply (order_elem _ _ _ _ H).
Qed.

(** The registry after a tick, entry by entry. *)
Lemma tick_lookup s order k :
  iteration_order s order ->
  sessions (processMicropaymentsIn clock SendPayment order s).1 !! k
  = g ← sessions s !! k; (visit (ratePerMin s) k g).1.
Proof.
  intros Hord. unfold processMicropaymentsIn.
  destruct (sessions s !! k) as [g|] eqn:Hk; simpl.
  - apply (tick_fold_lookup order (s, []) k g).
    + by eapply order_NoDup.
    + by apply (order_elem _ _ _ _ Hord).
  - rewrite tick_fold_lookup_other; [done|].
    rewrite (order_keys _ _ _ Hord), Hk. by intros [? ?].
Qed.

Lemma visit_eventsOf rate k g k' :
  ID g = k -> k <> k' -> eventsOf k' (visit rate k g).2 = [].
Proof.
  intros Hid Hne. unfold tickSession.
  repeat (case_match; simpl); unfold eventsOf;
    repeat (rewrite filter_cons_False by (simpl; congruence)); done.
Qed.

Lemma visit_eventsOf_own rate k g :
  ID g = k -> eventsOf k (visit rate k g).2 = (visit rate k g).2.
Proof.
  intros Hid. unfold tickSession.
  repeat (case_match; simpl); unfold eventsOf;
    repeat (rewrite filter_cons_True by (simpl; congruence)); done.
Qed.

Lemma eventsOf_app k tr1 tr2 :
  eventsOf k (tr1 ++ tr2) = eventsOf k tr1 ++ eventsOf k tr2.
Proof. apply filter_app. Qed.

Lemma eventsOf_visits_other rate order k :
  (forall k' g', (k', g') ∈ order -> ID g' = k') ->
  k ∉ order.*1 ->
  eventsOf k (concat (map (fun e => (visit rate e.1 e.2).2) order)) = [].
Proof.
  induction order as [|[k' g'] order IH]; intros Hreg Hk; simpl; [done|].
  rewrite fmap_cons in Hk. apply not_elem_of_cons in Hk as [Hne Hk].
  rewrite eventsOf_app, IH; [|intros; apply Hreg; set_solver|done].
  rewrite visit_eventsOf; [done| |done].
  apply Hreg. set_solver.
Qed.

Lemma eventsOf_visits rate order k g :
  (forall k' g', (k', g') ∈ order -> ID g' = k') ->
  NoDup order.*1 -> (k, g) ∈ order ->
  eventsOf k (concat (map (fun e => (visit rate e.1 e.2).2) order))
  = (visit rate k g).2.
Proof.
  induction order as [|[k' g'] order IH]; intros Hreg Hnd Hin; simpl.
  - by apply elem_of_nil in Hin.
  - rewrite fmap_cons in Hnd. apply NoDup_cons in Hnd as [Hfresh Hnd].
    rewrite eventsOf_app.
    apply elem_of_cons in Hin as [Heq|Hin].
    + inversion Heq; subst k' g'.
      rewrite eventsOf_visits_other; [|intros; apply Hreg; set_solver|done].
      rewrite app_nil_r. apply visit_eventsOf_own. apply Hreg. set_solver.
    + rewrite IH; [|intros; apply Hreg; set_solver|done|done].
      rewrite visit_eventsOf; [done| |].
      * apply Hreg. set_solver.
      * intros ->. apply Hfresh. simpl.
        apply list_elem_of_fmap. by exists (k, g).
Qed.

(** The effects of a tick that concern one session are those of the
    iteration that visits it. *)
Lemma tick_eventsOf s order k g :
  registered s -> iteration_order s order ->
  sessions s !! k = Some g ->
  eventsOf k (processMicropaymentsIn clock SendPayment order s).2
  = (visit (ratePerMin s) k g).2.
Proof.
  intros Hreg Hord Hk. unfold processMicropaymentsIn.
  rewrite tick_fold_trace. simpl.
  apply eventsOf_visits.
  - intros k' g' Hin. apply Hreg. by apply (order_elem _ _ _ _ Hord).
  - by eapply order_NoDup.
  - by apply (order_elem _ _ _ _ Hord).
Qed.

Lemma tick_eventsOf_absent s order k :
  registered s -> iteration_order s order ->
  sessions s !! k = None ->
  eventsOf k (processMicropaymentsIn clock SendPayment order s).2 = [].
Proof.
  intros Hreg Hord Hk. unfold processMicropaymentsIn.
  rewrite tick_fold_trace. simpl.
  apply eventsOf_visits_other.
  - intros k' g' Hin. apply Hreg. by apply (order_elem _ _ _ _ Hord).
  - rewrite (order_keys _ _ _ Hord), Hk. by intros [? ?].
Qed.

Lemma tick_registered s order :
  registered s -> iteration_order s order ->
  registered (processMicropaymentsIn clock SendPayment order s).1.
Proof.
  intros Hreg Hord k g. rewrite tick_lookup by done.
  destruct (sessions s !! k) as [g0|] eqn:Hk; simpl; [|done].
  apply Hreg in Hk. unfold tickSession.
  repeat case_match; simpl; intros Hg; simplify_eq; done.
Qed.
End SchedulerFacts.

Lemma in_eventsOf k ev tr :
  ev ∈ tr -> eventSession ev = Some k -> ev ∈ eventsOf k tr.
Proof. intros Hin Hk. unfold eventsOf. by apply list_elem_of_filter. Qed.

Lemma eventsOf_in k ev tr : ev ∈ eventsOf k tr -> ev ∈ tr.
Proof. unfold eventsOf. rewrite list_elem_of_filter. tauto. Qed.

(** C3. On a tick, a session whose remaining funds are less than the
    rate per tick is removed from the registry, exactly one settlement
    task is started for it, and no payment is attempted for it; the
    same holds whether or not it is past its expiry. *)
Theorem tick_settles_insufficient
    (clock : string -> Time) (SendPayment : GuestSession -> Z -> bool)
    (s : Server) (order : list (string * GuestSession))
    (k : string) (g : GuestSession) :
  registered s -> iteration_order s order ->
  sessions s !! k = Some g ->
  FundingAmount g - TotalPaid g < ratePerMin s ->
  let r := processMicropaymentsIn clock SendPayment order s in
  sessions r.1 !! k = None
  /\ eventsOf k r.2 = [EvGo (settleExpiredSession g); EvDelete k]
  /\ settlements k r.2 = 1%nat
  /\ (forall amount ok, EvSendPayment k amount ok ∉ r.2).
Proof.
  intros Hreg Hord Hk Hlow r.
  assert ((tickSession clock SendPayment (ratePerMin s) k g)
          = (None, [EvGo (settleExpiredSession g); EvDelete k])) as Hvisit.
  { unfold tickSession. destruct (After _ _); [done|].
    destruct (decide _); [done|lia]. }
  assert (eventsOf k r.2 = [EvGo (settleExpiredSession g); EvDelete k]) as Hev.
  { unfold r. erewrite tick_eventsOf by done. by rewrite Hvisit. }
  repeat split.
  - unfold r. rewrite tick_lookup by done. rewrite Hk. simpl. by rewrite Hvisit.
  - done.
  - unfold settlements. rewrite Hev. reflexivity.
  - intros amount ok Hin.
    apply (in_eventsOf k) in Hin; [|done]. rewrite Hev in Hin.
    repeat (apply elem_of_cons in Hin as [Hin|Hin]; [discriminate|]).
    by apply elem_of_nil in Hin.
Qed.

Lemma tick_settles_insufficient_witness :
  let r := processMicropayments (fun _ => 100) (fun _ _ => true)
             (sampleRegistry 900000000 200) in
  sessions r.1 !! "5f3a9c0e1b2d4c6a"%string = None
  /\ eventsOf "5f3a9c0e1b2d4c6a" r.2
     = [EvGo (settleExpiredSession
                (sampleSession "5f3a9c0e1b2d4c6a" 1000000000 900000000 200));
        EvDelete "5f3a9c0e1b2d4c6a"]
  /\ settlements "5f3a9c0e1b2d4c6a" r.2 = 1%nat
  /\ (forall amount ok, EvSendPayment "5f3a9c0e1b2d4c6a" amount ok ∉ r.2).
Proof.
  apply (tick_settles_insufficient (fun _ => 100) (fun _ _ => true)
           (sampleRegistry 900000000 200)
           (map_to_list (sessions (sampleRegistry 900000000 200)))
           "5f3a9c0e1b2d4c6a"
           (sampleSession "5f3a9c0e1b2d4c6a" 1000000000 900000000 200)).
  - intros k g. simpl. intros Hk.
    apply lookup_singleton_Some in Hk as [<- <-]. reflexivity.
  - unfold iteration_order. reflexivity.
  - reflexivity.
  - vm_compute. reflexivity.
Defined.

Lemma tick_preserves_rate clock SendPayment order s :
  ratePerMin (processMicropaymentsIn clock SendPayment order s).1 = ratePerMin s.
Proof. unfold processMicropaymentsIn. by rewrite tick_fold_rate. Qed.

(** C8. When the payment of a tick fails for a session, the session
    stays in the registry with all its fields as they were, the only
    effect of the tick about it is the failed payment (so nothing is
    written to the store for it), and on the next tick the payment of
    one rate is attempted again unless the session has expired by then. *)
Theorem tick_failed_payment_leaves_session
    (clock : string -> Time) (SendPayment : GuestSession -> Z -> bool)
    (s : Server) (order : list (string * GuestSession))
    (k : string) (g : GuestSession) :
  registered s -> iteration_order s order ->
  sessions s !! k = Some g ->
  After (clock k) (ExpiresAt g) = false ->
  ratePerMin s <= FundingAmount g - TotalPaid g ->
  SendPayment g (ratePerMin s) = false ->
  let r := processMicropaymentsIn clock SendPayment order s in
  sessions r.1 !! k = Some g
  /\ eventsOf k r.2 = [EvSendPayment k (ratePerMin s) false]
  /\ (forall ev, ev ∈ r.2 -> eventSession ev = Some k -> isStoreWrite ev = false)
  /\ (forall clock' SendPayment' order',
        iteration_order r.1 order' ->
        After (clock' k) (ExpiresAt g) = false ->
        let r' := processMicropaymentsIn clock' SendPayment' order' r.1 in
        EvSendPayment k (ratePerMin s) (SendPayment' g (ratePerMin s)) ∈ r'.2).
Proof.
  intros Hreg Hord Hk Hlive Hfunds Hfail r.
  assert (forall c, After (c k) (ExpiresAt g) = false ->
          forall pay, tickSession c pay (ratePerMin s) k g
            = if pay g (ratePerMin s)
              then (tickSession c pay (ratePerMin s) k g)
              else (Some g, [EvSendPayment k (ratePerMin s) false])) as Hvisit.
  { intros c Hc pay. unfold tickSession. rewrite Hc.
    destruct (decide _); [lia|]. by destruct (pay g (ratePerMin s)). }
  assert (sessions r.1 !! k = Some g) as Hk'.
  { unfold r. rewrite tick_lookup by done. rewrite Hk. simpl.
    by rewrite Hvisit, Hfail. }
  assert (eventsOf k r.2 = [EvSendPayment k (ratePerMin s) false]) as Hev.
  { unfold r. erewrite tick_eventsOf by done. by rewrite Hvisit, Hfail. }
  repeat split; [done|done| |].
  - intros ev Hin Hs. apply (in_eventsOf k) in Hin; [|done].
    rewrite Hev in Hin. apply elem_of_cons in Hin as [->|Hin]; [done|].
    by apply elem_of_nil in Hin.
  - intros clock' SendPayment' order' Hord' Hlive' r'.
    apply (eventsOf_in k).
    unfold r'. erewrite tick_eventsOf; [| |done|done].
    + unfold r. rewrite tick_preserves_rate.
      unfold tickSession. rewrite Hlive'.
      destruct (decide _); [lia|].
      destruct (SendPayment' g (ratePerMin s)); simpl; apply elem_of_cons; by left.
    + by apply tick_registered.
Qed.

Lemma tick_failed_payment_leaves_session_witness :
  let r := processMicropayments (fun _ => 100) (fun _ _ => false)
             (sampleRegistry 0 200) in
  sessions r.1 !! "5f3a9c0e1b2d4c6a"%string
    = Some (sampleSession "5f3a9c0e1b2d4c6a" 1000000000 0 200)
  /\ eventsOf "5f3a9c0e1b2d4c6a" r.2
     = [EvSendPayment "5f3a9c0e1b2d4c6a" (ratePerMin (sampleRegistry 0 200)) false].
Proof.
  pose proof (tick_failed_payment_leaves_session (fun _ => 100) (fun _ _ => false)
           (sampleRegistry 0 200)
           (map_to_list (sessions (sampleRegistry 0 200)))
           "5f3a9c0e1b2d4c6a"
           (sampleSession "5f3a9c0e1b2d4c6a" 1000000000 0 200)) as H.
  destruct H as (H1 & H2 & _).
  - intros k g. simpl. intros Hk.
    apply lookup_singleton_Some in Hk as [<- <-]. reflexivity.
  - unfold iteration_order. reflexivity.
  - reflexivity.
  - reflexivity.
  - vm_compute. discriminate.
  - reflexivity.
  - split; [exact H1 | exact H2].
Defined.

(** ** The bound on the amount paid *)

Lemma tick_debited_within clock SendPayment rate k g g' :
  (tickSession clock SendPayment rate k g).1 = Some g' ->
  g' = g \/ (g' = setTotalPaid g (TotalPaid g + rate) /\ withinFunding g').
Proof.
  unfold tickSession. repeat case_match; simpl; intros Hg; simplify_eq.
  - right. split; [done|]. unfold withinFunding. simpl. lia.
  - by left.
Qed.

(** C1, as the code has it.  A tick keeps the amount paid within the
    funding amount: a session it debits is within its funding
    afterwards, and the others keep their amounts.  Opening the channel
    registers the session with the catch-up amount (the rate times the
    minutes elapsed, at least one) as the amount paid, and extending
    adds the extension amount to it, neither comparing it with the
    funding amount; the bound then holds exactly when the catch-up, or
    the extension, does not exceed what the funding leaves. *)
Theorem totalPaid_bound_by_operation :
  (forall clock SendPayment s order,
     iteration_order s order ->
     (forall k g, sessions s !! k = Some g -> withinFunding g) ->
     forall k g,
       sessions (processMicropaymentsIn clock SendPayment order s).1 !! k = Some g ->
       withinFunding g)
  /\ (forall env s wallet k balanceCKB s' tr g,
        sessions s !! k = None ->
        openChannelForSession env s wallet k balanceCKB = Some (s', tr) ->
        sessions s' !! k = Some g ->
        FundingAmount g
          = Int64.mul (Int64.sub balanceCKB (channelSetupCKB s)) ShannonsPerCKB
        /\ TotalPaid g = Z.max 1 (elapsedWholeMinutes env) * ratePerMin s
        /\ (withinFunding g <->
            Z.max 1 (elapsedWholeMinutes env) * ratePerMin s
              <= Int64.mul (Int64.sub balanceCKB (channelSetupCKB s)) ShannonsPerCKB))
  /\ (forall SendPayment s k amountCKB g,
        sessions s !! k = Some g ->
        0 < amountCKB -> ratePerMin s <> 0 ->
        SendPayment g (amountCKB * ShannonsPerCKB) = true ->
        exists s' tr g',
          handleExtendSession SendPayment s k (Some amountCKB)
            = Some (s', tr, StatusOK)
          /\ sessions s' !! k = Some g'
          /\ FundingAmount g' = FundingAmount g
          /\ TotalPaid g' = TotalPaid g + amountCKB * ShannonsPerCKB
          /\ (withinFunding g' <->
              amountCKB * ShannonsPerCKB <= FundingAmount g - TotalPaid g)).
Proof.
  split; [|split].
  - intros clock SendPayment s order Hord Hall k g.
    rewrite tick_lookup by done.
    destruct (sessions s !! k) as [g0|] eqn:Hk; simpl; [|done].
    intros H. apply tick_debited_within in H as [->|[_ H]]; [|done].
    by eapply Hall.
  - intros env s wallet k balanceCKB s' tr g Hfresh.
    unfold openChannelForSession.
    repeat (case_match; simpl; try discriminate);
      intros Hrun; inversion Hrun; subst; simpl;
      try (rewrite Hfresh; discriminate);
      rewrite lookup_insert_eq; intros Hg; simplify_eq;
      unfold withinFunding; simpl;
      first [ replace (Z.max 1 (elapsedWholeMinutes env)) with 1 by lia
            | replace (Z.max 1 (elapsedWholeMinutes env))
                with (elapsedWholeMinutes env) by lia ];
      done.
  - intros SendPayment s k amountCKB g Hk Hpos Hrate Hpay.
    unfold handleExtendSession. rewrite Hk, Hpay.
    destruct (decide (amountCKB <= 0)); [lia|].
    unfold BigDiv. destruct (decide (ratePerMin s = 0)); [done|]. simpl.
    eexists _, _, _. split; [done|]. simpl. rewrite lookup_insert_eq.
    split; [done|]. unfold withinFunding. simpl.
    repeat split; lia.
Qed.

Lemma totalPaid_bound_by_operation_witness :
  (forall k g,
     sessions (processMicropayments (fun _ => 100) (fun _ _ => true)
                 (sampleRegistry 0 200)).1 !! k = Some g ->
     withinFunding g)
  /\ exists s' tr g',
       handleExtendSession (fun _ _ => true) (sampleRegistry 0 200)
         "5f3a9c0e1b2d4c6a" (Some 4) = Some (s', tr, StatusOK)
       /\ sessions s' !! "5f3a9c0e1b2d4c6a"%string = Some g'
       /\ FundingAmount g' = 1000000000
       /\ TotalPaid g' = 0 + 4 * ShannonsPerCKB
       /\ (withinFunding g' <-> 4 * ShannonsPerCKB <= 1000000000 - 0).
Proof.
  destruct totalPaid_bound_by_operation as (Htick & _ & Hextend).
  split.
  - apply (Htick (fun _ => 100) (fun _ _ => true) (sampleRegistry 0 200)
             (map_to_list (sessions (sampleRegistry 0 200)))).
    + unfold iteration_order. reflexivity.
    + intros k g. simpl. intros Hk.
      apply lookup_singleton_Some in Hk as [<- <-].
      unfold withinFunding. simpl. lia.
  - apply (Hextend (fun _ _ => true) (sampleRegistry 0 200) "5f3a9c0e1b2d4c6a" 4
             (sampleSession "5f3a9c0e1b2d4c6a" 1000000000 0 200)).
    + reflexivity.
    + lia.
    + vm_compute. discriminate.
    + reflexivity.
Defined.

(** A wallet funded with 1005 CKB, of which 1000 are reserved, opens a
    channel funded with 5 CKB; the catch-up for the first minute at 500
    CKB per hour is 8.33 CKB, and the session is registered with that
    amount as paid. *)
Lemma totalPaid_bound_counterexample :
  exists s' tr g,
    openChannelForSession (sampleOpenEnv 0) sampleServer sampleWallet
      "5f3a9c0e1b2d4c6a" 1005 = Some (s', tr)
    /\ sessions s' !! "5f3a9c0e1b2d4c6a"%string = Some g
    /\ FundingAmount g = 500000000
    /\ TotalPaid g = 833333333
    /\ ¬ TotalPaid g <= FundingAmount g.
Proof.
  eexists _, _, _. split; [reflexivity|].
  split; [vm_compute; reflexivity|]. simpl. repeat split; lia.
Qed.


(** ** Entry points of settlement *)

Lemma handleEndSession_absent mac s k :
  sessions s !! k = None -> handleEndSession mac s k = (s, [], StatusNotFound).
Proof. intros H. unfold handleEndSession. by rewrite H. Qed.

Lemma handleEndSession_eventsOf mac s k g :
  ID g = k -> sessions s !! k = Some g ->
  eventsOf k (handleEndSession mac s k).1.2
  = [EvDelete k; EvUpdateSessionStatus k "settling";
     EvGo (settleSessionInBackground g)].
Proof.
  intros Hid Hk. unfold handleEndSession. rewrite Hk. simpl. unfold eventsOf.
  rewrite !filter_cons_True by done.
  rewrite filter_app.
  assert (filter (fun ev => eventSession ev = Some k)
            match mac k with
            | Some m => if decide (m = EmptyString) then [] else [EvDeauthorizeMAC m]
            | None => []
            end = []) as ->.
  { destruct (mac k) as [m|]; [|done]. destruct (decide _); [done|].
    by rewrite filter_cons_False. }
  simpl. rewrite filter_cons_True by (simpl; congruence). done.
Qed.

(** C2, as the code has it.  An end request removes the session from the
    registry before any other effect and starts one settlement task; an
    end request for an id that is not in the registry answers not found
    and has no effect; so of two end requests for the same id the second
    answers not found and one settlement is started in all.  The
    scheduler, on expiry or insufficient funds, starts the settlement
    task and then deletes the session, both in the same iteration under
    the registry lock, and an end request after that answers not found. *)
Theorem settlement_entry_points :
  (forall mac s k g,
     registered s -> sessions s !! k = Some g ->
     let r := handleEndSession mac s k in
     r.2 = StatusOK
     /\ sessions r.1.1 = delete k (sessions s)
     /\ removesFirst k r.1.2
     /\ settlements k r.1.2 = 1%nat)
  /\ (forall mac s k,
        sessions s !! k = None ->
        handleEndSession mac s k = (s, [], StatusNotFound))
  /\ (forall mac mac' s k g,
        registered s -> sessions s !! k = Some g ->
        let r1 := handleEndSession mac s k in
        let r2 := handleEndSession mac' r1.1.1 k in
        r2.2 = StatusNotFound /\ r2.1.2 = []
        /\ settlements k (r1.1.2 ++ r2.1.2) = 1%nat)
  /\ (forall clock SendPayment s order k g,
        registered s -> iteration_order s order ->
        sessions s !! k = Some g ->
        After (clock k) (ExpiresAt g) = true
          \/ FundingAmount g - TotalPaid g < ratePerMin s ->
        let r := processMicropaymentsIn clock SendPayment order s in
        eventsOf k r.2 = [EvGo (settleExpiredSession g); EvDelete k]
        /\ sessions r.1 !! k = None
        /\ forall mac, handleEndSession mac r.1 k = (r.1, [], StatusNotFound)).
Proof.
  assert (forall mac s k g, registered s -> sessions s !! k = Some g ->
            settlements k (handleEndSession mac s k).1.2 = 1%nat) as Hone.
  { intros mac s k g Hreg Hk. unfold settlements.
    by rewrite (handleEndSession_eventsOf mac s k g) by auto. }
  split; [|split; [|split]].
  - intros mac s k g Hreg Hk r. repeat split.
    + unfold r, handleEndSession. by rewrite Hk.
    + unfold r, handleEndSession. by rewrite Hk.
    + unfold removesFirst, r.
      by rewrite (handleEndSession_eventsOf mac s k g) by auto.
    + by eapply Hone.
  - apply handleEndSession_absent.
  - intros mac mac' s k g Hreg Hk r1 r2.
    assert (sessions r1.1.1 !! k = None) as Hgone.
    { unfold r1, handleEndSession. rewrite Hk. simpl. apply lookup_delete_eq. }
    unfold r2. rewrite handleEndSession_absent by done. simpl.
    rewrite app_nil_r. repeat split. by eapply Hone.
  - intros clock SendPayment s order k g Hreg Hord Hk Hcause r.
    assert ((tickSession clock SendPayment (ratePerMin s) k g)
            = (None, [EvGo (settleExpiredSession g); EvDelete k])) as Hvisit.
    { unfold tickSession. destruct Hcause as [->|Hlow]; [done|].
      destruct (After _ _); [done|]. destruct (decide _); [done|lia]. }
    assert (sessions r.1 !! k = None) as Hgone.
    { unfold r. rewrite tick_lookup by done. rewrite Hk. simpl. by rewrite Hvisit. }
    repeat split; [|done|].
    + unfold r. erewrite tick_eventsOf by done. by rewrite Hvisit.
    + intros mac. by apply handleEndSession_absent.
Qed.

Lemma settlement_entry_points_witness :
  let r := handleEndSession (fun _ => Some "aa:bb:cc:dd:ee:ff"%string)
             (sampleRegistry 0 200) "5f3a9c0e1b2d4c6a" in
  r.2 = StatusOK
  /\ sessions r.1.1 = delete "5f3a9c0e1b2d4c6a"%string (sessions (sampleRegistry 0 200))
  /\ removesFirst "5f3a9c0e1b2d4c6a" r.1.2
  /\ settlements "5f3a9c0e1b2d4c6a" r.1.2 = 1%nat.
Proof.
  apply (proj1 settlement_entry_points (fun _ => Some "aa:bb:cc:dd:ee:ff"%string)
           (sampleRegistry 0 200) "5f3a9c0e1b2d4c6a"
           (sampleSession "5f3a9c0e1b2d4c6a" 1000000000 0 200)).
  - intros k g. simpl. intros Hk.
    apply lookup_singleton_Some in Hk as [<- <-]. reflexivity.
  - reflexivity.
Defined.

(** On a tick past the expiry of a session the first effect about the
    session is the start of the settlement task; the deletion from the
    registry comes second. *)
Lemma scheduler_removes_first_counterexample :
  let r := processMicropayments (fun _ => 300) (fun _ _ => true)
             (sampleRegistry 0 200) in
  r.2 = [EvGo (settleExpiredSession
                 (sampleSession "5f3a9c0e1b2d4c6a" 1000000000 0 200));
         EvDelete "5f3a9c0e1b2d4c6a"]
  /\ ¬ removesFirst "5f3a9c0e1b2d4c6a" r.2.
Proof.
  assert ((processMicropayments (fun _ => 300) (fun _ _ => true)
             (sampleRegistry 0 200)).2
          = [EvGo (settleExpiredSession
                     (sampleSession "5f3a9c0e1b2d4c6a" 1000000000 0 200));
             EvDelete "5f3a9c0e1b2d4c6a"]) as Htr by (vm_compute; reflexivity).
  simpl. split; [exact Htr|]. rewrite Htr. unfold removesFirst, eventsOf.
  rewrite filter_cons_True by reflexivity. simpl. discriminate.
Qed.

(** ** Package perun *)

Section ClientFacts.
Context {W : Type}.
Variable rpc : Perun.RpcClient W.
Variable signedWitness : Perun.PrivateKey -> Perun.Transaction -> list Z.
Variable decodeAddress : string -> option Perun.Script.

Lemma getCellsRPC_ok lockScript w txs cells w1 :
  Perun.rpcGetCells rpc lockScript w = (Some cells, w1) ->
  Perun.wrapErr "failed to get cells" (Perun.getCellsRPC rpc lockScript) (w, txs)
  = Some (inr cells, (w1, txs)).
Proof.
  intros H. unfold Perun.wrapErr, Perun.getCellsRPC. simpl. by rewrite H.
Qed.

Lemma CountCells_ok lockScript w txs cells w1 :
  Perun.rpcGetCells rpc lockScript w = (Some cells, w1) ->
  Perun.CountCells rpc lockScript (w, txs)
  = Some (inr (Z.of_nat (length (filter Perun.bare cells))), (w1, txs)).
Proof.
  intros H. unfold Perun.CountCells, mbind, Perun.M_bind, Perun.bind.
  by rewrite (getCellsRPC_ok _ _ _ _ _ H).
Qed.

Lemma GetCells_ok lockScript w txs cells w1 :
  Perun.rpcGetCells rpc lockScript w = (Some cells, w1) ->
  Perun.GetCells rpc lockScript (w, txs)
  = Some (inr (filter Perun.bare cells), (w1, txs)).
Proof.
  intros H. unfold Perun.GetCells, mbind, Perun.M_bind, Perun.bind.
  by rewrite (getCellsRPC_ok _ _ _ _ _ H).
Qed.

(** C6. When the count of bare cells that the node reports already
    reaches [minCells], [EnsureMinimumCells] returns without an error
    and hands no transaction to the node. *)
Theorem EnsureMinimumCells_idempotent
    (fuel : nat) (privateKey : Perun.PrivateKey) (lockScript : Perun.Script)
    (minCells : Z) (w : W) (txs : list Perun.Transaction)
    (cells : list Perun.LiveCell) (w1 : W) :
  Perun.rpcGetCells rpc lockScript w = (Some cells, w1) ->
  minCells <= Z.of_nat (length (filter Perun.bare cells)) ->
  Perun.EnsureMinimumCells rpc signedWitness fuel privateKey lockScript
    minCells (w, txs)
  = Some (inr tt, (w1, txs)).
Proof.
  intros Hcells Hcount.
  unfold Perun.EnsureMinimumCells, mbind, Perun.M_bind, Perun.bind, Perun.wrapErr.
  rewrite (CountCells_ok _ _ _ _ _ Hcells).
  by destruct (decide _).
Qed.

Lemma withdraw_fold lockScript cells total inputs :
  fold_left (Perun.withdrawStep lockScript) cells (Uint64.wrap total, inputs)
  = (Uint64.wrap (total + capacitySum (withdrawable lockScript cells)),
     inputs ++ inputsOf (withdrawable lockScript cells)).
Proof.
  revert total inputs. unfold withdrawable.
  induction cells as [|c cells IH]; intros total inputs; simpl.
  - by rewrite Z.add_0_r, app_nil_r.
  - unfold Perun.withdrawStep at 2. simpl.
    destruct (decide (Perun.Type_ (Perun.Output c) = None)) as [Hty|Hty];
      [destruct (decide (Perun.Lock (Perun.Output c) = lockScript)) as [Hl|Hl]|].
    + rewrite filter_cons_True by done. unfold Uint64.add.
      rewrite IH. simpl. unfold capacitySum. simpl.
      unfold Uint64.wrap.
      rewrite <- app_assoc. simpl. f_equal.
      rewrite <- Z.add_assoc, Zplus_mod_idemp_l. reflexivity.
    + rewrite filter_cons_False by tauto. apply IH.
    + rewrite filter_cons_False by tauto. apply IH.
Qed.

Lemma withdraw_fold_start lockScript cells :
  fold_left (Perun.withdrawStep lockScript) cells (0, [])
  = (Uint64.wrap (capacitySum (withdrawable lockScript cells)),
     inputsOf (withdrawable lockScript cells)).
Proof. apply (withdraw_fold lockScript cells 0 []). Qed.

Lemma WithdrawAll_run privateKey fromLockScript toAddress toLockScript
    w txs cells w1 :
  decodeAddress toAddress = Some toLockScript ->
  Perun.rpcGetCells rpc fromLockScript w = (Some cells, w1) ->
  let mine := withdrawable fromLockScript cells in
  let total := Uint64.wrap (capacitySum mine) in
  Perun.WithdrawAll rpc signedWitness decodeAddress privateKey
    fromLockScript toAddress (w, txs)
  = match cells with
    | [] => Some (inl Perun.NoCellsInWallet, (w1, txs))
    | _ =>
      match inputsOf mine with
      | [] => Some (inl Perun.NoWithdrawableCells, (w1, txs))
      | _ =>
        if decide (total <= Uint64.add Perun.WithdrawFee Perun.MinCellCapacity)
        then Some (inl (Perun.InsufficientBalance total), (w1, txs))
        else
          Perun.wrapErr "failed to send transaction"
            (Perun.sendTransactionRPC rpc
               (Perun.signTransaction signedWitness
                  (Perun.withdrawTransaction (inputsOf mine)
                     (Uint64.sub total Perun.WithdrawFee) toLockScript)
                  privateKey))
            (w1, txs)
      end
    end.
Proof.
  intros Hdec Hcells mine total. unfold Perun.WithdrawAll. rewrite Hdec.
  unfold mbind, Perun.M_bind, Perun.bind.
  rewrite (getCellsRPC_ok _ _ _ _ _ Hcells).
  destruct cells as [|c0 cells0]; [done|].
  rewrite withdraw_fold_start. simpl. fold mine. fold total.
  destruct (inputsOf mine); [reflexivity|].
  destruct (decide _); reflexivity.
Qed.

(** C7, as the code has it.  [WithdrawAll] first decodes the
    destination and then asks the node once for the cells under the
    wallet's lock.  A destination that does not decode fails with the
    decode error before the node is asked, and a failing query fails
    with the error of the query.  Otherwise it goes by the bare cells
    under the wallet's lock among the cells of the answer and by the sum
    of their capacities, added up in 64 bits: without such a cell it
    fails with a no-cells error; with such cells and a sum of at most
    [WithdrawFee + MinCellCapacity] it fails with the
    insufficient-balance error.  In none of these cases is anything
    handed to the node.  A larger sum hands the node exactly one
    transaction, spending those cells, whose single output carries the
    sum less the fee under the lock of the destination. *)
Theorem WithdrawAll_outcomes
    (privateKey : Perun.PrivateKey) (fromLockScript : Perun.Script)
    (toAddress : string) (w : W) (txs : list Perun.Transaction) :
  let run := Perun.WithdrawAll rpc signedWitness decodeAddress privateKey
               fromLockScript toAddress (w, txs) in
  let answer := Perun.rpcGetCells rpc fromLockScript w in
  (decodeAddress toAddress = None ->
     run = Some (inl (Perun.Wrapped "failed to decode destination address"
                        Perun.DecodeError), (w, txs)))
  /\ (forall toLockScript,
        decodeAddress toAddress = Some toLockScript ->
        (answer.1 = None ->
           run = Some (inl (Perun.Wrapped "failed to get cells" Perun.RpcError),
                       (answer.2, txs)))
        /\ (forall cells,
              answer.1 = Some cells ->
              let mine := withdrawable fromLockScript cells in
              let sum := Uint64.wrap (capacitySum mine) in
              (Uint64.in_range (capacitySum mine) -> sum = capacitySum mine)
              /\ (mine = [] ->
                    run = Some (inl (if decide (cells = [])
                                     then Perun.NoCellsInWallet
                                     else Perun.NoWithdrawableCells),
                                (answer.2, txs)))
              /\ (mine <> [] ->
                    sum <= Perun.WithdrawFee + Perun.MinCellCapacity ->
                    run = Some (inl (Perun.InsufficientBalance sum),
                                (answer.2, txs)))
              /\ (Perun.WithdrawFee + Perun.MinCellCapacity < sum ->
                    let tx :=
                      Perun.signTransaction signedWitness
                        (Perun.withdrawTransaction (inputsOf mine)
                           (sum - Perun.WithdrawFee) toLockScript)
                        privateKey in
                    let sent := Perun.rpcSendTransaction rpc tx answer.2 in
                    Perun.Inputs tx = inputsOf mine
                    /\ Perun.Outputs tx
                       = [Perun.mkCellOutput (sum - Perun.WithdrawFee)
                            toLockScript None]
                    /\ run
                       = Some (match sent.1 with
                               | Some h => inr h
                               | None =>
                                 inl (Perun.Wrapped "failed to send transaction"
                                        Perun.RpcError)
                               end, (sent.2, txs ++ [tx]))))).
Proof.
  intros run answer. split.
  { intros Hdec. unfold run, Perun.WithdrawAll. by rewrite Hdec. }
  intros toLockScript Hdec. unfold answer.
  destruct (Perun.rpcGetCells rpc fromLockScript w) as [[cells|] w1] eqn:Hget;
    cbn [fst snd].
  2:{ split; [|done]. intros _. unfold run, Perun.WithdrawAll. rewrite Hdec.
      unfold mbind, Perun.M_bind, Perun.bind, Perun.wrapErr, Perun.getCellsRPC.
      simpl. by rewrite Hget. }
  split; [done|]. intros cells' Hcells'.
  apply (inj Some) in Hcells' as <-.
  set (mine := withdrawable fromLockScript cells).
  set (sum := Uint64.wrap (capacitySum mine)).
  assert (Uint64.add Perun.WithdrawFee Perun.MinCellCapacity
          = Perun.WithdrawFee + Perun.MinCellCapacity) as Hthr by reflexivity.
  pose proof (uint64_wrap_in_range (capacitySum mine)) as Hrange.
  fold sum in Hrange.
  pose proof (WithdrawAll_run privateKey fromLockScript toAddress toLockScript
                w txs cells w1 Hdec Hget) as Hrun.
  simpl in Hrun. fold mine in Hrun. fold sum in Hrun. fold run in Hrun.
  rewrite Hthr in Hrun.
  split; [apply uint64_wrap_id|]. split; [|split].
  - intros Hmine. rewrite Hrun, Hmine. simpl.
    destruct cells; by destruct (decide _).
  - intros Hmine Hsum. rewrite Hrun.
    destruct cells as [|c0 cells0]; [done|].
    destruct mine as [|m mine0]; [done|]. simpl.
    by destruct (decide _).
  - intros Hsum. rewrite Hrun.
    destruct cells as [|c0 cells0].
    { exfalso. unfold sum, mine, Perun.WithdrawFee, Perun.MinCellCapacity in Hsum.
      vm_compute in Hsum. discriminate. }
    destruct mine as [|m mine0] eqn:Hmine.
    { exfalso. unfold sum, Perun.WithdrawFee, Perun.MinCellCapacity in Hsum.
      vm_compute in Hsum. discriminate. }
    simpl. destruct (decide _); [lia|].
    assert (Uint64.sub sum Perun.WithdrawFee = sum - Perun.WithdrawFee) as ->.
    { unfold Uint64.sub. apply uint64_wrap_id.
      unfold Uint64.in_range, Uint64.max_uint, Perun.WithdrawFee,
        Perun.MinCellCapacity in *. lia. }
    split; [done|]. split; [done|].
    unfold Perun.wrapErr, Perun.sendTransactionRPC. simpl.
    by destruct (Perun.rpcSendTransaction _ _ _).1.
Qed.
End ClientFacts.

Lemma EnsureMinimumCells_idempotent_witness :
  Perun.EnsureMinimumCells (Perun.ledger sampleTxid) sampleWitness 3 "key"
    sampleLock 2
    ([sampleCell "0xaa" 0 7000000000; sampleCell "0xbb" 1 50000000000], [])
  = Some (inr tt,
          ([sampleCell "0xaa" 0 7000000000; sampleCell "0xbb" 1 50000000000], [])).
Proof.
  apply (EnsureMinimumCells_idempotent (Perun.ledger sampleTxid) sampleWitness
           3%nat "key" sampleLock 2
           [sampleCell "0xaa" 0 7000000000; sampleCell "0xbb" 1 50000000000] []
           [sampleCell "0xaa" 0 7000000000; sampleCell "0xbb" 1 50000000000]).
  - reflexivity.
  - vm_compute. discriminate.
Defined.

Lemma WithdrawAll_outcomes_witness :
  Perun.WithdrawAll (Perun.ledger sampleTxid) sampleWitness sampleDecode "key"
    sampleLock "ckt1sender" ([sampleCell "0xaa" 0 5000000000], [])
  = Some (inl (Perun.InsufficientBalance 5000000000),
          ([sampleCell "0xaa" 0 5000000000], []))
  /\ Perun.WithdrawAll (Perun.ledger sampleTxid) sampleWitness sampleDecode "key"
       sampleLock "ckt1nobody" ([sampleCell "0xaa" 0 5000000000], [])
     = Some (inl (Perun.Wrapped "failed to decode destination address"
                    Perun.DecodeError),
             ([sampleCell "0xaa" 0 5000000000], [])).
Proof.
  split.
  - destruct (WithdrawAll_outcomes (Perun.ledger sampleTxid) sampleWitness
                sampleDecode "key" sampleLock "ckt1sender"
                [sampleCell "0xaa" 0 5000000000] []) as (_ & H).
    destruct (H senderLock eq_refl) as (_ & Hcells).
    destruct (Hcells [sampleCell "0xaa" 0 5000000000] eq_refl)
      as (_ & _ & Hlow & _).
    apply Hlow.
    + vm_compute. discriminate.
    + vm_compute. discriminate.
  - apply (proj1 (WithdrawAll_outcomes (Perun.ledger sampleTxid) sampleWitness
                    sampleDecode "key" sampleLock "ckt1nobody"
                    [sampleCell "0xaa" 0 5000000000] [])).
    reflexivity.
Defined.

(** A wallet without cells has a capacity sum of 0, below the
    threshold, and [WithdrawAll] fails for it with the no-cells error,
    which is not the insufficient-balance error.  So does a wallet of
    one cell of 50 CKB, also below the threshold, when the destination
    does not decode: it fails with the decode error. *)
Lemma WithdrawAll_empty_wallet_counterexample :
  capacitySum (withdrawable sampleLock [])
    <= Perun.WithdrawFee + Perun.MinCellCapacity
  /\ Perun.WithdrawAll (Perun.ledger sampleTxid) sampleWitness sampleDecode "key"
       sampleLock "ckt1sender" ([], [])
     = Some (inl Perun.NoCellsInWallet, ([], []))
  /\ (forall total, Perun.NoCellsInWallet <> Perun.InsufficientBalance total)
  /\ capacitySum (withdrawable sampleLock [sampleCell "0xaa" 0 5000000000])
     <= Perun.WithdrawFee + Perun.MinCellCapacity
  /\ Perun.WithdrawAll (Perun.ledger sampleTxid) sampleWitness sampleDecode "key"
       sampleLock "ckt1nobody" ([sampleCell "0xaa" 0 5000000000], [])
     = Some (inl (Perun.Wrapped "failed to decode destination address"
                    Perun.DecodeError),
             ([sampleCell "0xaa" 0 5000000000], [])).
Proof.
  split; [vm_compute; discriminate|]. split; [reflexivity|].
  split; [discriminate|]. split; [vm_compute; discriminate|]. reflexivity.
Qed.

(** *** Splitting on the ledger *)

Section LedgerFacts.
Variable txid : Perun.Transaction -> string.
Variable signedWitness : Perun.PrivateKey -> Perun.Transaction -> list Z.

Local Abbreviation L := (Perun.ledger txid).

Lemma ledger_getCells lockScript w :
  Perun.rpcGetCells L lockScript w = (Some (take 100 (cellsOf lockScript w)), w).
Proof. reflexivity. Qed.

Lemma cellsOf_unspent lockScript tx w :
  cellsOf lockScript (filter (fun c => ¬ Perun.spent tx c) w)
  = filter (fun c => ¬ Perun.spent tx c) (cellsOf lockScript w).
Proof.
  unfold cellsOf. induction w as [|c w IH]; [done|].
  destruct (decide (Perun.spent tx c)) as [Hs|Hs];
    destruct (decide (Perun.Lock (Perun.Output c) = lockScript)) as [Hl|Hl];
    repeat first [ rewrite filter_cons_True by (try done; tauto)
                 | rewrite filter_cons_False by (try done; tauto) ];
    by rewrite IH.
Qed.

Lemma pickCell_single c :
  Perun.minSplitCapacity <= Perun.Capacity (Perun.Output c) ->
  Perun.pickCell [c] = Some c.
Proof.
  intros H. unfold Perun.pickCell. simpl. unfold Perun.pickStep.
  by destruct (decide _).
Qed.

(** What the ledger looks like for the wallet after the split of its
    only cell. *)
Lemma split_on_ledger privateKey lockScript w txs c :
  cellsOf lockScript w = [c] -> Perun.bare c ->
  Perun.minSplitCapacity <= Perun.Capacity (Perun.Output c) ->
  let tx := Perun.signTransaction signedWitness
              (Perun.splitTransaction c lockScript) privateKey in
  let w' := filter (fun x => ¬ Perun.spent tx x) w ++ Perun.created txid tx in
  Perun.SplitCell L signedWitness privateKey lockScript (w, txs)
    = Some (inr (txid tx), (w', txs ++ [tx]))
  /\ cellsOf lockScript w' = Perun.created txid tx.
Proof.
  intros Hw Hbare Hcap tx w'. split.
  - unfold Perun.SplitCell, mbind, Perun.M_bind, Perun.bind.
    rewrite (GetCells_ok L lockScript w txs [c] w)
      by (by rewrite ledger_getCells, Hw).
    rewrite filter_cons_True by done. rewrite filter_nil.
    rewrite pickCell_single by done.
    unfold Perun.wrapErr, Perun.sendTransactionRPC, Perun.waitForConfirmation.
    simpl. fold tx.
    destruct (decide (Forall (Perun.live w) _)) as [|Hdead];
      [reflexivity|].
    exfalso. apply Hdead. apply Forall_cons. split; [|apply Forall_nil_2].
    unfold Perun.live. simpl. apply list_elem_of_fmap_2.
    assert (c ∈ cellsOf lockScript w) as Hin by (rewrite Hw; set_solver).
    unfold cellsOf in Hin. apply list_elem_of_filter in Hin. tauto.
  - unfold w'. unfold cellsOf at 1. rewrite filter_app.
    fold (cellsOf lockScript (filter (fun x => ¬ Perun.spent tx x) w)).
    rewrite cellsOf_unspent, Hw.
    rewrite filter_cons_False, filter_nil.
    + simpl. unfold Perun.created. simpl.
      by rewrite !filter_cons_True by done.
    + intros Hn. apply Hn. unfold Perun.spent. simpl. set_solver.
Qed.

(** C5. On a ledger where the wallet holds one bare cell of capacity
    [C], with [C] at least [2 * CellMinCapacity + SplitFee],
    [EnsureMinimumCells] for two cells submits exactly one
    transaction, spending that cell, and leaves the wallet with
    exactly two bare cells whose capacities add up to [C - SplitFee]
    and are each at least [CellMinCapacity]; the first is the even
    half, or [CellMinCapacity] if that were larger. *)
Theorem EnsureMinimumCells_splits_single_cell
    (fuel : nat) (privateKey : Perun.PrivateKey) (lockScript : Perun.Script)
    (w : list Perun.LiveCell) (c : Perun.LiveCell) :
  cellsOf lockScript w = [c] -> Perun.bare c ->
  Uint64.in_range (Perun.Capacity (Perun.Output c)) ->
  2 * Perun.CellMinCapacity + Perun.SplitFee <= Perun.Capacity (Perun.Output c) ->
  exists tx w' o1 o2,
    Perun.EnsureMinimumCells L signedWitness (S fuel) privateKey lockScript 2
      (w, [])
    = Some (inr tt, (w', [tx]))
    /\ Perun.Inputs tx = [Perun.mkCellInput 0 (Perun.CellOutPoint c)]
    /\ cellsOf lockScript w' = [o1; o2]
    /\ Perun.bare o1 /\ Perun.bare o2
    /\ Perun.Capacity (Perun.Output o1) + Perun.Capacity (Perun.Output o2)
       = Perun.Capacity (Perun.Output c) - Perun.SplitFee
    /\ Perun.CellMinCapacity <= Perun.Capacity (Perun.Output o1)
    /\ Perun.CellMinCapacity <= Perun.Capacity (Perun.Output o2)
    /\ Perun.Capacity (Perun.Output o1)
       = Z.max ((Perun.Capacity (Perun.Output c) - Perun.SplitFee) `div` 2)
           Perun.CellMinCapacity.
Proof.
  intros Hw Hbare Hrange Hcap.
  assert (Perun.minSplitCapacity <= Perun.Capacity (Perun.Output c)) as Hmin
    by (rewrite minSplitCapacity_value;
        unfold Perun.CellMinCapacity, Perun.SplitFee in Hcap; lia).
  destruct (split_on_ledger privateKey lockScript w [] c Hw Hbare Hmin)
    as [Hsplit Hcells].
  destruct (splitCapacities_even _ Hrange Hmin) as (Hcaps & Hc1 & Hc2).
  set (tx := Perun.signTransaction signedWitness
               (Perun.splitTransaction c lockScript) privateKey) in *.
  set (w' := filter (fun x => ¬ Perun.spent tx x) w ++ Perun.created txid tx) in *.
  exists tx, w'.
  eexists (Perun.mkLiveCell (Perun.mkOutPoint (txid tx) 0) _),
          (Perun.mkLiveCell (Perun.mkOutPoint (txid tx) 1) _).
  split; [|split; [reflexivity|split; [exact Hcells|]]].
  - unfold Perun.EnsureMinimumCells, mbind, Perun.M_bind, Perun.bind, Perun.wrapErr.
    rewrite (CountCells_ok L lockScript w [] [c] w)
      by (by rewrite ledger_getCells, Hw).
    rewrite filter_cons_True by done. rewrite filter_nil. simpl.
    unfold mbind, Perun.M_bind, Perun.bind, Perun.wrapErr.
    rewrite Hsplit.
    rewrite (CountCells_ok L lockScript w' _ (Perun.created txid tx) w')
      by (by rewrite ledger_getCells, Hcells).
    simpl. by destruct fuel.
  - simpl. rewrite Hcaps. simpl.
    unfold Perun.bare. simpl. repeat split; try lia.
Qed.
End LedgerFacts.

Lemma EnsureMinimumCells_splits_single_cell_witness :
  exists tx w' o1 o2,
    Perun.EnsureMinimumCells (Perun.ledger sampleTxid) sampleWitness 1 "key"
      sampleLock 2 ([sampleCell "0xbb" 1 50000000000], [])
    = Some (inr tt, (w', [tx]))
    /\ Perun.Inputs tx = [Perun.mkCellInput 0 (Perun.mkOutPoint "0xbb" 1)]
    /\ cellsOf sampleLock w' = [o1; o2]
    /\ Perun.bare o1 /\ Perun.bare o2
    /\ Perun.Capacity (Perun.Output o1) + Perun.Capacity (Perun.Output o2)
       = 50000000000 - Perun.SplitFee
    /\ Perun.CellMinCapacity <= Perun.Capacity (Perun.Output o1)
    /\ Perun.CellMinCapacity <= Perun.Capacity (Perun.Output o2)
    /\ Perun.Capacity (Perun.Output o1)
       = Z.max ((50000000000 - Perun.SplitFee) `div` 2) Perun.CellMinCapacity.
Proof.
  apply (EnsureMinimumCells_splits_single_cell sampleTxid sampleWitness 0%nat
           "key" sampleLock [sampleCell "0xbb" 1 50000000000]
           (sampleCell "0xbb" 1 50000000000)).
  - reflexivity.
  - reflexivity.
  - vm_compute. split; discriminate.
  - vm_compute. discriminate.
Defined.

(** ** The registry keeps sessions under their own ids *)

Lemma NewServer_registered cfg : registered (NewServer cfg).
Proof. intros k g. simpl. by rewrite lookup_empty. Qed.

Lemma openChannelForSession_registered env s wallet k balanceCKB s' tr :
  registered s ->
  openChannelForSession env s wallet k balanceCKB = Some (s', tr) ->
  registered s'.
Proof.
  intros Hreg. unfold openChannelForSession.
  repeat (case_match; simpl; try discriminate);
    intros Hrun; inversion Hrun; subst; try done;
    intros k' g'; simpl; rewrite lookup_insert;
    destruct (decide (k = k')); intros Hg; simplify_eq; auto.
Qed.

Lemma handleExtendSession_registered SendPayment s k amount s' tr resp :
  registered s ->
  handleExtendSession SendPayment s k amount = Some (s', tr, resp) ->
  registered s'.
Proof.
  intros Hreg. unfold handleExtendSession.
  repeat (case_match; simpl; try done); intros Hr; simplify_eq; try done.
  destruct (BigDiv _ _) as [q|]; simpl in Hr; [|done]. simplify_eq.
  intros k' g'. simpl. rewrite lookup_insert.
  destruct (decide (k = k')); intros Hg; simplify_eq; [|by apply Hreg].
  simpl. by apply Hreg.
Qed.

Lemma handleEndSession_registered mac s k :
  registered s -> registered (handleEndSession mac s k).1.1.
Proof.
  intros Hreg. unfold handleEndSession.
  destruct (sessions s !! k); simpl; [|done].
  intros k' g'. simpl. rewrite lookup_delete.
  destruct (decide (k = k')); [done|]. apply Hreg.
Qed.

(** ** Worked examples *)

(** A tick that debits: one rate of 8.33 CKB is paid out of 10 CKB, and
    the store is told a balance of 1 CKB and 8 CKB spent. *)
Example tick_debits :
  let r := processMicropayments (fun _ => 100) (fun _ _ => true)
             (sampleRegistry 0 200) in
  sessions r.1 !! "5f3a9c0e1b2d4c6a"%string
    = Some (sampleSession "5f3a9c0e1b2d4c6a" 1000000000 833333333 200)
  /\ r.2 = [EvSendPayment "5f3a9c0e1b2d4c6a" 833333333 true;
            EvUpdateSessionBalance "5f3a9c0e1b2d4c6a" 1 8].
Proof. split; vm_compute; reflexivity. Qed.

(** The tick after that finds 1.67 CKB left, less than one rate, and
    settles. *)
Example tick_then_settles :
  let r := processMicropayments (fun _ => 160) (fun _ _ => true)
             (sampleRegistry 833333333 200) in
  sessions r.1 = ∅
  /\ r.2 = [EvGo (settleExpiredSession
                    (sampleSession "5f3a9c0e1b2d4c6a" 1000000000 833333333 200));
            EvDelete "5f3a9c0e1b2d4c6a"].
Proof. split; vm_compute; reflexivity. Qed.

(** Extending by 25 CKB at 500 CKB per hour adds three minutes. *)
Example extend_adds_minutes :
  exists s',
    handleExtendSession (fun _ _ => true) (sampleRegistry 0 200)
      "5f3a9c0e1b2d4c6a" (Some 25)
    = Some (s',
            [EvSendPayment "5f3a9c0e1b2d4c6a" 2500000000 true;
             EvExtendSession "5f3a9c0e1b2d4c6a" 3 25],
            StatusOK)
    /\ sessions s' !! "5f3a9c0e1b2d4c6a"%string
       = Some (sampleSession "5f3a9c0e1b2d4c6a" 1000000000 2500000000
                 (200 + 3 * Minute)).
Proof. eexists. split; vm_compute; reflexivity. Qed.

(** An extend request on a server whose rate per minute is zero panics
    in the division. *)
Example extend_panics_on_zero_rate :
  handleExtendSession (fun _ _ => true)
    (updateRatePerMin (sampleRegistry 0 200) (2 ^ 56))
    "5f3a9c0e1b2d4c6a" (Some 25) = None.
Proof. vm_compute. reflexivity. Qed.

(** Two end requests in a row. *)
Example end_twice :
  let r1 := handleEndSession (fun _ => None) (sampleRegistry 0 200)
              "5f3a9c0e1b2d4c6a" in
  let r2 := handleEndSession (fun _ => None) r1.1.1 "5f3a9c0e1b2d4c6a" in
  r1.2 = StatusOK /\ r2.2 = StatusNotFound /\ r2.1.2 = [].
Proof. repeat split; vm_compute; reflexivity. Qed.

(** Sweeping a wallet of two bare cells, 70 and 30 CKB, and one cell with
    a type script, which is left alone. *)
Example withdraw_sweeps_bare_cells :
  let typed :=
    Perun.mkLiveCell (Perun.mkOutPoint "0xcc" 0)
      (Perun.mkCellOutput 20000000000 sampleLock (Some senderLock)) in
  let w := [sampleCell "0xaa" 0 7000000000; typed;
            sampleCell "0xbb" 1 3000000000] in
  exists tx w',
    Perun.WithdrawAll (Perun.ledger sampleTxid) sampleWitness sampleDecode "key"
      sampleLock "ckt1sender" (w, [])
    = Some (inr "0xaa.0"%string, (w', [tx]))
    /\ Perun.Outputs tx = [Perun.mkCellOutput 9999900000 senderLock None]
    /\ Perun.Inputs tx = [Perun.mkCellInput 0 (Perun.mkOutPoint "0xaa" 0);
                          Perun.mkCellInput 0 (Perun.mkOutPoint "0xbb" 1)]
    /\ cellsOf sampleLock w' = [typed]
    /\ cellsOf senderLock w'
       = [Perun.mkLiveCell (Perun.mkOutPoint "0xaa.0" 0)
            (Perun.mkCellOutput 9999900000 senderLock None)].
Proof. eexists _, _. repeat split; vm_compute; reflexivity. Qed.

(** A wallet whose only cell carries a type script. *)
Example withdraw_no_bare_cell :
  let typed :=
    Perun.mkLiveCell (Perun.mkOutPoint "0xcc" 0)
      (Perun.mkCellOutput 20000000000 sampleLock (Some senderLock)) in
  Perun.WithdrawAll (Perun.ledger sampleTxid) sampleWitness sampleDecode "key"
    sampleLock "ckt1sender" ([typed], [])
  = Some (inl Perun.NoWithdrawableCells, ([typed], [])).
Proof. vm_compute. reflexivity. Qed.

(** A wallet of one 100 CKB cell cannot be split: twice the minimum and
    the fee are 122.001 CKB. *)
Example split_needs_capacity :
  Perun.EnsureMinimumCells (Perun.ledger sampleTxid) sampleWitness 4 "key"
    sampleLock 2 ([sampleCell "0xaa" 0 10000000000], [])
  = Some (inl (Perun.Wrapped "failed to split cell"
                 (Perun.NoSplittableCell 12200100000)),
          ([sampleCell "0xaa" 0 10000000000], [])).
Proof. vm_compute. reflexivity. Qed.

(** Preparing four cells, as [openChannelForSession] asks, from one cell
    of 500 CKB takes three splits. *)
Example four_cells_from_one :
  exists w' txs,
    Perun.EnsureMinimumCells (Perun.ledger sampleTxid) sampleWitness 3 "key"
      sampleLock 4 ([sampleCell "0xaa" 0 50000000000], [])
    = Some (inr tt, (w', txs))
    /\ length txs = 3%nat
    /\ (fun c => Perun.Capacity (Perun.Output c)) <$> cellsOf sampleLock w'
       = [12499925000; 12499925000; 12499925000; 12499925000].
Proof. eexists _, _. repeat split; vm_compute; reflexivity. Qed.

(** * Further properties *)

(** ** The selection loop of SplitCell *)

Lemma pickCell_fold_spec cells best :
  (forall b, best = Some b ->
     Perun.minSplitCapacity <= Perun.Capacity (Perun.Output b)) ->
  match fold_left Perun.pickStep cells best with
  | None =>
    best = None
    /\ forall c, c ∈ cells ->
         Perun.Capacity (Perun.Output c) < Perun.minSplitCapacity
  | Some r =>
    Perun.minSplitCapacity <= Perun.Capacity (Perun.Output r)
    /\ (forall b, best = Some b ->
          Perun.Capacity (Perun.Output b) <= Perun.Capacity (Perun.Output r))
    /\ (forall c, c ∈ cells ->
          Perun.minSplitCapacity <= Perun.Capacity (Perun.Output c) ->
          Perun.Capacity (Perun.Output c) <= Perun.Capacity (Perun.Output r))
  end.
Proof.
  revert best. induction cells as [|cell cells IH]; intros best Hbest; simpl.
  - destruct best as [b|].
    + split; [by apply Hbest|]. split.
      * intros b' Hb. by simplify_eq.
      * intros c Hc. by apply elem_of_nil in Hc.
    + split; [done|]. intros c Hc. by apply elem_of_nil in Hc.
  - specialize (IH (Perun.pickStep best cell)).
    assert (forall b, Perun.pickStep best cell = Some b ->
              Perun.minSplitCapacity <= Perun.Capacity (Perun.Output b)) as Hstep.
    { intros b Hb. apply pickStep_keeps in Hb as [[-> Hc]|Hb]; auto. }
    specialize (IH Hstep).
    destruct (fold_left Perun.pickStep cells (Perun.pickStep best cell)) as [r|].
    + destruct IH as (Hr & Hacc & Hall). split; [done|]. split.
      * intros b ->. unfold Perun.pickStep in Hacc.
        destruct (decide _) as [Hc|Hc]; [|by apply Hacc].
        destruct (decide _) as [Hlt|Hge].
        -- specialize (Hacc cell eq_refl). lia.
        -- by apply Hacc.
      * intros c Hin Hc. apply elem_of_cons in Hin as [->|Hin]; [|by apply Hall].
        unfold Perun.pickStep in Hacc.
        destruct (decide _) as [_|?]; [|lia].
        destruct best as [b|]; [|by apply Hacc].
        destruct (decide _) as [Hlt|Hge]; [by apply Hacc|].
        specialize (Hacc b eq_refl). lia.
    + destruct IH as (Hnone & Hall). unfold Perun.pickStep in Hnone.
      destruct (decide _) as [Hc|Hc].
      * destruct best as [b|]; [destruct (decide _)|]; discriminate.
      * split; [done|]. intros c Hin.
        apply elem_of_cons in Hin as [->|Hin]; [lia|by apply Hall].
Qed.

Lemma pickCell_max cells c :
  Perun.pickCell cells = Some c ->
  c ∈ cells
  /\ Perun.minSplitCapacity <= Perun.Capacity (Perun.Output c)
  /\ forall c', c' ∈ cells ->
       Perun.minSplitCapacity <= Perun.Capacity (Perun.Output c') ->
       Perun.Capacity (Perun.Output c') <= Perun.Capacity (Perun.Output c).
Proof.
  intros Hc. pose proof (pickCell_splittable cells c Hc) as [Hin Hmin].
  pose proof (pickCell_fold_spec cells None) as H.
  unfold Perun.pickCell in Hc. rewrite Hc in H.
  destruct H as (_ & _ & Hall); [done|]. auto.
Qed.

(** X1. The cell chosen by the selection loop of [SplitCell] is one of
    the cells it was given, holds at least the capacity needed for a
    split, and no splittable cell given is larger; no cell is chosen
    exactly when every cell is below that capacity. *)
Theorem pickCell_largest_splittable (cells : list Perun.LiveCell) :
  (forall c, Perun.pickCell cells = Some c ->
     c ∈ cells
     /\ Perun.minSplitCapacity <= Perun.Capacity (Perun.Output c)
     /\ forall c', c' ∈ cells ->
          Perun.minSplitCapacity <= Perun.Capacity (Perun.Output c') ->
          Perun.Capacity (Perun.Output c') <= Perun.Capacity (Perun.Output c))
  /\ (Perun.pickCell cells = None <->
      forall c, c ∈ cells ->
        Perun.Capacity (Perun.Output c) < Perun.minSplitCapacity).
Proof.
  pose proof (pickCell_fold_spec cells None) as H.
  unfold Perun.pickCell. split.
  - intros c Hc. pose proof (pickCell_splittable cells c Hc) as [Hin Hmin].
    unfold Perun.pickCell in Hc. rewrite Hc in H.
    destruct H as (_ & _ & Hall); [done|]. auto.
  - destruct (fold_left Perun.pickStep cells None) as [r|] eqn:Hr.
    + split; [done|]. intros Hall. exfalso.
      pose proof (pickCell_splittable cells r Hr) as [Hin Hmin].
      specialize (Hall r Hin). lia.
    + split; [|done]. intros _. by destruct H.
Qed.

Lemma pickCell_largest_splittable_witness :
  Perun.pickCell [sampleCell "0xaa" 0 7000000000;
                  sampleCell "0xbb" 1 20000000000;
                  sampleCell "0xcc" 2 50000000000;
                  sampleCell "0xdd" 3 50000000000]
  = Some (sampleCell "0xcc" 2 50000000000)
  /\ Perun.Capacity (Perun.Output (sampleCell "0xdd" 3 50000000000))
     <= Perun.Capacity (Perun.Output (sampleCell "0xcc" 2 50000000000)).
Proof.
  split; [reflexivity|].
  apply (proj1 (pickCell_largest_splittable
                  [sampleCell "0xaa" 0 7000000000;
                   sampleCell "0xbb" 1 20000000000;
                   sampleCell "0xcc" 2 50000000000;
                   sampleCell "0xdd" 3 50000000000])
               (sampleCell "0xcc" 2 50000000000)).
  - reflexivity.
  - set_solver.
  - vm_compute. discriminate.
Defined.

(** ** What SplitCell and EnsureMinimumCells hand to the node *)

Section SplitFacts.
Context {W : Type}.
Variable rpc : Perun.RpcClient W.
Variable signedWitness : Perun.PrivateKey -> Perun.Transaction -> list Z.

Lemma splitTransaction_splits lockScript c privateKey :
  Uint64.in_range (Perun.Capacity (Perun.Output c)) ->
  Perun.minSplitCapacity <= Perun.Capacity (Perun.Output c) ->
  splitsCell lockScript c
    (Perun.signTransaction signedWitness (Perun.splitTransaction c lockScript)
       privateKey).
Proof.
  intros Hr Hmin. destruct (splitCapacities_even _ Hr Hmin) as (Heq & H1 & H2).
  split; [done|]. simpl. rewrite Heq. simpl.
  eexists _, _. split; [done|]. repeat split; [lia|done|done].
Qed.

(** The part of [SplitCell] after the selection: send, then wait. *)
Lemma send_and_wait_logs tx (w : W) txs :
  exists res w2,
    (txHash ← Perun.wrapErr "failed to send transaction"
                (Perun.sendTransactionRPC rpc tx);
     _ ← Perun.wrapErr "transaction not confirmed"
           (Perun.waitForConfirmation rpc txHash);
     Perun.ok txHash) (w, txs)
    = Some (res, (w2, txs ++ [tx])).
Proof.
  unfold mbind, Perun.M_bind, Perun.bind, Perun.wrapErr,
    Perun.sendTransactionRPC, Perun.waitForConfirmation, Perun.ok. simpl.
  destruct (Perun.rpcSendTransaction rpc tx w) as [[h|] w2]; simpl; [|eauto].
  destruct (Perun.awaitStatus rpc h w2) as [[] w3]; simpl; eauto.
Qed.

Lemma SplitCell_run privateKey lockScript w txs :
  exists res w2 txs2,
    Perun.SplitCell rpc signedWitness privateKey lockScript (w, txs)
      = Some (res, (w2, txs2))
    /\ match (Perun.rpcGetCells rpc lockScript w).1 with
       | None =>
         res = inl (Perun.Wrapped "failed to get cells" Perun.RpcError)
         /\ txs2 = txs
       | Some cells =>
         match filter Perun.bare cells with
         | [] => res = inl Perun.NoCellsFound /\ txs2 = txs
         | _ =>
           match Perun.pickCell (filter Perun.bare cells) with
           | None =>
             res = inl (Perun.NoSplittableCell 12200100000) /\ txs2 = txs
           | Some c =>
             txs2 = txs ++ [Perun.signTransaction signedWitness
                              (Perun.splitTransaction c lockScript) privateKey]
           end
         end
       end.
Proof.
  destruct (Perun.rpcGetCells rpc lockScript w) as [[cells|] w1] eqn:Hget.
  - unfold Perun.SplitCell, mbind, Perun.M_bind, Perun.bind.
    rewrite (GetCells_ok rpc lockScript w txs cells w1 Hget). simpl.
    destruct (filter Perun.bare cells) as [|c0 rest] eqn:Hbare.
    + eexists _, _, _. split; [reflexivity|]. done.
    + destruct (Perun.pickCell (c0 :: rest)) as [c|] eqn:Hpick.
      * destruct (send_and_wait_logs
                    (Perun.signTransaction signedWitness
                       (Perun.splitTransaction c lockScript) privateKey) w1 txs)
          as (res & w2 & Hrun).
        unfold mbind, Perun.M_bind, Perun.bind in Hrun. rewrite Hrun.
        eexists _, _, _. split; [reflexivity|]. done.
      * eexists _, _, _. split; [reflexivity|]. done.
  - unfold Perun.SplitCell, Perun.GetCells, mbind, Perun.M_bind, Perun.bind,
      Perun.wrapErr, Perun.getCellsRPC. simpl. rewrite Hget. simpl.
    eexists _, _, _. split; [reflexivity|]. done.
Qed.

(** Whatever the node does, a call of [SplitCell] hands it at most one
    transaction, and that one splits a bare cell of the answer. *)
Lemma SplitCell_log privateKey lockScript w txs :
  answersUint64 rpc ->
  exists res w2 txs2,
    Perun.SplitCell rpc signedWitness privateKey lockScript (w, txs)
      = Some (res, (w2, txs2))
    /\ ((txs2 = txs /\ exists e, res = inl e)
        \/ exists c tx,
             txs2 = txs ++ [tx] /\ Perun.bare c /\ splitsCell lockScript c tx).
Proof.
  intros Hnode.
  destruct (SplitCell_run privateKey lockScript w txs)
    as (res & w2 & txs2 & Hrun & Hcase).
  exists res, w2, txs2. split; [done|].
  destruct (Perun.rpcGetCells rpc lockScript w) as [[cells|] w1] eqn:Hget;
    simpl in Hcase.
  - destruct (filter Perun.bare cells) as [|c0 rest] eqn:Hbare.
    { left. destruct Hcase as [-> ->]. eauto. }
    destruct (Perun.pickCell (c0 :: rest)) as [c|] eqn:Hpick.
    + right. apply pickCell_splittable in Hpick as [Hin Hmin].
      rewrite <- Hbare in Hin. apply list_elem_of_filter in Hin as [Hb Hin].
      eexists c, _. split; [done|]. split; [done|].
      apply splitTransaction_splits; [|done].
      pose proof (Hnode _ _ _ _ Hget) as Hall.
      rewrite Forall_forall in Hall. by apply Hall.
    + left. destruct Hcase as [-> ->]. eauto.
  - left. destruct Hcase as [-> ->]. eauto.
Qed.

(** X2. Whatever the node answers, [SplitCell] ends having handed it at
    most one transaction.  It hands none, and fails, when the cell query
    fails, when the wallet has no bare cell, or when no bare cell holds
    [2 * CellMinCapacity + SplitFee]; otherwise it hands exactly one,
    which spends the largest such cell into two bare cells under the
    wallet's lock, each of at least [CellMinCapacity], holding together
    the capacity of the cell less [SplitFee]. *)
Theorem SplitCell_outcomes
    (privateKey : Perun.PrivateKey) (lockScript : Perun.Script)
    (w : W) (txs : list Perun.Transaction) :
  answersUint64 rpc ->
  exists res w2 txs2,
    Perun.SplitCell rpc signedWitness privateKey lockScript (w, txs)
      = Some (res, (w2, txs2))
    /\ match (Perun.rpcGetCells rpc lockScript w).1 with
       | None =>
         res = inl (Perun.Wrapped "failed to get cells" Perun.RpcError)
         /\ txs2 = txs
       | Some cells =>
         match Perun.pickCell (filter Perun.bare cells) with
         | None =>
           txs2 = txs
           /\ res = inl (if decide (filter Perun.bare cells = [])
                         then Perun.NoCellsFound
                         else Perun.NoSplittableCell 12200100000)
         | Some c =>
           exists tx,
             txs2 = txs ++ [tx] /\ splitsCell lockScript c tx
             /\ c ∈ cells /\ Perun.bare c
             /\ forall c', c' ∈ cells -> Perun.bare c' ->
                  Perun.minSplitCapacity <= Perun.Capacity (Perun.Output c') ->
                  Perun.Capacity (Perun.Output c')
                    <= Perun.Capacity (Perun.Output c)
         end
       end.
Proof.
  intros Hnode.
  destruct (SplitCell_run privateKey lockScript w txs)
    as (res & w2 & txs2 & Hrun & Hcase).
  exists res, w2, txs2. split; [done|].
  destruct (Perun.rpcGetCells rpc lockScript w) as [[cells|] w1] eqn:Hget;
    simpl in *; [|done].
  destruct (filter Perun.bare cells) as [|c0 rest] eqn:Hbare.
  { simpl. by destruct Hcase as [-> ->]. }
  destruct (Perun.pickCell (c0 :: rest)) as [c|] eqn:Hpick.
  - destruct (pickCell_max (c0 :: rest) c Hpick)
      as (Hin & Hmin & Hmax).
    rewrite <- Hbare in Hin, Hmax.
    apply list_elem_of_filter in Hin as [Hb Hin].
    eexists. split; [done|]. split; [|split; [done|split; [done|]]].
    + apply splitTransaction_splits; [|done].
      pose proof (Hnode _ _ _ _ Hget) as Hall.
      rewrite Forall_forall in Hall. by apply Hall.
    + intros c' Hin' Hb' Hc'. apply Hmax; [|done].
      by apply list_elem_of_filter.
  - destruct Hcase as [-> ->]. split; [done|].
    first [done | by rewrite decide_False].
Qed.

Lemma splitUntil_log fuel privateKey lockScript minCells count w txs res w2 txs2 :
  answersUint64 rpc ->
  Perun.splitUntil rpc signedWitness fuel privateKey lockScript minCells count
    (w, txs) = Some (res, (w2, txs2)) ->
  exists added,
    txs2 = txs ++ added
    /\ (length added <= fuel)%nat
    /\ Forall (fun tx => exists c, Perun.bare c /\ splitsCell lockScript c tx)
         added.
Proof.
  intros Hnode. revert count w txs.
  induction fuel as [|fuel IH]; intros count w txs; simpl.
  - destruct (decide _); [done|]. intros Hrun. inversion Hrun; subst.
    exists []. by rewrite app_nil_r.
  - destruct (decide _).
    2:{ intros Hrun. inversion Hrun; subst. exists []. rewrite app_nil_r.
        repeat split; [simpl; lia|done]. }
    unfold mbind, Perun.M_bind, Perun.bind, Perun.wrapErr.
    destruct (SplitCell_log privateKey lockScript w txs Hnode)
      as (r1 & w1 & txs1 & Hsplit & Hlog).
    rewrite Hsplit.
    assert (exists added1, txs1 = txs ++ added1 /\ (length added1 <= 1)%nat
              /\ Forall (fun tx => exists c, Perun.bare c
                                   /\ splitsCell lockScript c tx) added1)
      as (added1 & -> & Hlen1 & Hall1).
    { destruct Hlog as [[-> _]|(c & tx & -> & Hb & Hs)].
      - exists []. rewrite app_nil_r. repeat split; [simpl; lia|done].
      - exists [tx]. repeat split; [simpl; lia|]. apply Forall_singleton. eauto. }
    destruct r1 as [e|h].
    { intros Hrun. inversion Hrun; subst. exists added1.
      repeat split; [lia|done]. }
    unfold Perun.CountCells, mbind, Perun.M_bind, Perun.bind, Perun.wrapErr,
      Perun.getCellsRPC. simpl.
    destruct (Perun.rpcGetCells rpc lockScript w1) as [[cells|] w3]; simpl.
    + intros Hrun. apply IH in Hrun as (added & -> & Hlen & Hall).
      exists (added1 ++ added). rewrite app_assoc. repeat split.
      * rewrite length_app. lia.
      * by apply Forall_app.
    + intros Hrun. inversion Hrun; subst. exists added1.
      repeat split; [lia|done].
Qed.

(** X3. Whatever the node does, when [EnsureMinimumCells] ends, every
    transaction it has handed to the node splits a bare cell into two
    bare cells under the wallet's lock, each of at least
    [CellMinCapacity], at the cost of [SplitFee]; and there are at most
    as many of them as loop iterations. *)
Theorem EnsureMinimumCells_only_splits
    (fuel : nat) (privateKey : Perun.PrivateKey) (lockScript : Perun.Script)
    (minCells : Z) (w : W) (txs : list Perun.Transaction)
    (res : Perun.Error + unit) (w2 : W) (txs2 : list Perun.Transaction) :
  answersUint64 rpc ->
  Perun.EnsureMinimumCells rpc signedWitness fuel privateKey lockScript
    minCells (w, txs) = Some (res, (w2, txs2)) ->
  exists added,
    txs2 = txs ++ added
    /\ (length added <= fuel)%nat
    /\ Forall (fun tx => exists c, Perun.bare c /\ splitsCell lockScript c tx)
         added.
Proof.
  intros Hnode. unfold Perun.EnsureMinimumCells, Perun.CountCells,
    mbind, Perun.M_bind, Perun.bind, Perun.wrapErr, Perun.getCellsRPC. simpl.
  destruct (Perun.rpcGetCells rpc lockScript w) as [[cells|] w1]; simpl.
  - destruct (decide _).
    { intros Hrun. inversion Hrun; subst. exists []. rewrite app_nil_r.
      repeat split; [simpl; lia|done]. }
    destruct (decide _).
    { intros Hrun. inversion Hrun; subst. exists []. rewrite app_nil_r.
      repeat split; [simpl; lia|done]. }
    by apply splitUntil_log.
  - intros Hrun. inversion Hrun; subst. exists []. rewrite app_nil_r.
    repeat split; [simpl; lia|done].
Qed.

(** X4. Before any split: [EnsureMinimumCells] fails with the wrapped
    error of the query when the first count fails, and with the
    no-cells error when the wallet has no bare cell and at least one is
    asked for; when [minCells] is zero or less it succeeds even on an
    empty wallet.  In all three cases nothing is handed to the node. *)
Theorem EnsureMinimumCells_before_split
    (fuel : nat) (privateKey : Perun.PrivateKey) (lockScript : Perun.Script)
    (minCells : Z) (w : W) (txs : list Perun.Transaction) :
  let run := Perun.EnsureMinimumCells rpc signedWitness fuel privateKey
               lockScript minCells (w, txs) in
  let answer := Perun.rpcGetCells rpc lockScript w in
  (answer.1 = None ->
     run = Some (inl (Perun.Wrapped "failed to count cells"
                        (Perun.Wrapped "failed to get cells" Perun.RpcError)),
                 (answer.2, txs)))
  /\ (forall cells, answer.1 = Some cells -> filter Perun.bare cells = [] ->
        run = Some (if decide (minCells <= 0) then inr tt
                    else inl Perun.NoCellsInWallet, (answer.2, txs))).
Proof.
  intros run answer. unfold run, Perun.EnsureMinimumCells, Perun.CountCells,
    mbind, Perun.M_bind, Perun.bind, Perun.wrapErr, Perun.getCellsRPC. simpl.
  fold answer. split.
  - intros ->. done.
  - intros cells -> Hbare. simpl. rewrite Hbare. simpl.
    change (Z.of_nat 0) with 0.
    destruct (decide (minCells <= 0)); reflexivity.
Qed.
End SplitFacts.

Lemma scriptedNode_answersUint64 answers :
  Forall (Forall (fun c => Uint64.in_range (Perun.Capacity (Perun.Output c))))
    answers ->
  answersUint64 (scriptedNode answers).
Proof.
  intros Hall lockScript n cells n1. simpl. intros Heq. inversion Heq as [[Hn Hs]].
  rewrite Forall_forall in Hall. apply Hall.
  apply list_elem_of_lookup. eauto.
Qed.

Lemma splitScript_uint64 :
  Forall (Forall (fun c => Uint64.in_range (Perun.Capacity (Perun.Output c))))
    splitScript.
Proof.
  unfold splitScript, Uint64.in_range, Uint64.max_uint.
  repeat (apply Forall_cons; split); try apply Forall_nil_2; simpl; lia.
Qed.

Lemma SplitCell_outcomes_witness :
  exists res w2 txs2 tx,
    Perun.SplitCell (scriptedNode splitScript) sampleWitness "key" sampleLock
      (0%nat, []) = Some (res, (w2, txs2))
    /\ txs2 = [] ++ [tx]
    /\ splitsCell sampleLock (sampleCell "0xbb" 1 50000000000) tx.
Proof.
  destruct (SplitCell_outcomes (scriptedNode splitScript) sampleWitness "key"
              sampleLock 0%nat []
              (scriptedNode_answersUint64 _ splitScript_uint64))
    as (res & w2 & txs2 & Hrun & Hcase).
  simpl in Hcase. destruct Hcase as (tx & Htx & Hsplit & _).
  exists res, w2, txs2, tx. auto.
Defined.

Lemma EnsureMinimumCells_only_splits_witness :
  exists added,
    [Perun.signTransaction sampleWitness
       (Perun.splitTransaction (sampleCell "0xbb" 1 50000000000) sampleLock)
       "key"] = [] ++ added
    /\ (length added <= 2)%nat
    /\ Forall (fun tx => exists c, Perun.bare c /\ splitsCell sampleLock c tx)
         added.
Proof.
  apply (EnsureMinimumCells_only_splits (scriptedNode splitScript) sampleWitness
           2%nat "key" sampleLock 2 0%nat [] (inr tt) 3%nat).
  - apply scriptedNode_answersUint64, splitScript_uint64.
  - vm_compute. reflexivity.
Defined.

Lemma EnsureMinimumCells_before_split_witness :
  Perun.EnsureMinimumCells (scriptedNode []) sampleWitness 2 "key" sampleLock 2
    (0%nat, [])
  = Some (inl (Perun.Wrapped "failed to count cells"
                 (Perun.Wrapped "failed to get cells" Perun.RpcError)),
          (1%nat, []))
  /\ Perun.EnsureMinimumCells (scriptedNode [[]]) sampleWitness 2 "key"
       sampleLock 2 (0%nat, [])
     = Some (inl Perun.NoCellsInWallet, (1%nat, [])).
Proof.
  split.
  - apply (proj1 (EnsureMinimumCells_before_split (scriptedNode [])
                    sampleWitness 2%nat "key" sampleLock 2 0%nat [])).
    reflexivity.
  - apply (proj2 (EnsureMinimumCells_before_split (scriptedNode [[]])
                    sampleWitness 2%nat "key" sampleLock 2 0%nat []) []).
    + reflexivity.
    + reflexivity.
Defined.

(** ** What WithdrawAll hands to the node *)

Section WithdrawFacts.
Context {W : Type}.
Variable rpc : Perun.RpcClient W.
Variable signedWitness : Perun.PrivateKey -> Perun.Transaction -> list Z.
Variable decodeAddress : string -> option Perun.Script.

Lemma withdraw_fold_inputs lockScript cells :
  (fold_left (Perun.withdrawStep lockScript) cells (0, [])).2
  = inputsOf (withdrawable lockScript cells)
  /\ Uint64.in_range (fold_left (Perun.withdrawStep lockScript) cells (0, [])).1.
Proof.
  rewrite (withdraw_fold_start lockScript cells). simpl.
  split; [done|]. apply uint64_wrap_in_range.
Qed.

Lemma WithdrawAll_handed
    (privateKey : Perun.PrivateKey) (fromLockScript : Perun.Script)
    (toAddress : string) (w : W) (txs : list Perun.Transaction) :
  exists res w2 txs2,
    Perun.WithdrawAll rpc signedWitness decodeAddress privateKey
      fromLockScript toAddress (w, txs) = Some (res, (w2, txs2))
    /\ (decodeAddress toAddress = None -> w2 = w /\ txs2 = txs)
    /\ ((txs2 = txs /\ exists e, res = inl e)
        \/ exists tx capacity toLockScript cells,
             txs2 = txs ++ [tx]
             /\ decodeAddress toAddress = Some toLockScript
             /\ (Perun.rpcGetCells rpc fromLockScript w).1 = Some cells
             /\ Perun.Outputs tx
                = [Perun.mkCellOutput capacity toLockScript None]
             /\ Perun.MinCellCapacity < capacity
             /\ Perun.Inputs tx = inputsOf (withdrawable fromLockScript cells)
             /\ Perun.Inputs tx <> []
             /\ length (Perun.Witnesses tx) = length (Perun.Inputs tx)).
Proof.
  destruct (decodeAddress toAddress) as [toLockScript|] eqn:Hdec.
  2:{ unfold Perun.WithdrawAll. rewrite Hdec.
      eexists _, _, _. split; [reflexivity|]. split; [done|]. left. eauto. }
  destruct (Perun.rpcGetCells rpc fromLockScript w) as [[cells|] w1] eqn:Hget.
  2:{ unfold Perun.WithdrawAll. rewrite Hdec.
      unfold mbind, Perun.M_bind, Perun.bind, Perun.wrapErr, Perun.getCellsRPC.
      simpl. rewrite Hget. simpl.
      eexists _, _, _. split; [reflexivity|]. split; [done|]. left. eauto. }
  rewrite (WithdrawAll_run rpc signedWitness decodeAddress _ _ _ _ _ _ _ _ Hdec Hget).
  destruct cells as [|c0 cells0] eqn:Hcells.
  { eexists _, _, _. split; [reflexivity|]. split; [done|]. left. eauto. }
  rewrite <- Hcells.
  destruct (inputsOf (withdrawable fromLockScript cells)) as [|i0 inputs0] eqn:Hi.
  { eexists _, _, _. split; [reflexivity|]. split; [done|]. left. eauto. }
  pose proof (uint64_wrap_in_range
                (capacitySum (withdrawable fromLockScript cells))) as Hrange.
  set (total := Uint64.wrap (capacitySum (withdrawable fromLockScript cells))) in *.
  destruct (decide (total <= _)) as [|Hbig].
  { eexists _, _, _. split; [reflexivity|]. split; [done|]. left. eauto. }
  assert (Perun.MinCellCapacity < Uint64.sub total Perun.WithdrawFee) as Hcap.
  { assert (Uint64.add Perun.WithdrawFee Perun.MinCellCapacity = 6100100000)
      as Hthr by reflexivity.
    rewrite Hthr in Hbig. unfold Uint64.sub. rewrite uint64_wrap_id.
    - unfold Perun.WithdrawFee, Perun.MinCellCapacity. lia.
    - unfold Uint64.in_range, Uint64.max_uint, Perun.WithdrawFee in *. lia. }
  unfold Perun.wrapErr, Perun.sendTransactionRPC. simpl.
  match goal with
  | |- context [Perun.rpcSendTransaction rpc ?tx w1] =>
    destruct (Perun.rpcSendTransaction rpc tx w1) as [[h|] w3]
  end; simpl;
    (eexists _, _, _; split; [reflexivity|]; split; [done|]; right;
     eexists _, _, toLockScript, cells;
     split; [reflexivity|]; split; [done|];
     split; [simpl; congruence|]; simpl;
     split; [reflexivity|]; split; [exact Hcap|];
     split; [done|]; split; [done|];
     rewrite ?length_insert, ?length_replicate; done).
Qed.

(** X5. Whatever the wallet holds and whatever the node does,
    [WithdrawAll] hands the node at most one transaction; that
    transaction has a single output, bare, under the lock of the decoded
    destination, of a capacity above [MinCellCapacity]; it spends
    exactly the bare cells under the wallet's lock among the cells that
    the node returned, with one witness for each input.  Without a decodable destination the node is not
    even queried. *)
Theorem WithdrawAll_hands_one_viable_output
    (privateKey : Perun.PrivateKey) (fromLockScript : Perun.Script)
    (toAddress : string) (w : W) (txs : list Perun.Transaction) :
  exists res w2 txs2,
    Perun.WithdrawAll rpc signedWitness decodeAddress privateKey
      fromLockScript toAddress (w, txs) = Some (res, (w2, txs2))
    /\ (decodeAddress toAddress = None -> w2 = w /\ txs2 = txs)
    /\ ((txs2 = txs /\ exists e, res = inl e)
        \/ exists tx capacity toLockScript cells,
             txs2 = txs ++ [tx]
             /\ decodeAddress toAddress = Some toLockScript
             /\ (Perun.rpcGetCells rpc fromLockScript w).1 = Some cells
             /\ Perun.Outputs tx
                = [Perun.mkCellOutput capacity toLockScript None]
             /\ Perun.MinCellCapacity < capacity
             /\ Perun.Inputs tx = inputsOf (withdrawable fromLockScript cells)
             /\ Perun.Inputs tx <> []
             /\ length (Perun.Witnesses tx) = length (Perun.Inputs tx)).
Proof. apply WithdrawAll_handed. Qed.
End WithdrawFacts.

Lemma WithdrawAll_hands_one_viable_output_witness :
  exists res,
    Perun.WithdrawAll (Perun.ledger sampleTxid) sampleWitness sampleDecode "key"
      sampleLock "ckt1nobody" ([sampleCell "0xaa" 0 9000000000], [])
    = Some (res, ([sampleCell "0xaa" 0 9000000000], [])).
Proof.
  destruct (WithdrawAll_hands_one_viable_output (Perun.ledger sampleTxid)
              sampleWitness sampleDecode "key" sampleLock "ckt1nobody"
              [sampleCell "0xaa" 0 9000000000] [])
    as (res & w2 & txs2 & Hrun & Hnone & _).
  destruct Hnone as [-> ->]; [reflexivity|].
  exists res. exact Hrun.
Defined.

(** ** The scheduler over iteration orders and ticks *)


Lemma tick_fold_frame clock SendPayment order st :
  channelSetupCKB (fold_left (tickStep clock SendPayment) order st).1
    = channelSetupCKB st.1
  /\ hostAddress (fold_left (tickStep clock SendPayment) order st).1
     = hostAddress st.1.
Proof.
  revert st. induction order as [|e order IH]; intros st; simpl; [done|].
  destruct (IH (tickStep clock SendPayment st e)) as [-> ->]. done.
Qed.



(** X7. A tick adds no session to the registry and changes nothing of a
    session it keeps but the amount paid, which stays or grows by
    exactly one rate; the rate, the reserved amount and the host address
    of the server stay as they are. *)
Theorem tick_frame
    (clock : string -> Time) (SendPayment : GuestSession -> Z -> bool)
    (s : Server) (order : list (string * GuestSession)) :
  iteration_order s order ->
  let r := processMicropaymentsIn clock SendPayment order s in
  ratePerMin r.1 = ratePerMin s
  /\ channelSetupCKB r.1 = channelSetupCKB s
  /\ hostAddress r.1 = hostAddress s
  /\ forall k g',
       sessions r.1 !! k = Some g' ->
       exists g,
         sessions s !! k = Some g
         /\ ID g' = ID g /\ GuestAddress g' = GuestAddress g
         /\ FundingAmount g' = FundingAmount g
         /\ CreatedAt g' = CreatedAt g /\ ExpiresAt g' = ExpiresAt g
         /\ (TotalPaid g' = TotalPaid g
             \/ TotalPaid g' = TotalPaid g + ratePerMin s).
Proof.
  intros Hord r. unfold r. split; [apply tick_preserves_rate|].
  unfold processMicropaymentsIn at 1 2.
  destruct (tick_fold_frame clock SendPayment order (s, [])) as [-> ->].
  split; [done|]. split; [done|].
  intros k g'. rewrite tick_lookup by done.
  destruct (sessions s !! k) as [g|]; simpl; [|done].
  intros Hg. exists g. split; [done|].
  apply tick_debited_within in Hg as [->|[-> _]]; simpl; auto 10.
Qed.

Lemma tick_frame_witness :
  exists g,
    sessions (sampleRegistry 0 200) !! "5f3a9c0e1b2d4c6a"%string = Some g
    /\ FundingAmount g = 1000000000.
Proof.
  destruct (tick_frame (fun _ => 100) (fun _ _ => true) (sampleRegistry 0 200)
              (map_to_list (sessions (sampleRegistry 0 200))))
    as (_ & _ & _ & Hframe).
  - unfold iteration_order. reflexivity.
  - destruct (Hframe "5f3a9c0e1b2d4c6a"
                (sampleSession "5f3a9c0e1b2d4c6a" 1000000000 833333333 200))
      as (g & Hg & _ & _ & Hf & _).
    + vm_compute. reflexivity.
    + exists g. split; [exact Hg|]. rewrite <- Hf. reflexivity.
Defined.


Lemma run_ticks_step ticks st :
  fold_left
    (fun st tick =>
       let r := processMicropayments tick.1 tick.2 st.1 in (r.1, st.2 ++ r.2))
    ticks st
  = ((startMicropaymentProcessor ticks st.1).1,
     st.2 ++ (startMicropaymentProcessor ticks st.1).2).
Proof.
  unfold startMicropaymentProcessor. revert st.
  induction ticks as [|t ticks IH]; intros st; simpl.
  - by rewrite app_nil_r; destruct st.
  - set (r := processMicropayments t.1 t.2 st.1).
    rewrite (IH (r.1, st.2 ++ r.2)), (IH (r.1, r.2)). simpl.
    by rewrite app_assoc.
Qed.

Lemma run_ticks_cons t ticks s :
  startMicropaymentProcessor (t :: ticks) s
  = ((startMicropaymentProcessor ticks (processMicropayments t.1 t.2 s).1).1,
     (processMicropayments t.1 t.2 s).2
       ++ (startMicropaymentProcessor ticks (processMicropayments t.1 t.2 s).1).2).
Proof.
  unfold startMicropaymentProcessor at 1. simpl. by rewrite run_ticks_step.
Qed.

Lemma map_to_list_order s : iteration_order s (map_to_list (sessions s)).
Proof. unfold iteration_order. reflexivity. Qed.

(** X8. Once a session id is out of the registry, as after an end
    request for it, no later run of the scheduler has any effect about
    it: it is neither debited nor settled again, and it stays out. *)
Theorem ended_session_left_alone
    (ticks : list ((string -> Time) * (GuestSession -> Z -> bool)))
    (mac : string -> option string) (s : Server) (k : string) :
  registered s ->
  let ended := (handleEndSession mac s k).1.1 in
  let r := startMicropaymentProcessor ticks ended in
  eventsOf k r.2 = [] /\ sessions r.1 !! k = None.
Proof.
  intros Hreg ended r.
  assert (registered ended) as Hreg' by (by apply handleEndSession_registered).
  assert (sessions ended !! k = None) as Hgone.
  { unfold ended, handleEndSession.
    destruct (sessions s !! k) eqn:Hk; simpl; [apply lookup_delete_eq|done]. }
  unfold r. clearbody ended. clear Hreg r.
  revert ended Hreg' Hgone.
  induction ticks as [|t ticks IH]; intros s0 Hreg0 Hgone0; [done|].
  rewrite run_ticks_cons. simpl. rewrite eventsOf_app.
  unfold processMicropayments.
  rewrite tick_eventsOf_absent by (done || apply map_to_list_order).
  apply IH.
  - apply tick_registered; [done|apply map_to_list_order].
  - rewrite tick_lookup by apply map_to_list_order. by rewrite Hgone0.
Qed.

Lemma ended_session_left_alone_witness :
  eventsOf "5f3a9c0e1b2d4c6a"
    (startMicropaymentProcessor
       [(fun _ => 100, fun _ _ => true); (fun _ => 300, fun _ _ => true)]
       (handleEndSession (fun _ => None) (sampleRegistry 0 200)
          "5f3a9c0e1b2d4c6a").1.1).2 = [].
Proof.
  apply (ended_session_left_alone
           [(fun _ => 100, fun _ _ => true); (fun _ => 300, fun _ _ => true)]
           (fun _ => None) (sampleRegistry 0 200) "5f3a9c0e1b2d4c6a").
  intros k g. simpl. intros Hk.
  apply lookup_singleton_Some in Hk as [<- <-]. reflexivity.
Defined.

Lemma run_ticks_rate ticks s :
  ratePerMin (startMicropaymentProcessor ticks s).1 = ratePerMin s.
Proof.
  revert s. induction ticks as [|t ticks IH]; intros s; [done|].
  rewrite run_ticks_cons. simpl. rewrite IH.
  apply tick_preserves_rate.
Qed.

(** X9. Over any run of the scheduler, a session that is still
    registered has been debited a whole number of rates, at most one for
    each tick, keeps its funding amount and its expiry, and, if it was
    within its funding at the start, still is. *)
Theorem run_debits_at_most_once_per_tick
    (ticks : list ((string -> Time) * (GuestSession -> Z -> bool)))
    (s : Server) (k : string) (g' : GuestSession) :
  sessions (startMicropaymentProcessor ticks s).1 !! k = Some g' ->
  exists g n,
    sessions s !! k = Some g
    /\ (n <= length ticks)%nat
    /\ TotalPaid g' = TotalPaid g + Z.of_nat n * ratePerMin s
    /\ FundingAmount g' = FundingAmount g
    /\ ExpiresAt g' = ExpiresAt g
    /\ (withinFunding g -> withinFunding g').
Proof.
  revert s. induction ticks as [|t ticks IH]; intros s.
  - simpl. intros Hk. exists g', 0%nat. simpl. repeat split; (done || lia).
  - rewrite run_ticks_cons. simpl. intros Hk.
    apply IH in Hk as (g1 & n & Hk1 & Hn & Hpaid & Hfund & Hexp & Hin).
    unfold processMicropayments in Hk1, Hpaid.
    rewrite tick_preserves_rate in Hpaid.
    rewrite tick_lookup in Hk1 by apply map_to_list_order.
    destruct (sessions s !! k) as [g|] eqn:Hk0; simpl in Hk1; [|done].
    exists g. apply tick_debited_within in Hk1 as [->|[-> Hw]].
    + exists n. repeat split; (done || lia).
    + exists (S n). simpl in *. repeat split; try (done || lia).
      intros _. by apply Hin.
Qed.

Lemma run_debits_at_most_once_per_tick_witness :
  exists g n,
    sessions (sampleRegistry 0 2000) !! "5f3a9c0e1b2d4c6a"%string = Some g
    /\ (n <= 2)%nat
    /\ 833333333 = TotalPaid g + Z.of_nat n * ratePerMin (sampleRegistry 0 2000).
Proof.
  destruct (run_debits_at_most_once_per_tick
              [(fun _ => 100, fun _ _ => false); (fun _ => 160, fun _ _ => true)]
              (sampleRegistry 0 2000) "5f3a9c0e1b2d4c6a"
              (sampleSession "5f3a9c0e1b2d4c6a" 1000000000 833333333 2000))
    as (g & n & Hg & Hn & Hpaid & _).
  - vm_compute. reflexivity.
  - exists g, n. auto.
Defined.

(** ** Extending a session *)

(** X10. An extend request is rejected without touching the server: with
    400 and no payment attempted when the amount is missing or not
    positive, whether or not the session exists; with 404 and no payment
    attempted when the session is not registered; with 400 after the
    one failed payment when the channel refuses it.  The handler panics
    exactly when a payment has gone through and the rate per minute is
    zero. *)
Theorem handleExtendSession_rejections
    (SendPayment : GuestSession -> Z -> bool) (s : Server) (k : string)
    (amount : option Z) :
  let run := handleExtendSession SendPayment s k amount in
  ((amount = None \/ exists a, amount = Some a /\ a <= 0) ->
     run = Some (s, [], StatusBadRequest))
  /\ (forall a, amount = Some a -> 0 < a -> sessions s !! k = None ->
        run = Some (s, [], StatusNotFound))
  /\ (forall a g, amount = Some a -> 0 < a -> sessions s !! k = Some g ->
        SendPayment g (a * ShannonsPerCKB) = false ->
        run = Some (s, [EvSendPayment k (a * ShannonsPerCKB) false],
                    StatusBadRequest))
  /\ (run = None <->
      exists a g, amount = Some a /\ 0 < a /\ sessions s !! k = Some g
                  /\ SendPayment g (a * ShannonsPerCKB) = true
                  /\ ratePerMin s = 0).
Proof.
  intros run. unfold run, handleExtendSession. repeat split.
  - intros [->|(a & -> & Ha)]; [done|]. by destruct (decide _).
  - intros a -> Ha Hk. destruct (decide _); [lia|]. by rewrite Hk.
  - intros a g -> Ha Hk Hpay. destruct (decide _); [lia|]. by rewrite Hk, Hpay.
  - destruct amount as [a|]; [|done].
    destruct (decide (a <= 0)); [done|].
    destruct (sessions s !! k) as [g|] eqn:Hk; [|done].
    destruct (SendPayment g (a * ShannonsPerCKB)) eqn:Hpay; [|done].
    unfold BigDiv. destruct (decide (ratePerMin s = 0)); [|done].
    intros _. exists a, g. repeat split; (done || lia).
  - intros (a & g & -> & Ha & Hk & Hpay & Hrate).
    destruct (decide _); [lia|]. rewrite Hk, Hpay. unfold BigDiv.
    by destruct (decide _).
Qed.

Lemma handleExtendSession_rejections_witness :
  handleExtendSession (fun _ _ => true) (sampleRegistry 0 200) "0000000000000000"
    (Some (-5)) = Some (sampleRegistry 0 200, [], StatusBadRequest)
  /\ handleExtendSession (fun _ _ => true) (sampleRegistry 0 200)
       "0000000000000000" (Some 5)
     = Some (sampleRegistry 0 200, [], StatusNotFound).
Proof.
  split.
  - apply (proj1 (handleExtendSession_rejections (fun _ _ => true)
                    (sampleRegistry 0 200) "0000000000000000" (Some (-5)))).
    right. exists (-5). split; [reflexivity|lia].
  - apply (proj1 (proj2 (handleExtendSession_rejections (fun _ _ => true)
                           (sampleRegistry 0 200) "0000000000000000" (Some 5)))
             5).
    + reflexivity.
    + lia.
    + reflexivity.
Defined.

(** X11. An extend request that goes through, at a positive rate, moves
    the expiry of the session later by the whole minutes that the amount
    buys, [amount * 100000000 / ratePerMin] rounded down (as long as
    these fit a duration), never earlier; it leaves the funding amount
    and every other session as they were, and tells the store the same
    minutes and amount. *)
Theorem handleExtendSession_extends
    (SendPayment : GuestSession -> Z -> bool) (s : Server) (k : string)
    (amountCKB : Z) (g : GuestSession) :
  sessions s !! k = Some g ->
  0 < amountCKB <= Int64.max_int ->
  0 < ratePerMin s ->
  (amountCKB * ShannonsPerCKB) `div` ratePerMin s <= 153722867 ->
  SendPayment g (amountCKB * ShannonsPerCKB) = true ->
  let mins := (amountCKB * ShannonsPerCKB) `div` ratePerMin s in
  let g' := setExpiresAt
              (setTotalPaid g (TotalPaid g + amountCKB * ShannonsPerCKB))
              (ExpiresAt g + mins * Minute) in
  handleExtendSession SendPayment s k (Some amountCKB)
  = Some (setSessions s (<[k := g']> (sessions s)),
          [EvSendPayment k (amountCKB * ShannonsPerCKB) true;
           EvExtendSession k mins amountCKB],
          StatusOK)
  /\ 0 <= mins
  /\ ExpiresAt g <= ExpiresAt g'.
Proof.
  intros Hk Ha Hrate Hbound Hpay mins g'.
  assert (0 <= mins) as Hmins.
  { unfold mins, ShannonsPerCKB. apply Z.div_pos; lia. }
  split; [|split; [done|simpl; unfold Minute; lia]].
  unfold handleExtendSession. rewrite Hk, Hpay.
  destruct (decide _); [lia|].
  unfold BigDiv. destruct (decide _); [lia|]. simpl.
  rewrite Z.sgn_pos, Z.mul_1_l, Z.abs_eq by lia. fold mins.
  unfold BigInt64. rewrite !int64_wrap_id.
  - unfold Minutes, Int64.mul, TimeAdd. rewrite int64_wrap_id; [done|].
    unfold Int64.in_range, Int64.min_int, Int64.max_int, Minute. lia.
  - unfold Int64.in_range, Int64.min_int, Int64.max_int in *. lia.
  - unfold Int64.in_range, Int64.min_int, Int64.max_int. lia.
Qed.

Lemma handleExtendSession_extends_witness :
  handleExtendSession (fun _ _ => true) (sampleRegistry 0 200)
    "5f3a9c0e1b2d4c6a" (Some 25)
  = Some (setSessions (sampleRegistry 0 200)
            (<["5f3a9c0e1b2d4c6a"%string :=
                 sampleSession "5f3a9c0e1b2d4c6a" 1000000000 2500000000
                   (200 + 3 * Minute)]> (sessions (sampleRegistry 0 200))),
          [EvSendPayment "5f3a9c0e1b2d4c6a" 2500000000 true;
           EvExtendSession "5f3a9c0e1b2d4c6a" 3 25],
          StatusOK).
Proof.
  apply (handleExtendSession_extends (fun _ _ => true) (sampleRegistry 0 200)
           "5f3a9c0e1b2d4c6a" 25
           (sampleSession "5f3a9c0e1b2d4c6a" 1000000000 0 200)).
  - reflexivity.
  - unfold Int64.max_int. lia.
  - vm_compute. reflexivity.
  - vm_compute. discriminate.
  - reflexivity.
Defined.

(** ** Opening the channel *)

Ltac absent_from_trace :=
  let Hin := fresh "Hin" in
  intros Hin;
  repeat (apply elem_of_cons in Hin as [Hin|Hin]; [discriminate|]);
  by apply elem_of_nil in Hin.

(** The paths of [openChannelForSession] that return early. *)
Ltac failing_open :=
  split; [|split];
  [ split; [discriminate|];
    let H := fresh in
    intros H; destruct H as (? & [? | (? & ? & ?)]);
    (done || discriminate || lia)
  | let H := fresh in
    intros H; destruct H as (? & ? & ? & ? & ? & ? & ? & ? & [? ?]);
    (done || discriminate || lia)
  | let Heq := fresh in
    intros ? ? Heq; apply (inj Some) in Heq; inversion Heq; subst;
    split; [|split; [|split]];
    [ intros _; split; [reflexivity | absent_from_trace]
    | let Hl := fresh in
      intros Hl;
      first [ lia
            | split; [reflexivity|];
              first [ by left
                    | right; eexists; split; [reflexivity|discriminate] ] ]
    | reflexivity
    | reflexivity ] ].

(** The paths of [openChannelForSession] that panic. *)
Ltac panicking_open :=
  split; [|split];
  [ split; [|done];
    intros _; split; [reflexivity|];
    first [ by left | right; split; [reflexivity|]; by split ]
  | let H := fresh in
    intros H; destruct H as (? & ? & ? & ? & ? & ? & ? & ? & [? ?]); done
  | intros ? ? ?; discriminate ].

(** X12. [openChannelForSession] touches the registry only to store the
    new session under the given id, and it does so exactly when it is
    ready: the key decodes and has at least sixteen characters, the
    address decodes, the cells are prepared, the session id has at least
    eight characters, the client is created, the balance is at least the
    reserved amount, the channel opens and the stored row can be read.
    It panics exactly when the key decodes but is shorter than sixteen
    characters, or when key and address decode, the cells are prepared
    and the session id is shorter than eight characters.  When it
    returns, a balance below the reserved amount has led to no channel
    proposal, payment or registry entry: the only effect is at most one
    failure status. *)
Theorem openChannelForSession_registers_only_when_ready
    (env : OpenEnv) (s : Server) (wallet : GuestWallet) (k : string)
    (balanceCKB : Z) :
  let run := openChannelForSession env s wallet k balanceCKB in
  let keyShort := (String.length (WalletPrivateKeyHex wallet) < 16)%nat in
  let idShort := (String.length k < 8)%nat in
  let ready :=
    keyDecodes env = true /\ ¬ keyShort /\ addressDecodes env = true
    /\ cellsPrepared env = true /\ ¬ idShort /\ clientCreated env = true
    /\ channelSetupCKB s <= balanceCKB /\ channelOpened env = true
    /\ is_Some (storedTimes env) in
  (run = None <->
     keyDecodes env = true
     /\ (keyShort
         \/ (addressDecodes env = true /\ cellsPrepared env = true
             /\ idShort)))
  /\ (ready ->
      exists s' tr g,
        run = Some (s', tr)
        /\ sessions s' = <[k := g]> (sessions s) /\ ID g = k
        /\ GuestAddress g = WalletAddress wallet
        /\ Some (CreatedAt g, ExpiresAt g) = storedTimes env
        /\ EvStore k ∈ tr)
  /\ (forall s' tr,
        run = Some (s', tr) ->
        (¬ ready -> s' = s /\ EvStore k ∉ tr)
        /\ (balanceCKB < channelSetupCKB s ->
            s' = s
            /\ (tr = []
                \/ exists status,
                     tr = [EvUpdateSessionStatus k status]
                     /\ status <> "channel_opening"%string))
        /\ ratePerMin s' = ratePerMin s
        /\ channelSetupCKB s' = channelSetupCKB s).
Proof.
  intros run keyShort idShort ready.
  unfold run, ready, keyShort, idShort, openChannelForSession.
  destruct (keyDecodes env); simpl; [|failing_open].
  destruct (decide (String.length (WalletPrivateKeyHex wallet) < 16)%nat)
    as [Hkey|Hkey]; [panicking_open|].
  destruct (addressDecodes env); simpl; [|failing_open].
  destruct (cellsPrepared env); simpl; [|failing_open].
  destruct (decide (String.length k < 8)%nat) as [Hid|Hid]; [panicking_open|].
  destruct (clientCreated env); simpl; [|failing_open].
  destruct (decide (balanceCKB < channelSetupCKB s)) as [Hlow|Hok]; simpl;
    [failing_open|].
  destruct (channelOpened env); simpl;
    [|destruct (decide (WalletMAC wallet = EmptyString)); simpl; failing_open].
  destruct (storedTimes env) as [[createdAt expiresAt]|]; simpl;
    [|failing_open].
  split; [|split].
  - split; [discriminate|]. intros (_ & [? | (_ & _ & ?)]); done.
  - intros _. eexists _, _, _. split; [reflexivity|].
    split; [reflexivity|]. simpl. split; [done|]. split; [done|].
    split; [done|]. destruct (decide _); simpl; set_solver.
  - intros s' tr Heq. apply (inj Some) in Heq. inversion Heq; subst.
    split; [|split; [|split]]; try reflexivity.
    + intros Hnot. exfalso. apply Hnot.
      split; [done|]. split; [done|]. split; [done|]. split; [done|].
      split; [done|]. split; [done|]. split; [lia|]. split; [done|]. eauto.
    + intros Hlow. lia.
Qed.

Lemma openChannelForSession_registers_only_when_ready_witness :
  (exists s' tr g,
     openChannelForSession (sampleOpenEnv 3) sampleServer sampleWallet
       "5f3a9c0e1b2d4c6a" 1400 = Some (s', tr)
     /\ sessions s' = <["5f3a9c0e1b2d4c6a"%string := g]> (sessions sampleServer)
     /\ ID g = "5f3a9c0e1b2d4c6a"%string)
  /\ openChannelForSession (sampleOpenEnv 3) sampleServer sampleWallet
       "5f3a" 1400 = None.
Proof.
  split.
  - destruct (proj1 (proj2 (openChannelForSession_registers_only_when_ready
                (sampleOpenEnv 3) sampleServer sampleWallet
                "5f3a9c0e1b2d4c6a" 1400)))
      as (s' & tr & g & Hrun & Hs & Hid & _).
    + split; [reflexivity|]. split; [simpl; lia|]. split; [reflexivity|].
      split; [reflexivity|]. split; [simpl; lia|]. split; [reflexivity|].
      split; [simpl; lia|]. split; [reflexivity|]. simpl. eauto.
    + exists s', tr, g. split; [exact Hrun|]. split; [exact Hs|exact Hid].
  - apply (proj1 (openChannelForSession_registers_only_when_ready
             (sampleOpenEnv 3) sampleServer sampleWallet "5f3a" 1400)).
    split; [reflexivity|]. right. split; [reflexivity|].
    split; [reflexivity|]. simpl. lia.
Defined.

(** ** Minutes granted for a funding *)

(** X13. For a usable amount and an hourly rate within 92233720368 CKB,
    the minutes that [createSessionFromWallet] grants are the whole
    number of per-minute rates that the usable amount pays: the minutes
    times the rate per minute do not exceed the usable shannons, and one
    more minute would. *)
Theorem sessionMinutes_bounds (usable ratePerHour : Z) :
  0 <= usable <= 92233720368 ->
  1 <= ratePerHour <= 92233720368 ->
  exists mins,
    sessionMinutes usable ratePerHour = Some mins
    /\ 0 <= mins
    /\ mins * ratePerMinShannons ratePerHour <= usable * 100000000
    /\ usable * 100000000 < (mins + 1) * ratePerMinShannons ratePerHour.
Proof.
  intros Hu Hr. pose proof (ratePerMinShannons_pos ratePerHour Hr) as Hpos.
  set (rate := ratePerMinShannons ratePerHour) in *.
  exists ((usable * 100000000) `div` rate).
  assert (0 <= (usable * 100000000) `div` rate <= usable * 100000000) as Hq.
  { split; [apply Z.div_pos; lia|].
    apply Z.div_le_upper_bound; [lia|]. nia. }
  split; [|split; [lia|]].
  - unfold sessionMinutes, Int64.mul, ShannonsPerCKB. fold rate.
    rewrite (int64_wrap_id (usable * 100000000))
      by (unfold Int64.in_range, Int64.min_int, Int64.max_int; lia).
    rewrite int64_quo_some.
    + f_equal. apply Z.quot_div_nonneg; lia.
    + lia.
    + rewrite Z.quot_div_nonneg by lia.
      unfold Int64.in_range, Int64.min_int, Int64.max_int. lia.
  - pose proof (Z.mul_div_le (usable * 100000000) rate ltac:(lia)).
    pose proof (Z.mul_succ_div_gt (usable * 100000000) rate ltac:(lia)).
    split; lia.
Qed.

Lemma sessionMinutes_bounds_witness :
  exists mins,
    sessionMinutes 85 500 = Some mins
    /\ 0 <= mins
    /\ mins * ratePerMinShannons 500 <= 85 * 100000000
    /\ 85 * 100000000 < (mins + 1) * ratePerMinShannons 500.
Proof. apply (sessionMinutes_bounds 85 500); lia. Defined.

(** ** Finding the sender *)

Section SenderFacts.
Context {W : Type}.
Variable queries : TxQueries W.
Variable decodeAddress : string -> option Perun.Script.
Variable scriptToAddress : Perun.Script -> option string.

Lemma senderOfTransaction_other lockScript txHash w addr w' :
  senderOfTransaction queries scriptToAddress lockScript txHash w
    = (Some addr, w') ->
  exists senderLockScript,
    scriptToAddress senderLockScript = Some addr
    /\ senderLockScript <> lockScript.
Proof.
  unfold senderOfTransaction.
  repeat (case_match; simpl; try (intros ?; simplify_eq; fail)).
  intros Heq. inversion Heq. eauto.
Qed.

Lemma scanTransactions_other lockScript txs w addr w' :
  scanTransactions queries scriptToAddress lockScript txs w = (inr addr, w') ->
  exists senderLockScript,
    scriptToAddress senderLockScript = Some addr
    /\ senderLockScript <> lockScript.
Proof.
  revert w. induction txs as [|h txs IH]; intros w; simpl; [done|].
  destruct (senderOfTransaction queries scriptToAddress lockScript h w)
    as [[a|] w1] eqn:Hone; simpl.
  - intros Heq. inversion Heq; subst.
    by eapply senderOfTransaction_other.
  - apply IH.
Qed.

(** X14. An address that [GetSenderAddress] returns is the encoding of
    a lock script other than the wallet's own: the wallet is never taken
    for its own sender.  A wallet address that does not decode fails
    before the node is asked, and a wallet without transactions fails
    with the no-transactions error. *)
Theorem GetSenderAddress_not_self (walletAddress : string) (w : W) :
  let r := GetSenderAddress queries decodeAddress scriptToAddress
             walletAddress w in
  (forall addr, r.1 = inr addr ->
     exists lockScript senderLockScript,
       decodeAddress walletAddress = Some lockScript
       /\ scriptToAddress senderLockScript = Some addr
       /\ senderLockScript <> lockScript)
  /\ (decodeAddress walletAddress = None ->
        r = (inl WalletAddressUndecodable, w))
  /\ (forall lockScript,
        decodeAddress walletAddress = Some lockScript ->
        (rpcGetTransactions queries lockScript w).1 = Some [] ->
        r.1 = inl NoTransactionsFound).
Proof.
  intros r. unfold r, GetSenderAddress. repeat split.
  - intros addr. destruct (decodeAddress walletAddress) as [l|]; [|done].
    destruct (rpcGetTransactions queries l w) as [[txs|] w1]; simpl; [|done].
    destruct txs as [|h txs]; [done|].
    destruct (scanTransactions queries scriptToAddress l (h :: txs) w1)
      as [res w2] eqn:Hscan. simpl. intros ->.
    apply scanTransactions_other in Hscan as (l' & ? & ?). eauto.
  - by intros ->.
  - intros l -> Hnone.
    destruct (rpcGetTransactions queries l w) as [[txs|] w1]; simpl in *;
      by simplify_eq.
Qed.
End SenderFacts.

Lemma GetSenderAddress_not_self_witness :
  (GetSenderAddress (@sampleQueries unit) guestDecode sampleEncode
     "ckt1guest" tt).1 = inr "ckt1sender"%string
  /\ exists lockScript senderLockScript,
       guestDecode "ckt1guest" = Some lockScript
       /\ sampleEncode senderLockScript = Some "ckt1sender"%string
       /\ senderLockScript <> lockScript.
Proof.
  split; [reflexivity|].
  apply (proj1 (GetSenderAddress_not_self (@sampleQueries unit) guestDecode
                  sampleEncode "ckt1guest" tt) "ckt1sender"%string).
  reflexivity.
Defined.

(** ** Refunding *)

Section RefundFacts.
Context {W : Type}.
Variable rpc : Perun.RpcClient W.
Variable queries : TxQueries W.
Variable signedWitness : Perun.PrivateKey -> Perun.Transaction -> list Z.
Variable decodeAddress : string -> option Perun.Script.
Variable scriptToAddress : Perun.Script -> option string.
Variable decodeKey : string -> option Perun.PrivateKey.
Variable guestDecodeAddress : string -> option Perun.Script.
Variable GetWalletBySessionID : string -> option WalletRow.

Lemma WithdrawAll_log privateKey lockScript toAddress st :
  exists res w2 added,
    Perun.WithdrawAll rpc signedWitness decodeAddress privateKey lockScript
      toAddress st = Some (res, (w2, st.2 ++ added))
    /\ (length added <= 1)%nat
    /\ (forall h, res = inr h -> length added = 1%nat).
Proof.
  destruct st as [w txs].
  destruct (WithdrawAll_handed rpc signedWitness decodeAddress privateKey
              lockScript toAddress w txs)
    as (res & w2 & txs2 & Hrun & _ & Hlog).
  destruct Hlog as [[-> [e ->]]|(tx & ? & ? & ? & -> & _)].
  - exists (inl e), w2, []. simpl. rewrite app_nil_r.
    repeat split; [done|lia|done].
  - exists res, w2, [tx]. simpl. repeat split; [done|lia].
Qed.

Lemma sleeps_app e1 e2 : sleeps (e1 ++ e2) = sleeps e1 ++ sleeps e2.
Proof. unfold sleeps. apply omap_app. Qed.

Lemma sleeps_Sleep ws : sleeps (Sleep <$> ws) = ws.
Proof. unfold sleeps. induction ws; simpl; [done|]. by f_equal. Qed.

Lemma withdrawAttempts_spec ws walletID privateKey lockScript senderAddress
    lastErr st effects :
  exists res w2 added k,
    withdrawAttempts rpc signedWitness decodeAddress ws walletID privateKey
      lockScript senderAddress lastErr st effects
    = Some (res, (w2, st.2 ++ added),
            effects ++ (Sleep <$> take k ws)
              ++ match res with
                 | inl _ => []
                 | inr _ => [UpdateWalletStatus walletID "withdrawn"]
                 end)
    /\ (k <= length ws)%nat
    /\ (length added <= k)%nat
    /\ match res with
       | inl e => k = length ws
                  /\ (ws = [] -> e = lastErr) /\ (ws <> [] -> is_Some e)
       | inr _ => (1 <= k)%nat
       end.
Proof.
  revert lastErr st effects.
  induction ws as [|d ws IH]; intros lastErr st effects; simpl.
  - exists (inl lastErr), st.1, [], 0%nat. rewrite !app_nil_r.
    destruct st. simpl. repeat split; (done || lia).
  - destruct (WithdrawAll_log privateKey lockScript senderAddress st)
      as (res & w1 & added1 & -> & Hlen1 & Hok).
    destruct res as [err|h].
    + destruct (IH (Some err) (w1, st.2 ++ added1) (effects ++ [Sleep d]))
        as (res & w2 & added & k & -> & Hk & Hlen & Hres).
      exists res, w2, (added1 ++ added), (S k). simpl.
      rewrite <- !app_assoc. simpl. split; [done|].
      rewrite length_app. repeat split; try lia.
      destruct res as [e|h]; [|lia].
      destruct Hres as (-> & Hnil & Hcons). repeat split; [done|].
      intros _. destruct ws as [|d' ws']; [|by apply Hcons].
      rewrite Hnil by done. eauto.
    + exists (inr h), w1, added1, 1%nat. simpl.
      split; [done|]. repeat split; lia.
Qed.

(** X15. [withdrawToSender] always ends.  It waits before each attempt,
    30, 60 and then 120 seconds, makes at most three attempts, and hands
    the node at most one transaction for each wait.  It marks the wallet
    withdrawn exactly when an attempt succeeds, as its last effect, and
    makes no attempt after that; when it gives up it has waited all
    three times and reports three attempts with the last error. *)
Theorem withdrawToSender_retries (sessionID : string) (st : Perun.St W) :
  exists res w2 added effects,
    withdrawToSender rpc queries signedWitness decodeAddress scriptToAddress
      decodeKey guestDecodeAddress GetWalletBySessionID sessionID st
    = Some (res, (w2, st.2 ++ added), effects)
    /\ sleeps effects `prefix_of` [30 * Second; 60 * Second; 120 * Second]
    /\ (length added <= length (sleeps effects))%nat
    /\ match res with
       | inr _ =>
         exists walletID before,
           effects = before ++ [UpdateWalletStatus walletID "withdrawn"]
           /\ (forall id status, UpdateWalletStatus id status ∉ before)
           /\ (1 <= length (sleeps effects))%nat
       | inl e =>
         (forall id status, UpdateWalletStatus id status ∉ effects)
         /\ forall n lastErr, e = WithdrawFailed n lastErr ->
              n = 3%nat /\ is_Some lastErr
              /\ sleeps effects = [30 * Second; 60 * Second; 120 * Second]
       end.
Proof.
  unfold withdrawToSender. destruct st as [w txs]. cbn [fst snd].
  destruct (GetWalletBySessionID sessionID) as [wallet|].
  2:{ exists (inl GetWalletFailed), w, [], []. rewrite app_nil_r.
      simpl. repeat split; try done.
      - apply prefix_nil.
      - intros ? ?. apply not_elem_of_nil. }
  set (detected := if decide (rowSenderAddress wallet = EmptyString) then _ else _).
  assert (exists r w1 eff1,
            detected = (r, (w1, txs), eff1)
            /\ sleeps eff1 = []
            /\ forall id status, UpdateWalletStatus id status ∉ eff1)
    as (r & w1 & eff1 & -> & Hs1 & Hu1).
  { unfold detected. destruct (decide _).
    - destruct (GetSenderAddress _ _ _ _ _) as [[serr|saddr] wq]; simpl.
      + eexists _, _, _. split; [done|]. split; [done|].
        intros ? ?. apply not_elem_of_nil.
      + eexists _, _, _. split; [done|]. split; [done|].
        intros ? ? Hin. apply elem_of_cons in Hin as [Hin|Hin];
          [discriminate | by apply elem_of_nil in Hin].
    - eexists _, _, _. split; [done|]. split; [done|].
      intros ? ?. apply not_elem_of_nil. }
  assert (forall e : RefundError,
            (forall n lastErr, e <> WithdrawFailed n lastErr) ->
            exists res w2 added effects,
              Some (@inl RefundError string e, (w1, txs), eff1)
              = Some (res, (w2, txs ++ added), effects)
              /\ sleeps effects `prefix_of` [30 * Second; 60 * Second; 120 * Second]
              /\ (length added <= length (sleeps effects))%nat
              /\ match res with
                 | inr _ =>
                   exists walletID before,
                     effects = before ++ [UpdateWalletStatus walletID "withdrawn"]
                     /\ (forall id status, UpdateWalletStatus id status ∉ before)
                     /\ (1 <= length (sleeps effects))%nat
                 | inl e =>
                   (forall id status, UpdateWalletStatus id status ∉ effects)
                   /\ forall n lastErr, e = WithdrawFailed n lastErr ->
                        n = 3%nat /\ is_Some lastErr
                        /\ sleeps effects
                           = [30 * Second; 60 * Second; 120 * Second]
                 end) as Hearly.
  { intros e He. exists (inl e), w1, [], eff1. rewrite app_nil_r, Hs1.
    split; [done|]. split; [apply prefix_nil|]. split; [done|].
    split; [done|]. intros n lastErr ->. by destruct (He n lastErr). }
  destruct r as [e|senderAddress]; [by apply Hearly|].
  destruct (decodeKey (rowPrivateKeyHex wallet)) as [key|]; [|by apply Hearly].
  destruct (guestDecodeAddress (rowAddress wallet)) as [lock|];
    [|by apply Hearly].
  destruct (withdrawAttempts_spec waitTimes (rowID wallet) key lock
              senderAddress None (w1, txs) eff1)
    as (res & w2 & added & k & -> & Hk & Hlen & Hres).
  simpl in Hk.
  assert (sleeps (eff1 ++ (Sleep <$> take k waitTimes)) = take k waitTimes)
    as Hsl by (by rewrite sleeps_app, Hs1, sleeps_Sleep).
  destruct res as [lastErr|h].
  - destruct Hres as (-> & _ & Hsome).
    rewrite take_ge in * by done.
    exists (inl (WithdrawFailed (length waitTimes) lastErr)), w2, added,
      (eff1 ++ (Sleep <$> waitTimes)).
    rewrite !app_nil_r. split; [done|]. rewrite Hsl.
    split; [done|]. split; [exact Hlen|]. split.
    + intros id status Hin. apply elem_of_app in Hin as [Hin|Hin].
      * by apply (Hu1 id status).
      * apply list_elem_of_fmap in Hin as (d & Hd & _). discriminate.
    + intros n e [= <- <-]. split; [reflexivity|]. split; [by apply Hsome|done].
  - exists (inr h), w2, added,
      (eff1 ++ (Sleep <$> take k waitTimes)
         ++ [UpdateWalletStatus (rowID wallet) "withdrawn"]).
    split; [done|]. rewrite app_assoc, sleeps_app, Hsl.
    change (sleeps [UpdateWalletStatus (rowID wallet) "withdrawn"]) with (@nil Duration).
    rewrite app_nil_r, length_take.
    change (length waitTimes) with 3%nat in *.
    split; [apply prefix_take|]. split; [lia|].
    exists (rowID wallet), (eff1 ++ (Sleep <$> take k waitTimes)).
    split; [done|]. split; [|lia].
    intros id status Hin. apply elem_of_app in Hin as [Hin|Hin].
    + by apply (Hu1 id status).
    + apply list_elem_of_fmap in Hin as (d & Hd & _). discriminate.
Qed.

(** X16. [handleManualRefund] does not sweep a wallet that is already
    marked withdrawn, and asks the node nothing for it; it marks a wallet
    withdrawn exactly when it answers 200, after one transaction went to
    the node; with any other answer the store is left alone and at most
    one transaction went to the node. *)
Theorem handleManualRefund_guards (sessionID : string)
    (toAddress : option string) (st : Perun.St W) :
  exists code w2 added effects,
    handleManualRefund rpc signedWitness decodeAddress decodeKey
      guestDecodeAddress GetWalletBySessionID sessionID toAddress st
    = Some (code, (w2, st.2 ++ added), effects)
    /\ (length added <= 1)%nat
    /\ (forall wallet,
          GetWalletBySessionID sessionID = Some wallet ->
          rowStatus wallet = "withdrawn"%string ->
          code = 400 /\ w2 = st.1 /\ added = [] /\ effects = [])
    /\ (code = 200 ->
        length added = 1%nat
        /\ exists wallet,
             GetWalletBySessionID sessionID = Some wallet
             /\ effects = [UpdateWalletStatus (rowID wallet) "withdrawn"])
    /\ (code <> 200 -> effects = []).
Proof.
  unfold handleManualRefund.
  assert (forall code : Z, code <> 200 ->
            (forall wallet, GetWalletBySessionID sessionID = Some wallet ->
               rowStatus wallet = "withdrawn"%string -> code = 400) ->
            exists code' w2 added effects,
              Some (code, st, @nil RefundEffect)
              = Some (code', (w2, st.2 ++ added), effects)
              /\ (length added <= 1)%nat
              /\ (forall wallet,
                    GetWalletBySessionID sessionID = Some wallet ->
                    rowStatus wallet = "withdrawn"%string ->
                    code' = 400 /\ w2 = st.1 /\ added = [] /\ effects = [])
              /\ (code' = 200 ->
                  length added = 1%nat
                  /\ exists wallet,
                       GetWalletBySessionID sessionID = Some wallet
                       /\ effects
                          = [UpdateWalletStatus (rowID wallet) "withdrawn"])
              /\ (code' <> 200 -> effects = [])) as Hearly.
  { intros code Hcode H400. exists code, st.1, [], []. rewrite app_nil_r.
    destruct st. simpl. split; [done|]. split; [lia|].
    split; [|split; [lia|done]].
    intros wallet Hw Hs. split; [by eapply H400|done]. }
  destruct toAddress as [to|].
  2:{ apply Hearly; [lia|done]. }
  destruct (GetWalletBySessionID sessionID) as [wallet|] eqn:Hwallet.
  2:{ apply Hearly; [lia|]. intros wallet Hw. discriminate. }
  destruct (decide (rowStatus wallet = "withdrawn"%string)) as [Hdone|Hnot].
  { apply Hearly; [lia|done]. }
  assert (forall w0, Some w0 = Some wallet ->
            rowStatus w0 = "withdrawn"%string -> False) as Hno.
  { intros w0 [= ->]. done. }
  destruct (decodeKey (rowPrivateKeyHex wallet)) as [key|].
  2:{ apply Hearly; [lia|]. intros w0 Hw Hs. by destruct (Hno w0). }
  destruct (guestDecodeAddress (rowAddress wallet)) as [lock|].
  2:{ apply Hearly; [lia|]. intros w0 Hw Hs. by destruct (Hno w0). }
  destruct (WithdrawAll_log key lock to st)
    as (res & w2 & added & -> & Hlen & Hok).
  destruct res as [e|h].
  - exists 500, w2, added, []. split; [done|]. split; [lia|].
    split; [intros w0 Hw Hs; by destruct (Hno w0)|]. split; [lia|done].
  - exists 200, w2, added, [UpdateWalletStatus (rowID wallet) "withdrawn"].
    split; [done|]. split; [lia|].
    split; [intros w0 Hw Hs; by destruct (Hno w0)|]. split; [|lia].
    intros _. split; [by eapply Hok|eauto].
Qed.
End RefundFacts.

Lemma withdrawToSender_retries_witness :
  exists res w2 added effects,
    withdrawToSender (Perun.ledger sampleTxid) sampleQueries sampleWitness
      guestDecode sampleEncode (fun keyHex => Some keyHex) guestDecode
      (fun _ => Some (sampleRow EmptyString "active")) "s1"
      ([sampleCell "0xbb" 1 5000000000], [])
    = Some (res, (w2, added), effects)
    /\ sleeps effects `prefix_of` [30 * Second; 60 * Second; 120 * Second]
    /\ (length added <= length (sleeps effects))%nat
    /\ res = inl (WithdrawFailed 3
                    (Some (Perun.InsufficientBalance 5000000000))).
Proof.
  destruct (withdrawToSender_retries (Perun.ledger sampleTxid) sampleQueries
              sampleWitness guestDecode sampleEncode
              (fun keyHex => Some keyHex) guestDecode
              (fun _ => Some (sampleRow EmptyString "active")) "s1"
              ([sampleCell "0xbb" 1 5000000000], []))
    as (res & w2 & added & effects & Hrun & Hprefix & Hlen & _).
  exists res, w2, added, effects.
  split; [exact Hrun|]. split; [exact Hprefix|]. split; [exact Hlen|].
  vm_compute in Hrun. congruence.
Defined.

Lemma handleManualRefund_guards_witness :
  exists w2 added effects,
    handleManualRefund (Perun.ledger sampleTxid) sampleWitness guestDecode
      (fun keyHex => Some keyHex) guestDecode
      (fun _ => Some (sampleRow "ckt1sender" "withdrawn")) "s1"
      (Some "ckt1sender"%string) ([sampleCell "0xbb" 1 50000000000], [])
    = Some (400, (w2, added), effects)
    /\ added = [] /\ effects = [].
Proof.
  destruct (handleManualRefund_guards (Perun.ledger sampleTxid) sampleWitness
              guestDecode (fun keyHex => Some keyHex) guestDecode
              (fun _ => Some (sampleRow "ckt1sender" "withdrawn")) "s1"
              (Some "ckt1sender"%string)
              ([sampleCell "0xbb" 1 50000000000], []))
    as (code & w2 & added & effects & Hrun & _ & Hdone & _).
  destruct (Hdone _ eq_refl eq_refl) as (Hcode & _ & Hadded & Heffects).
  exists w2, added, effects. rewrite <- Hcode.
  split; [exact Hrun|]. by split.
Defined.

(** ** Showing sessions *)

Lemma Until_pos now t : 0 < Until now t <-> now < t.
Proof. unfold Until, Int64.min_int, Int64.max_int. lia. Qed.

Lemma rowInfo_id now row : infoSessionID (rowInfo now row) = dbID row.
Proof. unfold rowInfo. by case_decide. Qed.

Lemma rowInfo_active now row :
  infoStatus (rowInfo now row) = "active"%string ->
  dbStatus row = "active"%string /\ now < dbExpiresAt row.
Proof.
  unfold rowInfo. destruct (decide (dbStatus row = _)) as [Ho|Ho]; simpl.
  - intros Ha. by rewrite Ha in Ho.
  - destruct (decide (_ /\ _)) as [Hx|Hx]; simpl; [done|].
    intros Ha. split; [done|]. apply Until_pos.
    destruct (decide (Until now (dbExpiresAt row) < 0)).
    + exfalso. apply Hx. split; [lia|done].
    + destruct (decide (Until now (dbExpiresAt row) <= 0)); [|lia].
      exfalso. by apply Hx.
Qed.

Lemma rowInfo_remaining now row :
  match infoRemainingTime (rowInfo now row) with
  | Dash => infoStatus (rowInfo now row) = "channel_opening"%string
  | Formatted d =>
    0 <= d
    /\ infoStatus (rowInfo now row) <> "channel_opening"%string
    /\ (infoStatus (rowInfo now row) = "active"%string -> 0 < d)
  end.
Proof.
  unfold rowInfo. destruct (decide (dbStatus row = _)) as [Ho|Ho]; simpl; [done|].
  split; [case_decide; lia|].
  destruct (decide (_ /\ _)) as [Hx|Hx]; simpl; [done|].
  split; [done|]. intros Ha.
  destruct (decide (Until now (dbExpiresAt row) < 0)).
  + exfalso. apply Hx. split; [lia|done].
  + destruct (decide (Until now (dbExpiresAt row) <= 0)); [|lia].
    exfalso. by apply Hx.
Qed.

Lemma memoryInfo_remaining now g :
  exists d,
    infoRemainingTime (memoryInfo now g) = Formatted d
    /\ 0 <= d
    /\ (infoStatus (memoryInfo now g) = "active"%string <-> now < ExpiresAt g)
    /\ (infoStatus (memoryInfo now g) = "active"%string -> 0 < d)
    /\ (infoStatus (memoryInfo now g) = "expired"%string
        \/ infoStatus (memoryInfo now g) = "active"%string).
Proof.
  unfold memoryInfo. simpl. eexists. split; [done|].
  pose proof (Until_pos now (ExpiresAt g)) as Hp.
  destruct (decide (Until now (ExpiresAt g) < 0)) as [Hn|Hn];
    destruct (decide (_ <= 0)) as [Hz|Hz]; simpl;
    repeat split; try done; try lia; auto.
Qed.

(** X17. [handleGetSession] answers not found exactly when neither the
    store nor the registry has the id, and a row of the store hides the
    registry.  A session is shown active only while its expiry lies
    ahead, and then with a positive remaining time; the remaining time
    is never negative, and it is left out exactly for a session whose
    channel is still opening. *)
Theorem handleGetSession_views (GetSession : string -> option DbSession)
    (now : Time) (s : Server) (sessionID : string) :
  let r := handleGetSession GetSession now s sessionID in
  (r = None <->
     GetSession sessionID = None /\ sessions s !! sessionID = None)
  /\ (is_Some (GetSession sessionID) ->
      forall s', handleGetSession GetSession now s' sessionID = r)
  /\ (forall info, r = Some info ->
        (infoStatus info = "active"%string ->
           (exists d, infoRemainingTime info = Formatted d /\ 0 < d)
           /\ ((exists row, GetSession sessionID = Some row
                            /\ dbStatus row = "active"%string
                            /\ now < dbExpiresAt row)
               \/ (GetSession sessionID = None
                   /\ exists g, sessions s !! sessionID = Some g
                                /\ now < ExpiresAt g)))
        /\ (forall d, infoRemainingTime info = Formatted d -> 0 <= d)
        /\ (infoRemainingTime info = Dash <->
            infoStatus info = "channel_opening"%string)).
Proof.
  intros r. unfold r, handleGetSession.
  destruct (GetSession sessionID) as [row|] eqn:Hrow.
  - split; [split; [done|by intros [? _]]|]. split; [done|].
    intros info [= <-]. pose proof (rowInfo_remaining now row) as Hrem.
    split; [|split].
    + intros Ha. pose proof (rowInfo_active now row Ha) as [Hs Ht].
      split; [|left; eauto].
      destruct (infoRemainingTime (rowInfo now row)) as [|d].
      * by rewrite Ha in Hrem.
      * exists d. split; [done|]. by apply Hrem.
    + intros d Hd. rewrite Hd in Hrem. by destruct Hrem.
    + destruct (infoRemainingTime (rowInfo now row)); [done|].
      destruct Hrem as (_ & Hno & _). by split.
  - split.
    { destruct (sessions s !! sessionID); simpl; split; try done.
      by intros [_ ?]. }
    split; [by intros [? ?]|].
    intros info. destruct (sessions s !! sessionID) as [g|] eqn:Hg; [|done].
    simpl. intros [= <-].
    destruct (memoryInfo_remaining now g) as (d & Hd & Hnn & Hact & Hpos & Hst).
    rewrite Hd. split; [|split].
    + intros Ha. split; [eauto|]. right. split; [done|].
      exists g. split; [done|]. by apply Hact.
    + by intros ? [= <-].
    + split; [done|]. intros Ho. destruct Hst as [Hst|Hst];
        rewrite Hst in Ho; discriminate.
Qed.

Lemma handleGetSession_views_witness :
  exists d,
    infoRemainingTime
      (memoryInfo 5 (sampleSession "5f3a9c0e1b2d4c6a" 1000000000 0 65))
    = Formatted d
    /\ 0 < d.
Proof.
  apply (proj1 (proj2 (proj2
           (handleGetSession_views (fun _ => None) 5 (sampleRegistry 0 65)
              "5f3a9c0e1b2d4c6a"))
           (memoryInfo 5 (sampleSession "5f3a9c0e1b2d4c6a" 1000000000 0 65))
           eq_refl) eq_refl).
Defined.

(** X18. For a session that only the registry has, with amounts in the
    range of an [int64], [handleGetSession] shows whole CKB: the funding
    rounded down, and a spent amount and a balance that add up to it.
    The balance shown is not negative while the amount paid is within
    the funding, and it is negative once the amount paid exceeds the
    funding by a whole CKB. *)
Theorem handleGetSession_balance (GetSession : string -> option DbSession)
    (now : Time) (s : Server) (sessionID : string) (g : GuestSession) :
  GetSession sessionID = None ->
  sessions s !! sessionID = Some g ->
  0 <= TotalPaid g <= Int64.max_int ->
  0 <= FundingAmount g <= Int64.max_int ->
  exists info,
    handleGetSession GetSession now s sessionID = Some info
    /\ infoSpentCKB info + infoBalanceCKB info = infoFundingCKB info
    /\ infoFundingCKB info * 100000000 <= FundingAmount g
       < (infoFundingCKB info + 1) * 100000000
    /\ (withinFunding g -> 0 <= infoBalanceCKB info <= infoFundingCKB info)
    /\ (FundingAmount g + 100000000 <= TotalPaid g -> infoBalanceCKB info < 0).
Proof.
  intros Hrow Hg Hp Hf. unfold handleGetSession. rewrite Hrow, Hg. simpl.
  eexists. split; [done|]. simpl.
  unfold BigInt64, withinFunding, ShannonsPerCKB, Int64.max_int in *.
  rewrite !int64_wrap_id
    by (unfold Int64.in_range, Int64.min_int, Int64.max_int; lia).
  rewrite !Z.quot_div_nonneg by lia.
  assert (0 <= TotalPaid g `div` 100000000 < 92233720369) as Hp'.
  { split; [apply Z.div_pos; lia|].
    apply Z.div_lt_upper_bound; lia. }
  assert (0 <= FundingAmount g `div` 100000000 < 92233720369) as Hf'.
  { split; [apply Z.div_pos; lia|].
    apply Z.div_lt_upper_bound; lia. }
  unfold Int64.sub. rewrite int64_wrap_id
    by (unfold Int64.in_range, Int64.min_int, Int64.max_int; lia).
  pose proof (Z.div_mod (TotalPaid g) 100000000 ltac:(lia)) as Hdp.
  pose proof (Z.mod_pos_bound (TotalPaid g) 100000000 ltac:(lia)) as Hmp.
  pose proof (Z.div_mod (FundingAmount g) 100000000 ltac:(lia)) as Hdf.
  pose proof (Z.mod_pos_bound (FundingAmount g) 100000000 ltac:(lia)) as Hmf.
  repeat split; lia.
Qed.

Lemma handleGetSession_balance_witness :
  exists info,
    handleGetSession (fun _ => None) 5 (sampleRegistry 250000000 65)
      "5f3a9c0e1b2d4c6a" = Some info
    /\ infoSpentCKB info + infoBalanceCKB info = infoFundingCKB info
    /\ infoFundingCKB info = 10
    /\ 0 <= infoBalanceCKB info <= infoFundingCKB info.
Proof.
  destruct (handleGetSession_balance (fun _ => None) 5
              (sampleRegistry 250000000 65) "5f3a9c0e1b2d4c6a"
              (sampleSession "5f3a9c0e1b2d4c6a" 1000000000 250000000 65))
    as (info & Hrun & Hsum & Hfund & Hin & _).
  - reflexivity.
  - reflexivity.
  - vm_compute. split; discriminate.
  - vm_compute. split; discriminate.
  - exists info. split; [exact Hrun|]. split; [exact Hsum|].
    split; [simpl in Hfund; lia|]. apply Hin. vm_compute. discriminate.
Defined.

Lemma fmap_imap_const {A B C} (f : nat -> A -> B) (g : B -> C) (h : A -> C)
    (l : list A) :
  (forall i x, g (f i x) = h x) -> g <$> imap f l = h <$> l.
Proof.
  revert f. induction l as [|x l IH]; intros f Hf; simpl; [done|].
  rewrite Hf. f_equal. apply IH. intros i y. apply Hf.
Qed.

Lemma handleListSessionsIn_ids order ListSessions rowClock clock :
  infoSessionID <$> handleListSessionsIn order ListSessions rowClock clock
  = (dbID <$> default [] ListSessions)
      ++ ((fun entry => ID entry.2)
            <$> filter (fun entry : string * GuestSession =>
                          ID entry.2
                            ∉ (list_to_set (dbID <$> default [] ListSessions)
                                 : gset string)) order).
Proof.
  unfold handleListSessionsIn.
  assert (infoSessionID
            <$> match ListSessions with
                | Some dbSessions =>
                  imap (fun i row => rowInfo (rowClock i) row) dbSessions
                | None => []
                end
          = dbID <$> default [] ListSessions) as Hrows.
  { destruct ListSessions as [rows|]; simpl; [|done].
    apply fmap_imap_const. intros i row. apply rowInfo_id. }
  rewrite fmap_app, Hrows. f_equal. by rewrite <- list_fmap_compose.
Qed.

(** X19. In the listing of [handleListSessions] the rows of the store
    come first, in the order of the store, and a session of the registry
    follows only when no row has its id.  So, when the ids of the rows
    are distinct, no session id is listed twice, and the ids listed are
    exactly those of the store and of the registry; a store that fails
    to list counts as one without rows. *)
Theorem handleListSessions_each_once (s : Server)
    (ListSessions : option (list DbSession))
    (rowClock : nat -> Time) (clock : string -> Time)
    (order : list (string * GuestSession)) :
  iteration_order s order ->
  registered s ->
  let rows := default [] ListSessions in
  let out := handleListSessionsIn order ListSessions rowClock clock in
  NoDup (dbID <$> rows) ->
  NoDup (infoSessionID <$> out)
  /\ (forall id, id ∈ infoSessionID <$> out <->
                 id ∈ dbID <$> rows \/ is_Some (sessions s !! id))
  /\ take (length rows) (infoSessionID <$> out) = dbID <$> rows
  /\ (length rows <= length out <= length rows + size (sessions s))%nat.
Proof.
  intros Hord Hreg rows out Hrows. unfold out.
  pose proof (handleListSessionsIn_ids order ListSessions rowClock clock)
    as Hids. fold rows in Hids.
  set (unlisted := filter _ order) in Hids.
  assert (forall k g, (k, g) ∈ order <-> sessions s !! k = Some g) as Hin.
  { intros k g. unfold iteration_order in Hord. rewrite Hord.
    apply elem_of_map_to_list. }
  assert (Forall (fun entry : string * GuestSession => ID entry.2 = entry.1)
            order) as Hkeys.
  { apply Forall_forall. intros [k g] Hkg. apply Hin in Hkg. by apply Hreg. }
  assert ((fun entry : string * GuestSession => ID entry.2) <$> unlisted
          = fst <$> unlisted) as Hfst.
  { apply Forall_fmap_ext, Forall_forall. intros entry Hentry.
    unfold unlisted in Hentry.
    apply list_elem_of_filter in Hentry as [_ Hentry].
    rewrite Forall_forall in Hkeys. by apply Hkeys. }
  assert (forall id, id ∈ fst <$> unlisted <->
                     (id ∉ dbID <$> rows) /\ is_Some (sessions s !! id)) as Hun.
  { intros id. rewrite list_elem_of_fmap. split.
    - intros ([k g] & -> & Hkg). unfold unlisted in Hkg.
      apply list_elem_of_filter in Hkg as [Hno Hkg]. simpl in *.
      pose proof Hkg as Hkg'. apply Hin in Hkg'.
      rewrite (Hreg _ _ Hkg') in Hno.
      rewrite not_elem_of_list_to_set in Hno. eauto.
    - intros [Hno [g Hg]]. exists (id, g). split; [done|].
      unfold unlisted. apply list_elem_of_filter. simpl.
      rewrite (Hreg _ _ Hg), not_elem_of_list_to_set.
      split; [done|]. by apply Hin. }
  rewrite Hids, Hfst. split; [|split; [|split]].
  - apply NoDup_app. split; [done|]. split.
    + intros id Hid Hid'. apply Hun in Hid' as [Hno _]. done.
    + apply (sublist_NoDup _ (fst <$> order)).
      * unfold iteration_order in Hord. rewrite Hord.
        apply NoDup_fst_map_to_list.
      * apply fmap_sublist, sublist_filter.
  - intros id. rewrite elem_of_app, Hun.
    destruct (decide (id ∈ dbID <$> rows)) as [Hid|Hid].
    + split; intros _; by left.
    + split.
      * intros [?|[_ ?]]; [by left|by right].
      * intros [?|?]; [by left|by right].
  - rewrite <- (length_fmap dbID rows). apply take_app_length.
  - assert (length (handleListSessionsIn order ListSessions rowClock clock)
            = (length rows + length unlisted)%nat) as ->.
    { rewrite <- (length_fmap infoSessionID), Hids, length_app.
      by rewrite !length_fmap. }
    assert (length unlisted <= size (sessions s))%nat; [|lia].
    rewrite <- length_map_to_list. unfold iteration_order in Hord.
    rewrite <- Hord. apply length_filter.
Qed.

Lemma handleListSessions_each_once_witness :
  NoDup (infoSessionID
           <$> handleListSessions (sampleRegistry 0 65)
                 (Some [sampleDbRow "5f3a9c0e1b2d4c6a" "active" 65;
                        sampleDbRow "0b7e2a9c4d1f3e5a" "settled" 40])
                 (fun _ => 5) (fun _ => 5))
  /\ length (handleListSessions (sampleRegistry 0 65)
               (Some [sampleDbRow "5f3a9c0e1b2d4c6a" "active" 65;
                      sampleDbRow "0b7e2a9c4d1f3e5a" "settled" 40])
               (fun _ => 5) (fun _ => 5)) = 2%nat.
Proof.
  split; [|reflexivity].
  apply (handleListSessions_each_once (sampleRegistry 0 65)
           (Some [sampleDbRow "5f3a9c0e1b2d4c6a" "active" 65;
                  sampleDbRow "0b7e2a9c4d1f3e5a" "settled" 40])
           (fun _ => 5) (fun _ => 5)
           (map_to_list (sessions (sampleRegistry 0 65)))).
  - unfold iteration_order. reflexivity.
  - intros k g. simpl. intros Hk.
    apply lookup_singleton_Some in Hk as [<- <-]. reflexivity.
  - simpl. apply NoDup_cons. split.
    + intros Hin. apply list_elem_of_singleton in Hin. discriminate.
    + apply NoDup_singleton.
Defined.

(** ** Settings and the demo endpoint *)

(** X20. [handleUpdateRate] answers 200 exactly for a request that
    carries the dashboard password and a rate of at least 1 that the
    store accepts; with every other answer the server is as before, and
    a request without the password does not reach the store.  It never
    touches the registry.  After a 200 for a rate of at most 92233720368
    CKB per hour the rate per minute is that rate in shannons over 60,
    and positive. *)
Theorem handleUpdateRate_guards (dashboardPassword : string)
    (SetRatePerHour : Z -> bool) (s : Server)
    (authCookie : option string) (body : option Z) :
  let r := handleUpdateRate dashboardPassword SetRatePerHour s authCookie body in
  (r.2 = 200 <->
     authCookie = Some dashboardPassword
     /\ exists rate, body = Some rate /\ 1 <= rate
                     /\ SetRatePerHour rate = true)
  /\ (r.2 <> 200 -> r.1.1 = s)
  /\ (authCookie <> Some dashboardPassword -> r = (s, [], 401))
  /\ (forall rate, rate ∈ r.1.2 -> body = Some rate /\ 1 <= rate)
  /\ sessions r.1.1 = sessions s
  /\ (r.2 = 200 ->
      forall rate, body = Some rate -> rate <= 92233720368 ->
        ratePerMin r.1.1 = (rate * 100000000) ÷ 60
        /\ 1666666 <= ratePerMin r.1.1).
Proof.
  intros r. unfold r, handleUpdateRate.
  destruct authCookie as [cookie|].
  2:{ simpl. split; [split; [done|by intros [? _]]|].
      split; [done|]. split; [done|].
      split; [intros ? Hin; by apply elem_of_nil in Hin|]. by split. }
  destruct (decide (cookie <> dashboardPassword)) as [Hne|Heq].
  { simpl. split; [split; [done|intros [[= ?] _]; done]|].
    split; [done|]. split; [done|].
    split; [intros ? Hin; by apply elem_of_nil in Hin|]. by split. }
  assert (cookie = dashboardPassword) as ->.
  { by destruct (decide (cookie = dashboardPassword)). }
  destruct body as [rate|].
  2:{ simpl. split; [split; [done|by intros [_ (? & ? & _)]]|].
      split; [done|]. split; [done|].
      split; [intros ? Hin; by apply elem_of_nil in Hin|]. by split. }
  destruct (decide (rate < 1)) as [Hlt|Hge].
  { simpl. split; [split; [done|intros [_ (? & [= <-] & ? & _)]; lia]|].
    split; [done|]. split; [done|].
    split; [intros ? Hin; by apply elem_of_nil in Hin|]. by split. }
  destruct (SetRatePerHour rate) eqn:Hset; simpl.
  - split; [split; [intros _; split; [done|exists rate; split; [done|split; [lia|done]]]|done]|].
    split; [done|]. split; [done|].
    split; [intros ? Hin; apply list_elem_of_singleton in Hin as ->;
            split; [done|lia]|].
    split; [done|]. intros _ rate' [= <-] Hmax.
    split; [|apply ratePerMinShannons_pos; lia].
    apply ratePerMinShannons_exact.
    unfold Int64.in_range, Int64.min_int, Int64.max_int. lia.
  - split; [split; [done|]|].
    { intros [_ (? & [= <-] & _ & Hacc)]. congruence. }
    split; [done|]. split; [done|].
    split; [intros ? Hin; apply list_elem_of_singleton in Hin as ->;
            split; [done|lia]|].
    by split.
Qed.

Lemma handleUpdateRate_guards_witness :
  ratePerMin (handleUpdateRate "hunter2" (fun _ => true) sampleServer
                (Some "hunter2"%string) (Some 600)).1.1
  = (600 * 100000000) ÷ 60
  /\ (handleUpdateRate "hunter2" (fun _ => true) sampleServer
        (Some "letmein"%string) (Some 600)) = (sampleServer, [], 401).
Proof.
  split.
  - apply (proj2 (proj2 (proj2 (proj2 (proj2
             (handleUpdateRate_guards "hunter2" (fun _ => true) sampleServer
                (Some "hunter2"%string) (Some 600)))))) eq_refl 600 eq_refl).
    lia.
  - apply (proj1 (proj2 (proj2
             (handleUpdateRate_guards "hunter2" (fun _ => true) sampleServer
                (Some "letmein"%string) (Some 600))))).
    discriminate.
Defined.

Lemma BigDiv_pos x y : 0 < y -> BigDiv x y = Some (x `div` y).
Proof.
  intros Hy. unfold BigDiv. destruct (decide (y = 0)); [lia|].
  rewrite Z.sgn_pos, Z.abs_eq by lia. f_equal. lia.
Qed.

(** X21. [handleOpenChannel] changes the server only with a 200, and
    then by registering one session under the first sixteen characters
    of the channel id, with the requested funding in shannons and
    nothing paid, so within its funding; a registry that holds every
    session under its own id still does.  While the funding buys at most
    153722867 minutes at a positive rate, the session expires that many
    minutes after the clock reading.  The handler panics exactly when
    the channel is open and the rate per minute is zero, or the
    hexadecimal channel id has fewer than the sixteen characters that
    are cut from it (the 64 characters of a 32-byte id are enough). *)
Theorem handleOpenChannel_outcomes (env : DemoEnv) (s : Server)
    (body : option (string * option Z)) :
  (forall s' code,
     handleOpenChannel env s body = Some (s', code) -> code <> 200 -> s' = s)
  /\ (forall s',
        handleOpenChannel env s body = Some (s', 200) ->
        exists guestAddress fundingCKB channelID g,
          body = Some (guestAddress, Some fundingCKB)
          /\ 0 < fundingCKB
          /\ demoChannelID env = Some channelID
          /\ s' = setSessions s (<[ID g := g]> (sessions s))
          /\ ID g = String.substring 0 16 channelID
          /\ GuestAddress g = guestAddress
          /\ FundingAmount g = fundingCKB * 100000000
          /\ TotalPaid g = 0
          /\ withinFunding g
          /\ (registered s -> registered s')
          /\ (0 < ratePerMin s ->
              (fundingCKB * 100000000) `div` ratePerMin s <= 153722867 ->
              ExpiresAt g
              = demoExpiresFrom env
                + (fundingCKB * 100000000) `div` ratePerMin s * Minute))
  /\ (handleOpenChannel env s body = None <->
        exists guestAddress fundingCKB channelID,
          body = Some (guestAddress, Some fundingCKB)
          /\ 0 < fundingCKB
          /\ demoClientCreated env = true
          /\ demoChannelID env = Some channelID
          /\ (ratePerMin s = 0 \/ (String.length channelID < 16)%nat)).
Proof.
  unfold handleOpenChannel.
  destruct body as [[guestAddress [fundingCKB|]]|].
  2,3: (split; [by intros s' code [= <- <-]|]; split; [done|];
        split; [done|]; by intros (? & ? & ? & ? & _)).
  destruct (decide (fundingCKB <= 0)) as [Hle|Hpos].
  { split; [by intros s' code [= <- <-]|]. split; [done|].
    split; [done|]. intros (? & ? & ? & [= <- <-] & ? & _). lia. }
  destruct (demoClientCreated env) eqn:Hclient; simpl.
  2:{ split; [by intros s' code [= <- <-]|]. split; [done|].
      split; [done|]. by intros (? & ? & ? & _ & _ & ? & _). }
  destruct (demoChannelID env) as [channelID|] eqn:Hchannel.
  2:{ split; [by intros s' code [= <- <-]|]. split; [done|].
      split; [done|]. by intros (? & ? & ? & _ & _ & _ & ? & _). }
  unfold BigDiv. destruct (decide (ratePerMin s = 0)) as [Hzero|Hrate]; simpl.
  { split; [done|]. split; [done|]. split; [|done]. intros _.
    exists guestAddress, fundingCKB, channelID.
    split; [done|]. split; [lia|]. split; [done|]. split; [done|]. by left. }
  destruct (decide (String.length channelID < 16)%nat) as [Hshort|Hlong].
  { split; [done|]. split; [done|]. split; [|done]. intros _.
    exists guestAddress, fundingCKB, channelID.
    split; [done|]. split; [lia|]. split; [done|]. split; [done|]. by right. }
  split; [by intros s' code [= <- <-]|]. split.
  - intros s' [= <-].
    match goal with
    | |- context [<[_ := ?g]> (sessions s)] =>
      exists guestAddress, fundingCKB, channelID, g
    end.
    split; [done|]. split; [lia|]. split; [done|].
    split; [reflexivity|]. simpl. split; [done|]. split; [done|].
    split; [done|]. split; [done|]. split; [unfold withinFunding; simpl; unfold ShannonsPerCKB; lia|].
    split.
    + intros Hreg k g. simpl. intros Hk.
      apply lookup_insert_Some in Hk as [[<- <-]|[_ Hk]]; [done|by apply Hreg].
    + intros Hr Hq. rewrite Z.sgn_pos, Z.abs_eq by lia.
      unfold ShannonsPerCKB in *.
      assert (0 <= (fundingCKB * 100000000) `div` ratePerMin s) as Hq0
        by (apply Z.div_pos; lia).
      unfold TimeAdd, Minutes, Int64.mul, BigInt64, Minute.
      rewrite Z.mul_1_l.
      rewrite (int64_wrap_id ((fundingCKB * 100000000) `div` ratePerMin s))
        by (unfold Int64.in_range, Int64.min_int, Int64.max_int; lia).
      rewrite int64_wrap_id
        by (unfold Int64.in_range, Int64.min_int, Int64.max_int; lia).
      done.
  - split; [done|]. intros (? & ? & ? & [= <- <-] & _ & _ & [= <-] & [?|?]);
      [done|lia].
Qed.

Lemma handleOpenChannel_outcomes_witness :
  exists s',
    handleOpenChannel sampleDemoEnv sampleServer
      (Some ("ckt1guest"%string, Some 50)) = Some (s', 200)
    /\ registered s'.
Proof.
  eexists. split; [reflexivity|].
  destruct (proj1 (proj2 (handleOpenChannel_outcomes sampleDemoEnv
                            sampleServer (Some ("ckt1guest"%string, Some 50))))
              _ eq_refl)
    as (guestAddress & fundingCKB & channelID & g & _ & _ & _ & Hs' & _ & _
        & _ & _ & _ & Hreg & _).
  apply Hreg. apply NewServer_registered.
Defined.

(** ** Shortening strings for the terminal *)

(** X22. [truncateAddress] panics exactly for a negative bound.
    Otherwise the result is the address itself when it fits, and else a
    string of [maxLen] or [maxLen - 1] characters: the first [maxLen]
    characters when the bound is below ten, and from ten on the first
    and the last [(maxLen - 3) / 2] characters of the address around
    three dots. *)
Theorem truncateAddress_bounds (addr : list Ascii.ascii) (maxLen : Z) :
  (truncateAddress addr maxLen = None <-> maxLen < 0)
  /\ forall out,
       truncateAddress addr maxLen = Some out ->
       Z.of_nat (length out) <= maxLen
       /\ (Z.of_nat (length addr) <= maxLen -> out = addr)
       /\ (maxLen < Z.of_nat (length addr) ->
           maxLen - 1 <= Z.of_nat (length out)
           /\ (maxLen < 10 -> out = take (Z.to_nat maxLen) addr)
           /\ (10 <= maxLen ->
               exists half,
                 Z.of_nat half = (maxLen - 3) `div` 2
                 /\ (3 <= half)%nat
                 /\ out = take half addr ++ ellipsis
                            ++ drop (length addr - half) addr)).
Proof.
  unfold truncateAddress.
  destruct (decide (Z.of_nat (length addr) <= maxLen)) as [Hfit|Hcut].
  { split; [split; [done|lia]|]. intros out Hout. apply (inj Some) in Hout as <-.
    split; [done|]. split; [done|]. lia. }
  destruct (decide (maxLen < 10)) as [Hsmall|Hbig].
  - destruct (decide (maxLen < 0)) as [Hneg|Hnn].
    + split; [done|]. done.
    + split; [split; [done|lia]|]. intros out Hout. apply (inj Some) in Hout as <-.
      rewrite length_take. split; [lia|]. split; [lia|]. intros _.
      split; [lia|]. split; [done|lia].
  - split; [split; [done|lia]|]. intros out Hout. apply (inj Some) in Hout as <-.
    rewrite Z.quot_div_nonneg by lia.
    pose proof (Z.div_mod (maxLen - 3) 2 ltac:(lia)) as Hdiv.
    pose proof (Z.mod_pos_bound (maxLen - 3) 2 ltac:(lia)) as Hmod.
    set (half := (maxLen - 3) `div` 2) in *.
    rewrite !length_app, length_take, length_drop.
    change (length ellipsis) with 3%nat.
    split; [lia|]. split; [lia|]. intros _. split; [lia|].
    split; [lia|]. intros _. exists (Z.to_nat half).
    split; [lia|]. split; [lia|done].
Qed.

Lemma truncateAddress_bounds_witness :
  truncateAddress (String.list_ascii_of_string "ckt1qzda0cr08m85hc8jlnfp3zer7xulejywt49kt2rr0vthywaa50xws")
    16
  = Some (String.list_ascii_of_string "ckt1qz...a50xws")
  /\ Z.of_nat (length (String.list_ascii_of_string "ckt1qz...a50xws")) <= 16.
Proof.
  split; [reflexivity|].
  apply (proj2 (truncateAddress_bounds
                  (String.list_ascii_of_string "ckt1qzda0cr08m85hc8jlnfp3zer7xulejywt49kt2rr0vthywaa50xws")
                  16)
           (String.list_ascii_of_string "ckt1qz...a50xws")).
  reflexivity.
Defined.

(** X23. [truncate] panics exactly when the string is longer than a
    bound below three.  Otherwise it returns the string itself when it
    fits, and else its first [maxLen - 3] characters and three dots,
    [maxLen] characters in all. *)
Theorem truncate_bounds (s : list Ascii.ascii) (maxLen : Z) :
  (truncate s maxLen = None <->
     maxLen < Z.of_nat (length s) /\ maxLen < 3)
  /\ forall out,
       truncate s maxLen = Some out ->
       Z.of_nat (length out) <= maxLen
       /\ (Z.of_nat (length s) <= maxLen -> out = s)
       /\ (maxLen < Z.of_nat (length s) ->
           out = take (Z.to_nat (maxLen - 3)) s ++ ellipsis
           /\ Z.of_nat (length out) = maxLen).
Proof.
  unfold truncate.
  destruct (decide (Z.of_nat (length s) <= maxLen)) as [Hfit|Hcut].
  { split; [split; [done|lia]|]. intros out Hout. apply (inj Some) in Hout as <-.
    split; [done|]. split; [done|]. lia. }
  destruct (decide (maxLen - 3 < 0)) as [Hneg|Hnn].
  - split; [split; [lia|done]|]. done.
  - split; [split; [done|lia]|]. intros out Hout. apply (inj Some) in Hout as <-.
    rewrite length_app, length_take. change (length ellipsis) with 3%nat.
    split; [lia|]. split; [lia|]. intros _. split; [done|lia].
Qed.

Lemma truncate_bounds_witness :
  truncate (String.list_ascii_of_string "insufficient balance") 10
  = Some (String.list_ascii_of_string "insuffi...")
  /\ Z.of_nat (length (String.list_ascii_of_string "insuffi...")) <= 10.
Proof.
  split; [reflexivity|].
  apply (proj2 (truncate_bounds
                  (String.list_ascii_of_string "insufficient balance") 10)
           (String.list_ascii_of_string "insuffi...")).
  reflexivity.
Defined.

(** ** The message that is signed *)

Lemma putUint64_length v : length (putUint64 v) = 8%nat.
Proof. reflexivity. Qed.

Lemma getUint64_putUint64 v : 0 <= v < 2 ^ 64 -> getUint64 (putUint64 v) = v.
Proof.
  intros Hv. unfold getUint64, putUint64.
  change (seqZ 0 8) with [0; 1; 2; 3; 4; 5; 6; 7].
  cbn [fmap list_fmap take foldr].
  change (256 ^ 0) with 1. change (256 ^ 1) with 256.
  change (256 ^ 2) with 65536. change (256 ^ 3) with 16777216.
  change (256 ^ 4) with 4294967296. change (256 ^ 5) with 1099511627776.
  change (256 ^ 6) with 281474976710656.
  change (256 ^ 7) with 72057594037927936.
  Z.div_mod_to_equations; lia.
Qed.

Lemma hashPrefix_length txHash : length (hashPrefix txHash) = 32%nat.
Proof.
  unfold hashPrefix. rewrite length_take, length_app, length_replicate. lia.
Qed.

(** The frame of one witness: its length, then its bytes. *)
Lemma withdrawerMessage_frames txHash witnesses :
  withdrawerMessage txHash witnesses
  = hashPrefix txHash
      ++ concat ((fun witness =>
                    putUint64 (Uint64.wrap (Z.of_nat (length witness)))
                      ++ witness) <$> witnesses).
Proof.
  unfold withdrawerMessage. generalize (hashPrefix txHash) as message.
  induction witnesses as [|w ws IH]; intros message; simpl.
  - by rewrite app_nil_r.
  - rewrite IH. by rewrite <- !app_assoc.
Qed.

Lemma frames_inj ws ws' :
  Forall (fun w : list Z => Z.of_nat (length w) < 2 ^ 64) ws ->
  Forall (fun w : list Z => Z.of_nat (length w) < 2 ^ 64) ws' ->
  concat ((fun witness =>
             putUint64 (Uint64.wrap (Z.of_nat (length witness))) ++ witness)
            <$> ws)
  = concat ((fun witness =>
               putUint64 (Uint64.wrap (Z.of_nat (length witness))) ++ witness)
              <$> ws') ->
  ws = ws'.
Proof.
  intros Hws. revert ws'.
  induction Hws as [|w ws Hw Hws IH]; intros ws' Hws' Heq.
  - destruct ws' as [|w' ws']; [done|].
    apply (f_equal length) in Heq. cbn [fmap list_fmap concat] in Heq.
    rewrite !length_app, putUint64_length in Heq. simpl in Heq. lia.
  - destruct Hws' as [|w' ws' Hw' Hws'].
    + apply (f_equal length) in Heq. cbn [fmap list_fmap concat] in Heq.
      rewrite !length_app, putUint64_length in Heq. simpl in Heq. lia.
    + cbn [fmap list_fmap concat] in Heq. rewrite <- !app_assoc in Heq.
      apply app_inj_1 in Heq as [Hlen Heq];
        [|by rewrite !putUint64_length].
      apply (f_equal getUint64) in Hlen.
      rewrite !getUint64_putUint64 in Hlen
        by (unfold Uint64.wrap; apply Z.mod_pos_bound; lia).
      unfold Uint64.wrap in Hlen. rewrite !Z.mod_small in Hlen by lia.
      apply app_inj_1 in Heq as [-> Heq]; [|lia].
      f_equal. by apply IH.
Qed.

(** X24. For a transaction with one witness the cell splitter and the
    withdrawer sign the same message: 32 bytes of transaction hash, the
    length of the witness in 8 bytes, and the witness. *)
Theorem signing_messages_agree (txHash witnessBytes : list Z) :
  splitterMessage txHash witnessBytes
  = withdrawerMessage txHash [witnessBytes]
  /\ length (splitterMessage txHash witnessBytes)
     = (32 + 8 + length witnessBytes)%nat
  /\ take 32 (splitterMessage txHash witnessBytes) = hashPrefix txHash
  /\ (Z.of_nat (length witnessBytes) < 2 ^ 64 ->
      getUint64 (drop 32 (splitterMessage txHash witnessBytes))
      = Z.of_nat (length witnessBytes)).
Proof.
  unfold splitterMessage. split; [|split; [|split]].
  - unfold withdrawerMessage. simpl. by rewrite <- app_assoc.
  - rewrite !length_app, hashPrefix_length, putUint64_length. lia.
  - rewrite <- (hashPrefix_length txHash) at 1. apply take_app_length.
  - intros Hlen. rewrite <- (hashPrefix_length txHash) at 1.
    rewrite drop_app_length. unfold getUint64.
    rewrite <- (putUint64_length (Uint64.wrap (Z.of_nat (length witnessBytes))))
      at 1.
    rewrite take_app_length.
    fold (getUint64 (putUint64 (Uint64.wrap (Z.of_nat (length witnessBytes))))).
    unfold Uint64.wrap. rewrite Z.mod_small by lia.
    apply getUint64_putUint64. lia.
Qed.

Lemma signing_messages_agree_witness :
  getUint64 (drop 32 (splitterMessage (replicate 32 7) (replicate 85 0))) = 85.
Proof.
  apply (proj2 (proj2 (proj2
           (signing_messages_agree (replicate 32 7) (replicate 85 0))))).
  simpl. lia.
Defined.

(** X25. The message that the withdrawer signs determines the
    witnesses: two lists of witnesses that differ give different
    messages, whatever the transaction hashes, because every witness
    goes behind its length. *)
Theorem withdrawerMessage_injective (txHash txHash' : list Z)
    (witnesses witnesses' : list (list Z)) :
  Forall (fun w : list Z => Z.of_nat (length w) < 2 ^ 64) witnesses ->
  Forall (fun w : list Z => Z.of_nat (length w) < 2 ^ 64) witnesses' ->
  witnesses <> witnesses' ->
  withdrawerMessage txHash witnesses <> withdrawerMessage txHash' witnesses'.
Proof.
  intros Hws Hws' Hne Heq. apply Hne.
  rewrite !withdrawerMessage_frames in Heq.
  apply app_inj_1 in Heq as [_ Heq]; [|by rewrite !hashPrefix_length].
  by apply frames_inj.
Qed.

Lemma withdrawerMessage_injective_witness :
  withdrawerMessage (replicate 32 7) [[1; 2]; [3]]
  <> withdrawerMessage (replicate 32 7) [[1]; [2; 3]].
Proof.
  apply withdrawerMessage_injective.
  - repeat constructor; simpl; lia.
  - repeat constructor; simpl; lia.
  - discriminate.
Defined.
